(** * EDAFrame: a caching wrapper over a partitioned table and its array views

    Shallow embedding of [dataprep/eda/eda_frame.py].

    Scope of the model.
    - Python objects held in cells and column labels are the values of
      [pyobj]: [None], the float NaN, booleans, integers, strings, lists and
      tuples.  Finite floats, timestamps and the other missing markers of
      pandas are not represented.
    - The dask/pandas engine is modelled by its data: a table is a list of
      partitions, each a list of rows; a dask array is its chunk metadata
      together with its row blocks.  The row index of a table is not
      represented: no view and no cache of the wrapper reads it.
    - Python objects that the wrapper aliases or mutates in place (wrapper
      instances, dask arrays, the string-coercion dictionaries) live in a
      store and are named by their location. *)

From Stdlib Require Import ZArith QArith Qround Ascii String.
From stdpp Require Import gmap strings list fin_maps pretty.

Set Warnings "-register-all".

Open Scope Z_scope.
Open Scope nat_scope.

(** ** Python values *)

Module Py.

Inductive pyobj : Type :=
| PyNone
| PyNaN
| PyBool (b : bool)
| PyInt (z : Z)
| PyStr (s : string)
| PyList (items : list pyobj)
| PyTuple (items : list pyobj).

Definition hex_digit (n : N) : ascii :=
  match n with
  | 0 => "0" | 1 => "1" | 2 => "2" | 3 => "3" | 4 => "4" | 5 => "5"
  | 6 => "6" | 7 => "7" | 8 => "8" | 9 => "9" | 10 => "a" | 11 => "b"
  | 12 => "c" | 13 => "d" | 14 => "e" | _ => "f"
  end%N%char.

Definition dquote : ascii := ascii_of_N 34.

(** One character of [repr] of a [str] delimited by [quote].  The characters
    of a text are the code points 0 to 255; those that are not printable
    (the control characters below 32 and from 127 to 159, the no-break space
    160 and the soft hyphen 173) are written as [\xNN]. *)
Definition repr_char (quote : ascii) (c : ascii) : string :=
  let n := N_of_ascii c in
  if decide (c = "\"%char) then "\\"
  else if decide (c = quote) then String "\"%char (String quote EmptyString)
  else if decide (n = 9%N) then "\t"
  else if decide (n = 10%N) then "\n"
  else if decide (n = 13%N) then "\r"
  else if decide (n < 32 ∨ (127 ≤ n ∧ n ≤ 160) ∨ n = 173)%N then
    String "\"%char (String "x"%char
      (String (hex_digit (n / 16)) (String (hex_digit (n mod 16)) EmptyString)))
  else String c EmptyString.

Fixpoint string_has (c : ascii) (s : string) : bool :=
  match s with
  | EmptyString => false
  | String d s' => if decide (c = d) then true else string_has c s'
  end.

Fixpoint repr_body (quote : ascii) (s : string) : string :=
  match s with
  | EmptyString => EmptyString
  | String c s' => repr_char quote c +:+ repr_body quote s'
  end.

(** [repr] of a [str]: single quotes, unless the text has a single quote and
    no double quote. *)
Definition repr_str (s : string) : string :=
  let quote :=
    if string_has "'"%char s && negb (string_has dquote s)
    then dquote else "'"%char in
  String quote (repr_body quote s) +:+ String quote EmptyString.

Fixpoint join (sep : string) (l : list string) : string :=
  match l with
  | [] => ""
  | [x] => x
  | x :: l' => x +:+ sep +:+ join sep l'
  end.

(** [repr(obj)] *)
Fixpoint py_repr (o : pyobj) : string :=
  match o with
  | PyNone => "None"
  | PyNaN => "nan"
  | PyBool true => "True"
  | PyBool false => "False"
  | PyInt z => pretty z
  | PyStr s => repr_str s
  | PyList items => "[" +:+ join ", " (map py_repr items) +:+ "]"
  | PyTuple [x] => "(" +:+ py_repr x +:+ ",)"
  | PyTuple items => "(" +:+ join ", " (map py_repr items) +:+ ")"
  end.

(** [str(obj)]: the text itself for a [str], [repr] for everything else. *)
Definition py_str (o : pyobj) : string :=
  match o with
  | PyStr s => s
  | _ => py_repr o
  end.

(** [pandas._libs.missing.checknull]: one boolean per object; a list or a
    tuple is an ordinary, non-missing object. *)
Definition checknull (o : pyobj) : bool :=
  match o with
  | PyNone | PyNaN => true
  | _ => false
  end.

(** [bool(obj)] *)
Definition py_bool (o : pyobj) : bool :=
  match o with
  | PyNone => false
  | PyNaN => true
  | PyBool b => b
  | PyInt z => negb (z =? 0)%Z
  | PyStr s => negb (bool_decide (s = ""))
  | PyList items | PyTuple items => negb (bool_decide (items = []))
  end.

(** The float64 nearest to an integer, ties to the even significand: the
    value of [float(z)] and of numpy's conversion of an int64.  Integers
    below 2^53 in magnitude are kept. *)
Definition float64_of_Z (z : Z) : Z :=
  let a := Z.abs z in
  if decide (a < 2 ^ 53)%Z then z
  else
    let e := (Z.log2 a - 52)%Z in
    let q := (a / 2 ^ e)%Z in
    let r := (a mod 2 ^ e)%Z in
    let half := (2 ^ (e - 1))%Z in
    let q' := if decide (r < half)%Z then q
              else if decide (half < r)%Z then (q + 1)%Z
              else if Z.even q then q else (q + 1)%Z in
    (Z.sgn z * (q' * 2 ^ e))%Z.

End Py.
Export Py.

(** ** Column-label normalisation *)

(** [collections.Counter(columns)]; a missing key counts 0. *)
Definition Counter (columns : list string) : gmap string nat :=
  foldl (λ m c, <[c := S (default 0 (m !! c))]> m) ∅ columns.

(** The [for i, col in enumerate(columns)] loop of [_process_column_name].
    The list is rewritten in place at index [i] while it is iterated; [n]
    counts the iterations that remain. *)
Fixpoint rename_loop (column_count : gmap string nat) (n i : nat)
    (columns : list string) (current_id : gmap string nat) : list string :=
  match n with
  | 0 => columns
  | S n' =>
    match columns !! i with
    | None => columns
    | Some col =>
      if decide (1 < default 0 (column_count !! col)) then
        let current_id := <[col := default 0 (current_id !! col) + 1]> current_id in
        let new_col_name := col +:+ "_" +:+ pretty (default 0 (current_id !! col)) in
        rename_loop column_count n' (S i) (<[i := new_col_name]> columns) current_id
      else
        let new_col_name := col in
        rename_loop column_count n' (S i) (<[i := new_col_name]> columns) current_id
    end
  end.

Definition _process_column_name (df_columns : list pyobj) : list string :=
  let columns := map py_str df_columns in
  let column_count := Counter columns in
  rename_loop column_count (length columns) 0 columns ∅.

(** Number of occurrences of a label in a list of labels. *)
Definition occurrences (c : string) (l : list string) : nat :=
  length (filter (λ x, x = c) l).

(** The label that position [i] of [columns] receives. *)
Definition renamed (columns : list string) (i : nat) (col : string) : string :=
  if decide (1 < occurrences col columns)
  then col +:+ "_" +:+ pretty (occurrences col (take (S i) columns))
  else col.

(** ** The engine's data: numpy arrays, pandas and dask tables *)

Inductive np_dtype : Type := dt_bool | dt_int64 | dt_float64 | dt_object.

Global Instance np_dtype_eq_dec : EqDecision np_dtype.
Proof. solve_decision. Defined.

(** [numpy.promote_types] on the four element types of the model. *)
Definition promote_types (a b : np_dtype) : np_dtype :=
  match a, b with
  | dt_object, _ | _, dt_object => dt_object
  | dt_float64, _ | _, dt_float64 => dt_float64
  | dt_int64, _ | _, dt_int64 => dt_int64
  | dt_bool, dt_bool => dt_bool
  end.

(** The element type pandas gives to the array of a whole table: the common
    type of the columns, except that booleans mixed with anything else fall
    back to [object]; a table without columns gives [float64]. *)
Definition interleaved_dtype (dts : list np_dtype) : np_dtype :=
  match dts with
  | [] => dt_float64
  | d :: ds =>
    if forallb (λ x, bool_decide (x = d)) ds then d
    else if existsb (λ x, bool_decide (x = dt_object ∨ x = dt_bool)) dts then dt_object
    else dt_float64
  end.

Abbreviation row := (list pyobj).

(** A materialised 2-d array of shape [(length nd_rows, nd_ncols)].  An
    element is written as the Python value it is read back as; since finite
    floats are not among the values of the model, an integer in an array of
    type float64 stands for the float of that value. *)
Record ndarray : Type := mk_ndarray {
  nd_dtype : np_dtype;
  nd_ncols : nat;
  nd_rows : list row }.

(** Chunk sizes along the rows ([None] is dask's unknown size, NaN) and along
    the columns. *)
Definition chunks_t : Type := list (option nat) * list nat.

(** A dask array: the chunk metadata it reports and the row blocks its graph
    produces.  The tables of this program give arrays with one block across
    the columns. *)
Record DaskArray : Type := mk_DaskArray {
  chunks : chunks_t;
  da_dtype : np_dtype;
  blocks : list ndarray }.

(** A lazy column of a dask table. *)
Record Series (L : Type) : Type := mk_Series {
  s_name : L;
  s_dtype : np_dtype;
  s_partitions : list (list pyobj) }.
Arguments mk_Series {L}.
Arguments s_name {L}.
Arguments s_dtype {L}.
Arguments s_partitions {L}.

(** A column of a pandas table. *)
Record PdSeries (L : Type) : Type := mk_PdSeries {
  ps_name : L;
  ps_dtype : np_dtype;
  ps_values : list pyobj }.
Arguments mk_PdSeries {L}.
Arguments ps_name {L}.
Arguments ps_dtype {L}.
Arguments ps_values {L}.

(** A pandas table: labels, native column types, rows. *)
Record PandasFrame (L : Type) : Type := mk_PandasFrame {
  pd_columns : list L;
  pd_dtypes : list np_dtype;
  pd_rows : list row }.
Arguments mk_PandasFrame {L}.
Arguments pd_columns {L}.
Arguments pd_dtypes {L}.
Arguments pd_rows {L}.

(** A dask table: labels, native column types, row partitions. *)
Record DaskFrame (L : Type) : Type := mk_DaskFrame {
  columns : list L;
  dtypes : list np_dtype;
  partitions : list (list row) }.
Arguments mk_DaskFrame {L}.
Arguments columns {L}.
Arguments dtypes {L}.
Arguments partitions {L}.

Inductive exn : Type :=
| ValueError (msg : string)
| RuntimeError (msg : string)
| KeyError (key : string)
| AttributeError (msg : string)
| TypeError (msg : string)
| ZeroDivisionError
| IndexError
| NonUnique (label : string)
| Dangling.

Definition result (A : Type) : Type := exn + A.

(** Sum of chunk sizes; unknown as soon as one chunk is. *)
Fixpoint sum_chunks (l : list (option nat)) : option nat :=
  match l with
  | [] => Some 0
  | None :: _ => None
  | Some n :: l' =>
    match sum_chunks l' with
    | Some m => Some (n + m)
    | None => None
    end
  end.

(** [x.shape] of a dask array. *)
Definition da_shape (x : DaskArray) : option nat * nat :=
  (sum_chunks (chunks x).1, sum_list (chunks x).2).

(** [index.get_loc(col)]: the position of a label.  A label that occurs more
    than once selects several columns; every use in this program expects
    one, and the model stops there with [NonUnique]. *)
Fixpoint positions (cols : list string) (col : string) (i : nat) : list nat :=
  match cols with
  | [] => []
  | c :: cols' =>
    if decide (c = col) then i :: positions cols' col (S i)
    else positions cols' col (S i)
  end.

Definition get_loc (cols : list string) (col : string) : result nat :=
  match positions cols col 0 with
  | [] => inl (KeyError col)
  | [i] => inr i
  | _ => inl (NonUnique col)
  end.

Definition cell (r : row) (i : nat) : pyobj := default PyNone (r !! i).

(** Positional column selection [a[:, cidx]] on rows. *)
Definition take_cols (cidx : list nat) (rows : list row) : list row :=
  map (λ r, map (cell r) cidx) rows.

Definition nd_take_cols (a : ndarray) (cidx : list nat) : ndarray :=
  {| nd_dtype := nd_dtype a; nd_ncols := length cidx;
     nd_rows := take_cols cidx (nd_rows a) |}.

(** [x[:, cidx]] on a dask array: every row block is sliced, the row chunks
    are kept and the columns form one chunk. *)
Definition da_take_cols (x : DaskArray) (cidx : list nat) : DaskArray :=
  {| chunks := ((chunks x).1, [length cidx]);
     da_dtype := da_dtype x;
     blocks := map (λ b, nd_take_cols b cidx) (blocks x) |}.

(** The element [astype(dtype)] puts in place of an element.  In this
    program the target is the common native type of the retained columns,
    so the elements that are converted are values of boolean, integer and
    float columns held in an array of a wider type: a boolean becomes 0 or
    1 under a numeric type, an integer becomes the nearest float under
    float64, [None] becomes NaN under float64, and under [bool] every
    object becomes its truth value.  The other elements (text, a list, a
    missing value as an integer) make numpy raise when the block is
    computed, which no function of this module does for an array view;
    they are kept as they are. *)
Definition np_cast (dtype : np_dtype) (o : pyobj) : pyobj :=
  match dtype with
  | dt_object => o
  | dt_bool => PyBool (py_bool o)
  | dt_int64 =>
    match o with
    | PyBool b => PyInt (if b then 1 else 0)
    | _ => o
    end
  | dt_float64 =>
    match o with
    | PyBool b => PyInt (if b then 1 else 0)
    | PyInt z => PyInt (float64_of_Z z)
    | PyNone => PyNaN
    | _ => o
    end
  end.

Definition nd_astype (a : ndarray) (dtype : np_dtype) : ndarray :=
  {| nd_dtype := dtype; nd_ncols := nd_ncols a;
     nd_rows := map (map (np_cast dtype)) (nd_rows a) |}.

(** [x.astype(dtype)]: every block is converted, the chunks are kept. *)
Definition astype (x : DaskArray) (dtype : np_dtype) : DaskArray :=
  {| chunks := chunks x; da_dtype := dtype;
     blocks := map (λ b, nd_astype b dtype) (blocks x) |}.

(** [ddf[col]] *)
Definition ddf_getitem_col (ddf : DaskFrame string) (col : string)
    : result (Series string) :=
  match get_loc (columns ddf) col with
  | inl e => inl e
  | inr i =>
    inr {| s_name := col;
           s_dtype := default dt_object (dtypes ddf !! i);
           s_partitions := map (map (λ r, cell r i)) (partitions ddf) |}
  end.

(** [ddf[col] = series] for an existing label: the column is replaced in
    place, partition by partition. *)
Definition ddf_setitem_col (ddf : DaskFrame string) (col : string)
    (s : Series string) : result (DaskFrame string) :=
  match get_loc (columns ddf) col with
  | inl e => inl e
  | inr i =>
    inr {| columns := columns ddf;
           dtypes := <[i := s_dtype s]> (dtypes ddf);
           partitions :=
             zip_with (λ p vs, zip_with (λ r v, <[i := v]> r) p vs)
                      (partitions ddf) (s_partitions s) |}
  end.

Fixpoint mapM {A B : Type} (f : A → result B) (l : list A) : result (list B) :=
  match l with
  | [] => inr []
  | x :: l' =>
    match f x with
    | inl e => inl e
    | inr y =>
      match mapM f l' with
      | inl e => inl e
      | inr ys => inr (y :: ys)
      end
    end
  end.

(** A [for] loop over [l] whose body updates local values only and may
    raise. *)
Fixpoint for_each {A B : Type} (body : B → A → result B) (l : list A) (b : B)
    : result B :=
  match l with
  | [] => inr b
  | x :: l' =>
    match body b x with
    | inl e => inl e
    | inr b' => for_each body l' b'
    end
  end.

(** [d[k]] on a dictionary keyed by column labels. *)
Definition dict_get {V : Type} (d : gmap string V) (k : string) : result V :=
  match d !! k with
  | Some v => inr v
  | None => inl (KeyError k)
  end.

(** The first occurrences of the elements of a list, in their order
    ([Index.unique()]). *)
Fixpoint unique_from (seen l : list string) : list string :=
  match l with
  | [] => []
  | x :: l' =>
    if decide (x ∈ seen) then unique_from seen l'
    else x :: unique_from (x :: seen) l'
  end.

(** [repr] of a list of texts. *)
Definition labels_repr (l : list string) : string :=
  py_repr (PyList (map PyStr l)).

(** What pandas raises for a list of labels when some of them are not
    labels of the table: a [KeyError] whose message names all of them, or
    the whole list when none is a label (a list that pandas prints on one
    line). *)
Definition missing_labels (cols labels : list string) : option exn :=
  match filter (λ c, c ∉ cols) labels with
  | [] => None
  | missing =>
    Some (KeyError
      (if decide (length missing = length labels)
       then "None of [Index(" +:+ labels_repr labels
            +:+ ", dtype='object')] are in the [columns]"
       else labels_repr (unique_from [] missing) +:+ " not in index"))
  end.

(** [ddf[labels]]: the listed columns, in the order asked; the labels are
    checked by pandas on the empty table dask keeps. *)
Definition ddf_getitem (ddf : DaskFrame string) (labels : list string)
    : result (DaskFrame string) :=
  match missing_labels (columns ddf) labels with
  | Some e => inl e
  | None =>
    match mapM (get_loc (columns ddf)) labels with
    | inl e => inl e
    | inr idx =>
      inr {| columns := labels;
             dtypes := map (λ i, default dt_object (dtypes ddf !! i)) idx;
             partitions := map (take_cols idx) (partitions ddf) |}
    end
  end.

(** [ddf.select_dtypes(include)]: pandas first checks the list [include]
    and then keeps, in the order of the table, the columns whose native type
    the list selects.  Which types a list selects is pandas' type hierarchy
    (a list may name a family such as the numbers); it is given here by
    [selects], which for a list yields the error pandas raises for it or the
    test on native types. *)
Section SelectDtypes.

Context {Include : Type}.
Variable selects : Include → result (np_dtype → bool).

Definition ddf_select_dtypes (ddf : DaskFrame string) (include : Include)
    : result (DaskFrame string) :=
  match selects include with
  | inl e => inl e
  | inr sel =>
    let idx :=
      filter (λ i, sel (default dt_object (dtypes ddf !! i)) = true)
             (seq 0 (length (columns ddf))) in
    inr {| columns := omap (λ i, columns ddf !! i) idx;
           dtypes := map (λ i, default dt_object (dtypes ddf !! i)) idx;
           partitions := map (take_cols idx) (partitions ddf) |}
  end.

End SelectDtypes.

(** [pdf[labels]] *)
Definition pd_getitem (pdf : PandasFrame string) (labels : list string)
    : result (PandasFrame string) :=
  match missing_labels (pd_columns pdf) labels with
  | Some e => inl e
  | None =>
    match mapM (get_loc (pd_columns pdf)) labels with
    | inl e => inl e
    | inr idx =>
      inr {| pd_columns := labels;
             pd_dtypes := map (λ i, default dt_object (pd_dtypes pdf !! i)) idx;
             pd_rows := take_cols idx (pd_rows pdf) |}
    end
  end.

(** [pdf[col]] *)
Definition pd_getitem_col (pdf : PandasFrame string) (col : string)
    : result (PdSeries string) :=
  match get_loc (pd_columns pdf) col with
  | inl e => inl e
  | inr i =>
    inr {| ps_name := col;
           ps_dtype := default dt_object (pd_dtypes pdf !! i);
           ps_values := map (λ r, cell r i) (pd_rows pdf) |}
  end.

(** [series.apply(f, meta=(col, "object"))] *)
Definition series_apply (f : pyobj → pyobj) (s : Series string) : Series string :=
  {| s_name := s_name s; s_dtype := dt_object;
     s_partitions := map (map f) (s_partitions s) |}.

(** [series.astype(str)] *)
Definition series_astype_str (s : Series string) : Series string :=
  {| s_name := s_name s; s_dtype := dt_object;
     s_partitions := map (map (λ o, PyStr (py_str o))) (s_partitions s) |}.

(** [ddf.isnull()]: the missing-value indicator, cell by cell. *)
Definition isnull {L : Type} (ddf : DaskFrame L) : DaskFrame L :=
  {| columns := columns ddf;
     dtypes := map (λ _, dt_bool) (dtypes ddf);
     partitions := map (map (map (λ o, PyBool (checknull o)))) (partitions ddf) |}.

(** The array of a table; [lengths] tells whether the row chunk sizes are
    resolved. *)
Definition frame_array {L : Type} (lengths : bool) (ddf : DaskFrame L) : DaskArray :=
  let ncols := length (columns ddf) in
  {| chunks :=
       (map (λ p : list row, if lengths then Some (length p) else None) (partitions ddf),
        [ncols]);
     da_dtype := interleaved_dtype (dtypes ddf);
     blocks :=
       map (λ p, {| nd_dtype := interleaved_dtype (dtypes ddf);
                    nd_ncols := ncols; nd_rows := p |}) (partitions ddf) |}.

(** The label [to_frame] gives to the column: the name of the series, or 0
    when it has none. *)
Definition frame_label (name : pyobj) : pyobj :=
  match name with
  | PyNone => PyInt 0
  | _ => name
  end.

(** [series.to_frame()] *)
Definition to_frame (s : Series pyobj) : DaskFrame pyobj :=
  {| columns := [frame_label (s_name s)]; dtypes := [s_dtype s];
     partitions := map (map (λ v, [v])) (s_partitions s) |}.

Definition pd_to_frame (s : PdSeries pyobj) : PandasFrame pyobj :=
  {| pd_columns := [frame_label (ps_name s)]; pd_dtypes := [ps_dtype s];
     pd_rows := map (λ v, [v]) (ps_values s) |}.

(** Consecutive slices of [size] rows; [fuel] bounds their number. *)
Fixpoint chunk_rows (fuel size : nat) (rows : list row) : list (list row) :=
  match fuel with
  | 0 => []
  | S fuel' =>
    match rows with
    | [] => []
    | _ => take size rows :: chunk_rows fuel' size (drop size rows)
    end
  end.

(** Exact ceiling of a quotient of non-negative integers. *)
Definition ceil_div (a b : Z) : Z := (- ((- a) / b))%Z.

(** A boundary that would leave the last row alone is moved to the end:
    the last row joins the partition before it. *)
Definition join_last_row (ps : list (list row)) : list (list row) :=
  match reverse ps with
  | [r] :: p :: rest => reverse ((p ++ [r]) :: rest)
  | _ => ps
  end.

(** [dd.from_pandas(df, npartitions=n)]: dask first divides the row count by
    [n] to get the rows per partition, which fails for [n = 0] whatever the
    table; an empty table then gives one empty partition; otherwise the rows
    are cut every [chunksize] rows, the last row never alone, so that [n] is
    a hint and not the number of partitions.  (The boundaries are those of
    a row index without repeated values, the index not being
    represented.) *)
Definition from_pandas_npartitions {L : Type} (df : PandasFrame L) (npartitions : Z)
    : result (DaskFrame L) :=
  if decide (npartitions = 0%Z) then inl ZeroDivisionError
  else
    let nrows := length (pd_rows df) in
    let chunksize := ceil_div (Z.of_nat nrows) npartitions in
    match pd_rows df with
    | [] => inr {| columns := pd_columns df; dtypes := pd_dtypes df;
                   partitions := [[]] |}
    | rows =>
      if decide (chunksize = 0%Z)
      then inl (ValueError "range() arg 3 must not be zero")
      else
        inr {| columns := pd_columns df; dtypes := pd_dtypes df;
               partitions :=
                 if decide (chunksize < 0)%Z then [rows]
                 else join_last_row (chunk_rows nrows (Z.to_nat chunksize) rows) |}
    end.

(** [dd.from_pandas(df, chunksize=-1)]: one partition. *)
Definition from_pandas_single {L : Type} (df : PandasFrame L) : DaskFrame L :=
  {| columns := pd_columns df; dtypes := pd_dtypes df; partitions := [pd_rows df] |}.

(** [ddf.columns = labels] *)
Definition set_columns {L L' : Type} (ddf : DaskFrame L) (labels : list L')
    : DaskFrame L' :=
  {| columns := labels; dtypes := dtypes ddf; partitions := partitions ddf |}.

(** Modelled from the spec: the semantic type tags of [dtypes_v2], which is
    not among the sources; the spec names the continuous, nominal and
    ordinal classifications and leaves the others open. *)
Inductive DType : Type :=
| Nominal
| Ordinal
| Continuous
| OtherDType (tag : string).

Global Instance DType_eq_dec : EqDecision DType.
Proof. solve_decision. Defined.

(** [isinstance(d, Nominal)] *)
Definition is_Nominal (d : DType) : bool :=
  match d with Nominal => true | _ => false end.

(** Modelled from the spec: the caller's type hints ([DTypeDef] of
    [dtypes_v2]), one type for all columns or a type per column. *)
Inductive DTypeDef : Type :=
| HintAll (d : DType)
| HintPerColumn (m : gmap string DType).

(** [_to_str_if_not_na] *)
Definition _to_str_if_not_na (obj : pyobj) : pyobj :=
  if checknull obj then obj else PyStr (py_str obj).

(** ** The store of Python objects and the monad of the wrapper's methods *)

Definition loc : Type := nat.

(** [_nulls: Union[da.Array, np.ndarray]] *)
Inductive NullsRef : Type :=
| NullsLazy (l : loc)
| NullsArray (a : ndarray).

(** The attributes of a wrapper object.  [_values] and [_str_col_cache] name
    objects of the store; the two other dictionaries are never written after
    they are bound and are held by value. *)
Record EDAFrame : Type := mk_EDAFrame {
  _ddf : DaskFrame string;
  _values : loc;
  _nulls : NullsRef;
  _columns : list string;
  _eda_dtypes : gmap string DType;
  _str_col_cache : loc;
  _nulls_cnt : gmap string nat;
  _head : option (PandasFrame string);
  _shape : option (option nat * nat) }.

Definition with_values (v : loc) (o : EDAFrame) : EDAFrame :=
  mk_EDAFrame (_ddf o) v (_nulls o) (_columns o) (_eda_dtypes o)
    (_str_col_cache o) (_nulls_cnt o) (_head o) (_shape o).

Definition with_nulls (n : NullsRef) (o : EDAFrame) : EDAFrame :=
  mk_EDAFrame (_ddf o) (_values o) n (_columns o) (_eda_dtypes o)
    (_str_col_cache o) (_nulls_cnt o) (_head o) (_shape o).

Definition with_head (h : option (PandasFrame string)) (o : EDAFrame) : EDAFrame :=
  mk_EDAFrame (_ddf o) (_values o) (_nulls o) (_columns o) (_eda_dtypes o)
    (_str_col_cache o) (_nulls_cnt o) h (_shape o).

Definition with_shape (s : option (option nat * nat)) (o : EDAFrame) : EDAFrame :=
  mk_EDAFrame (_ddf o) (_values o) (_nulls o) (_columns o) (_eda_dtypes o)
    (_str_col_cache o) (_nulls_cnt o) (_head o) s.

(** Requests that make the engine read data. *)
Inductive engine_call : Type :=
| EvPersist
| EvCompute
| EvHead (n : nat)
| EvLengths.

Record store : Type := mk_store {
  instances : list EDAFrame;
  arrays : list DaskArray;
  str_caches : list (gmap (string * bool) (Series string));
  engine_log : list engine_call }.

(** The class attribute [EDAFrame._str_col_cache = {}] is the dictionary at
    this location; [_head] and [_shape] default to [None] on the class. *)
Definition cls_str_col_cache : loc := 0.

Definition initial_store : store :=
  {| instances := []; arrays := []; str_caches := [∅]; engine_log := [] |}.

(** A method call ends with a value or an exception, and with the store as
    the call left it. *)
Definition M (A : Type) : Type := store → result A * store.

Definition ret {A : Type} (a : A) : M A := λ σ, (inr a, σ).

Definition raise {A : Type} (e : exn) : M A := λ σ, (inl e, σ).

Definition bind {A B : Type} (m : M A) (k : A → M B) : M B :=
  λ σ, match m σ with
       | (inr a, σ') => k a σ'
       | (inl e, σ') => (inl e, σ')
       end.

Notation "'do' x <- m ; k" := (bind m (λ x, k))
  (at level 10, x name, m at level 100, k at level 200).
Notation "'do' ' p <- m ; k" := (bind m (λ x, match x with p => k end))
  (at level 10, p pattern, m at level 100, k at level 200).
Notation "m ;; k" := (bind m (λ _, k))
  (at level 100, k at level 200, right associativity).

Definition lift {A : Type} (r : result A) : M A :=
  match r with
  | inl e => raise e
  | inr a => ret a
  end.


Definition get_inst (l : loc) : M EDAFrame :=
  λ σ, match instances σ !! l with
       | Some o => (inr o, σ)
       | None => (inl Dangling, σ)
       end.

Definition alloc_inst (o : EDAFrame) : M loc :=
  λ σ, (inr (length (instances σ)),
        mk_store (instances σ ++ [o]) (arrays σ) (str_caches σ) (engine_log σ)).

(** [self.attr = value] *)
Definition upd_inst (l : loc) (f : EDAFrame → EDAFrame) : M unit :=
  λ σ, match instances σ !! l with
       | Some o =>
         (inr tt, mk_store (<[l := f o]> (instances σ)) (arrays σ)
                    (str_caches σ) (engine_log σ))
       | None => (inl Dangling, σ)
       end.

Definition get_array (l : loc) : M DaskArray :=
  λ σ, match arrays σ !! l with
       | Some a => (inr a, σ)
       | None => (inl Dangling, σ)
       end.

Definition alloc_array (a : DaskArray) : M loc :=
  λ σ, (inr (length (arrays σ)),
        mk_store (instances σ) (arrays σ ++ [a]) (str_caches σ) (engine_log σ)).

(** [x._chunks = c] on the array object at [l]. *)
Definition set_chunks (l : loc) (c : chunks_t) : M unit :=
  λ σ, match arrays σ !! l with
       | Some a =>
         (inr tt, mk_store (instances σ)
                    (<[l := mk_DaskArray c (da_dtype a) (blocks a)]> (arrays σ))
                    (str_caches σ) (engine_log σ))
       | None => (inl Dangling, σ)
       end.

Definition get_cache (l : loc) : M (gmap (string * bool) (Series string)) :=
  λ σ, match str_caches σ !! l with
       | Some c => (inr c, σ)
       | None => (inl Dangling, σ)
       end.

Definition alloc_cache (c : gmap (string * bool) (Series string)) : M loc :=
  λ σ, (inr (length (str_caches σ)),
        mk_store (instances σ) (arrays σ) (str_caches σ ++ [c]) (engine_log σ)).

(** [d[k] = v] on the dictionary object at [l]. *)
Definition cache_setitem (l : loc) (k : string * bool) (v : Series string) : M unit :=
  λ σ, match str_caches σ !! l with
       | Some c =>
         (inr tt, mk_store (instances σ) (arrays σ)
                    (<[l := <[k := v]> c]> (str_caches σ)) (engine_log σ))
       | None => (inl Dangling, σ)
       end.

Definition log (ev : engine_call) : M unit :=
  λ σ, (inr tt, mk_store (instances σ) (arrays σ) (str_caches σ)
                  (engine_log σ ++ [ev])).

(** ** Engine requests *)

(** [collection.persist()] *)
Definition persist {A : Type} (x : A) : M A := log EvPersist;; ret x.

(** [ddf.compute()] *)
Definition ddf_compute {L : Type} (ddf : DaskFrame L) : M (PandasFrame L) :=
  log EvCompute;;
  ret {| pd_columns := columns ddf; pd_dtypes := dtypes ddf;
         pd_rows := concat (partitions ddf) |}.

(** The rows [ddf.head(n=n)] returns: at most [n], read from the first
    partition. *)
Definition head_rows {L : Type} (n : nat) (ddf : DaskFrame L) : PandasFrame L :=
  {| pd_columns := columns ddf; pd_dtypes := dtypes ddf;
     pd_rows := take n (default [] (head (partitions ddf))) |}.

(** [ddf.head(n=n)] *)
Definition ddf_head {L : Type} (n : nat) (ddf : DaskFrame L) : M (PandasFrame L) :=
  log (EvHead n);; ret (head_rows n ddf).

(** [ddf.to_dask_array(lengths=...)]: resolving the lengths reads the
    partitions. *)
Definition to_dask_array {L : Type} (lengths : bool) (ddf : DaskFrame L) : M DaskArray :=
  if lengths then log EvLengths;; ret (frame_array true ddf)
  else ret (frame_array false ddf).

(** [dask.compute(x)] of an array: its blocks, stacked. *)
Definition da_compute (x : DaskArray) : ndarray :=
  {| nd_dtype := da_dtype x;
     nd_ncols := default 0 (nd_ncols <$> head (blocks x));
     nd_rows := concat (map nd_rows (blocks x)) |}.

(** [series.sum()] of a boolean column. *)
Definition is_py_true (o : pyobj) : bool :=
  match o with PyBool true => true | _ => false end.

Definition count_true (l : list pyobj) : nat :=
  length (filter (λ o, is_py_true o = true) l).

(** ** The wrapper *)

(** An object that is no table and no column, by what line 100 finds when
    it reads [df.index.dtype]: no attribute [index] (the name of the type is
    given), an [index] without [dtype] (the name of the type of the index is
    given), or both, in which case line 115 is reached ([type_repr] is the
    text of [type(df)]). *)
Inductive Other : Type :=
| NoIndex (type_name : string)
| IndexWithoutDtype (index_type_name : string)
| Indexed (type_repr : string).

(** What the constructor may be given.  [memory_usage] is the total that
    [df.memory_usage(deep=True).sum()] reports for an in-memory table, in
    bytes. *)
Inductive Table : Type :=
| DaskSeries (s : Series pyobj)
| PandasSeries (s : PdSeries pyobj) (memory_usage : Z)
| DaskTable (ddf : DaskFrame pyobj)
| PandasTable (df : PandasFrame pyobj) (memory_usage : Z)
| OtherObject (o : Other).

Inductive Input : Type :=
| FromEDAFrame (src : loc)
| FromTable (t : Table).

(** [Union[Sequence[str], str]] *)
Inductive Indexer : Type :=
| IndexStr (col : string)
| IndexList (cols : list string).

Module Wrapper.

(** [ceil(df_size / 128 / 1024 / 1024)] (lines 109-110).  [df_size] is a
    numpy int64, so the first division converts it to float64; the three
    divisions are by powers of two, which float64 does exactly. *)
Definition npartitions_of (df_size : Z) : Z :=
  Qceiling (inject_Z (float64_of_Z df_size) / 128 / 1024 / 1024)%Q.

(** Lines 94-115 of [__init__]: the input as a dask table, and whether it
    came from pandas. *)
Definition as_dask (t : Table) (repartition : bool)
    : result (bool * DaskFrame pyobj) :=
  let from_pd (df : PandasFrame pyobj) (df_size : Z) :=
    if repartition then
      let npartitions := npartitions_of df_size in
      match from_pandas_npartitions df npartitions with
      | inl e => inl e
      | inr ddf => inr (true, ddf)
      end
    else inr (true, from_pandas_single df) in
  match t with
  | DaskSeries s => inr (false, to_frame s)
  | PandasSeries s df_size => from_pd (pd_to_frame s) df_size
  | DaskTable ddf => inr (false, ddf)
  | PandasTable df df_size => from_pd df df_size
  | OtherObject (NoIndex type_name) =>
    inl (AttributeError ("'" +:+ type_name +:+ "' object has no attribute 'index'"))
  | OtherObject (IndexWithoutDtype index_type_name) =>
    inl (AttributeError
           ("'" +:+ index_type_name +:+ "' object has no attribute 'dtype'"))
  | OtherObject (Indexed type_repr) => inl (ValueError (type_repr +:+ " not supported"))
  end.

(** The loop of lines 122-124: the column is rewritten when its type is
    nominal. *)
Definition stringify_nominal (eda_dtypes : gmap string DType)
    (ddf : DaskFrame string) (col : string) : result (DaskFrame string) :=
  match dict_get eda_dtypes col with
  | inl e => inl e
  | inr dt =>
    if is_Nominal dt then
      match ddf_getitem_col ddf col with
      | inl e => inl e
      | inr s => ddf_setitem_col ddf col (series_apply _to_str_if_not_na s)
      end
    else inr ddf
  end.

(** The loop of lines 139-140. *)
Definition count_nulls (pd_null : PandasFrame string)
    (nulls_cnt : gmap string nat) (col : string) : result (gmap string nat) :=
  match pd_getitem_col pd_null col with
  | inl e => inl e
  | inr s => inr (<[col := count_true (ps_values s)]> nulls_cnt)
  end.

Section Construction.

(** The classifier [detect_dtype] of [dtypes_v2], not among the sources: from
    the lazy column, its sampled values and the hints to a type tag. *)
Variable detect_dtype :
  Series string → PdSeries string → option DTypeDef → DType.

(** The loop of lines 353-355. *)
Definition detect_column (df : DaskFrame string) (head : PandasFrame string)
    (known_dtype : option DTypeDef) (res : gmap string DType) (col : string)
    : result (gmap string DType) :=
  match ddf_getitem_col df col with
  | inl e => inl e
  | inr s =>
    match pd_getitem_col head col with
    | inl e => inl e
    | inr h =>
      let dtype := detect_dtype s h known_dtype in
      inr (<[col := dtype]> res)
    end
  end.

Definition _detect_dtypes (df : DaskFrame string) (known_dtype : option DTypeDef)
    : M (gmap string DType) :=
  do head <- ddf_head 100 df;
  lift (for_each (detect_column df head known_dtype) (columns df) ∅).

Definition __init__ (df : Input) (value_length repartition : bool)
    (dtype : option DTypeDef) : M loc :=
  match df with
  | FromEDAFrame src =>
    do o <- get_inst src;
    alloc_inst (mk_EDAFrame (_ddf o) (_values o) (_nulls o) (_columns o)
                  (_eda_dtypes o) (_str_col_cache o) (_nulls_cnt o)
                  (_head o) (_shape o))
  | FromTable t =>
    do '(is_pandas, ddf) <- lift (as_dask t repartition);
    let ddf := set_columns ddf (_process_column_name (columns ddf)) in
    do ddf <- persist ddf;
    do eda_dtypes <- _detect_dtypes ddf dtype;
    do ddf <- lift (for_each (stringify_nominal eda_dtypes) (columns ddf) ddf);
    do ddf <- persist ddf;
    do values <- to_dask_array (value_length || is_pandas) ddf;
    do lv <- alloc_array values;
    let dd_null := isnull ddf in
    do nulls <- to_dask_array false dd_null;
    do ln <- alloc_array nulls;
    do v <- get_array lv;
    set_chunks ln (chunks v);;
    do pd_null <- ddf_compute dd_null;
    do nulls_cnt <- lift (for_each (count_nulls pd_null) (columns ddf) ∅);
    alloc_inst {| _ddf := ddf; _values := lv; _nulls := NullsLazy ln;
                  _columns := columns ddf; _eda_dtypes := eda_dtypes;
                  _str_col_cache := cls_str_col_cache;
                  _nulls_cnt := nulls_cnt; _head := None; _shape := None |}
  end.

End Construction.

(** The properties [columns], [dtypes], [nulls], [values] and [frame]. *)
Definition columns_ (self : loc) : M (list string) :=
  do this <- get_inst self; ret (_columns this).

Definition dtypes_ (self : loc) : M (list np_dtype) :=
  do this <- get_inst self; ret (dtypes (_ddf this)).

Definition nulls (self : loc) : M NullsRef :=
  do this <- get_inst self; ret (_nulls this).

Definition values (self : loc) : M loc :=
  do this <- get_inst self; ret (_values this).

Definition frame (self : loc) : M (DaskFrame string) :=
  do this <- get_inst self; ret (_ddf this).

Definition shape (self : loc) : M (option nat * nat) :=
  do this <- get_inst self;
  match _shape this with
  | None =>
    do lv <- values self;
    do v <- get_array lv;
    upd_inst self (with_shape (Some (da_shape v)));;
    ret (da_shape v)
  | Some sh => ret sh
  end.

Definition head (self : loc) (n : nat) : M (PandasFrame string) :=
  do this <- get_inst self;
  match _head this with
  | None =>
    do ddf <- frame self;
    do h <- ddf_head n ddf;
    upd_inst self (with_head (Some h));;
    ret h
  | Some h => ret h
  end.

Definition get_missing_cnt (self : loc) (col : string) : M nat :=
  do this <- get_inst self; lift (dict_get (_nulls_cnt this) col).

Definition get_dtype (self : loc) (col : string) : M DType :=
  do this <- get_inst self; lift (dict_get (_eda_dtypes this) col).

Definition get_col_as_str (self : loc) (col : string) (na_as_str : bool)
    : M (Series string) :=
  do this <- get_inst self;
  if bool_decide (col ∈ _columns this) then
    do cache <- get_cache (_str_col_cache this);
    match cache !! (col, na_as_str) with
    | Some s => ret s
    | None =>
      do dt <- lift (dict_get (_eda_dtypes this) col);
      do direct <-
        (if is_Nominal dt then
           if na_as_str then
             do cnt <- get_missing_cnt self col; ret (bool_decide (cnt = 0))
           else ret true
         else ret false);
      if direct then lift (ddf_getitem_col (_ddf this) col)
      else
        do s <- lift (ddf_getitem_col (_ddf this) col);
        (if na_as_str then
           do s' <- persist (series_astype_str s);
           cache_setitem (_str_col_cache this) (col, na_as_str) s'
         else
           do s' <- persist (series_apply _to_str_if_not_na s);
           cache_setitem (_str_col_cache this) (col, na_as_str) s');;
        do cache <- get_cache (_str_col_cache this);
        match cache !! (col, na_as_str) with
        | Some s' => ret s'
        | None => raise (KeyError col)
        end
    end
  else raise (RuntimeError ("column is not exists: " +:+ col)).

Definition compute (self : loc) (type : string) : M unit :=
  if decide (type = "lengths") then
    do sh <- shape self;
    let not_computed := bool_decide (sh.1 = None) in
    if not_computed then
      do ddf <- frame self;
      do v <- to_dask_array true ddf;
      do lv <- alloc_array v;
      upd_inst self (with_values lv);;
      do ddf <- frame self;
      do n <- to_dask_array false (isnull ddf);
      do ln <- alloc_array n;
      upd_inst self (with_nulls (NullsLazy ln));;
      do lv <- values self;
      do v <- get_array lv;
      set_chunks ln (chunks v)
    else ret tt
  else if decide (type = "nulls") then
    do r <- nulls self;
    do x <- (match r with
             | NullsLazy l => get_array l
             | NullsArray _ =>
               raise (AttributeError "'numpy.ndarray' object has no attribute 'map_blocks'")
             end);
    let chunk_shapes := map (λ b, (length (nd_rows b), nd_ncols b)) (blocks x) in
    let c0 := map fst chunk_shapes in
    do c1 <- (match chunk_shapes with
              | [] => raise IndexError
              | s :: _ => ret [s.2]
              end);
    log EvCompute;;
    let nulls := da_compute x in
    let chunks := (map Some c0, c1) in
    upd_inst self (with_nulls (NullsArray nulls));;
    do lv <- values self;
    set_chunks lv chunks
  else raise (ValueError (type +:+ " not supported.")).

(** The loop of lines 292-297 for one retained column. *)
Definition copy_entries (this : EDAFrame)
    (src_cache : gmap (string * bool) (Series string))
    (acc : gmap string DType * gmap (string * bool) (Series string) * gmap string nat)
    (col : string)
    : result (gmap string DType * gmap (string * bool) (Series string)
              * gmap string nat) :=
  let '(eda_dtypes, str_col_cache, nulls_cnt) := acc in
  match dict_get (_eda_dtypes this) col with
  | inl e => inl e
  | inr dt =>
    match dict_get (_nulls_cnt this) col with
    | inl e => inl e
    | inr cnt =>
      let copy_key (val : bool) (c : gmap (string * bool) (Series string)) :=
        match src_cache !! (col, val) with
        | Some s => <[(col, val) := s]> c
        | None => c
        end in
      inr (<[col := dt]> eda_dtypes,
           copy_key false (copy_key true str_col_cache),
           <[col := cnt]> nulls_cnt)
    end
  end.

(** [reduce(np.promote_types, dtypes)] *)
Definition reduce_promote (dts : list np_dtype) : result np_dtype :=
  match dts with
  | [] => inl (TypeError "reduce() of empty sequence with no initial value")
  | d :: ds => inr (foldl promote_types d ds)
  end.

Definition __getitem__ (self : loc) (indexer : Indexer) : M loc :=
  let indexer := match indexer with IndexStr col => [col] | IndexList cols => cols end in
  do this <- get_inst self;
  do subdf <- lift (ddf_getitem (_ddf this) indexer);
  do cidx <- lift (mapM (get_loc (_columns this)) (columns subdf));
  do lv0 <- values self;
  do v0 <- get_array lv0;
  do lv <- alloc_array (da_take_cols v0 cidx);
  do r <- nulls self;
  do nulls' <- (match r with
                | NullsLazy l =>
                  do n0 <- get_array l;
                  do ln <- alloc_array (da_take_cols n0 cidx);
                  ret (NullsLazy ln)
                | NullsArray a => ret (NullsArray (nd_take_cols a cidx))
                end);
  do head' <- (match _head this with
               | Some h => do h' <- lift (pd_getitem h (columns subdf)); ret (Some h')
               | None => ret None
               end);
  do src_cache <- get_cache (_str_col_cache this);
  do '(eda_dtypes, str_col_cache, nulls_cnt) <-
    lift (for_each (copy_entries this src_cache) (columns subdf) (∅, ∅, ∅));
  do lc <- alloc_cache str_col_cache;
  do df <- alloc_inst {| _ddf := subdf; _values := lv; _nulls := nulls';
                         _columns := columns subdf; _eda_dtypes := eda_dtypes;
                         _str_col_cache := lc; _nulls_cnt := nulls_cnt;
                         _head := head'; _shape := None |};
  do sh <- shape df;
  (if decide (sh.2 ≠ 0) then
     do dts <- dtypes_ df;
     do dtype <- lift (reduce_promote dts);
     do lv1 <- values df;
     do v1 <- get_array lv1;
     if decide (da_dtype v1 ≠ dtype) then
       do lv2 <- alloc_array (astype v1 dtype);
       upd_inst df (with_values lv2)
     else ret tt
   else ret tt);;
  ret df.

Section Selection.

Context {Include : Type}.
Variable selects : Include → result (np_dtype → bool).

Definition select_dtypes (self : loc) (include : Include) : M loc :=
  do this <- get_inst self;
  do subdf <- lift (ddf_select_dtypes selects (_ddf this) include);
  __getitem__ self (IndexList (columns subdf)).

(** The constant [NUMERICAL_DTYPES], which is defined in [dtypes_v2]. *)
Variable NUMERICAL_DTYPES : Include.

Definition select_num_columns (self : loc) : M loc :=
  do df <- select_dtypes self NUMERICAL_DTYPES;
  ret df.

End Selection.

End Wrapper.

(** ** Notions used to state the properties *)

(** Whether the column at position [j] is classified as nominal. *)
Definition nominal_at (cols : list string) (e : gmap string DType) (j : nat) : bool :=
  match cols !! j with
  | Some col =>
    match e !! col with
    | Some dt => is_Nominal dt
    | None => false
    end
  | None => false
  end.

(** The table in which the nominal columns at positions below [k] have their
    non-missing cells replaced by their text. *)
Definition stringified_upto (e : gmap string DType) (ddf : DaskFrame string)
    (k : nat) : DaskFrame string :=
  let sel (j : nat) := bool_decide (j < k) && nominal_at (columns ddf) e j in
  {| columns := columns ddf;
     dtypes := imap (λ j d, if sel j then dt_object else d) (dtypes ddf);
     partitions :=
       map (map (imap (λ j c, if sel j then _to_str_if_not_na c else c)))
           (partitions ddf) |}.

Definition stringified (e : gmap string DType) (ddf : DaskFrame string)
    : DaskFrame string :=
  stringified_upto e ddf (length (columns ddf)).

(** The type the classifier gives to a column of a table, from the column
    and the first 100 rows. *)
Definition classified (detect_dtype : Series string → PdSeries string → option DTypeDef → DType)
    (ddf : DaskFrame string) (known_dtype : option DTypeDef) (col : string)
    : result DType :=
  match ddf_getitem_col ddf col with
  | inl e => inl e
  | inr s =>
    match pd_getitem_col (head_rows 100 ddf) col with
    | inl e => inl e
    | inr h => inr (detect_dtype s h known_dtype)
    end
  end.

(** The nullity array the constructor stores for a table: the blocks of the
    missing-value indicator under the chunks of the array view. *)
Definition nullity_array (c : chunks_t) (ddf : DaskFrame string) : DaskArray :=
  mk_DaskArray c (da_dtype (frame_array false (isnull ddf)))
    (blocks (frame_array false (isnull ddf))).

(** The number of missing cells at position [j] of a table. *)
Definition missing_in_column {L : Type} (ddf : DaskFrame L) (j : nat) : nat :=
  length (filter (λ r : row, from_option checknull false (r !! j) = true)
            (concat (partitions ddf))).




(** What can be observed of the caches of an instance. *)
Record caches : Type := mk_caches {
  c_eda_dtypes : gmap string DType;
  c_nulls_cnt : gmap string nat;
  c_str_col_cache : option (gmap (string * bool) (Series string));
  c_head : option (PandasFrame string);
  c_shape : option (option nat * nat) }.

Definition caches_of (σ : store) (self : loc) : option caches :=
  match instances σ !! self with
  | Some o =>
    Some {| c_eda_dtypes := _eda_dtypes o;
            c_nulls_cnt := _nulls_cnt o;
            c_str_col_cache := str_caches σ !! _str_col_cache o;
            c_head := _head o;
            c_shape := _shape o |}
  | None => None
  end.

(** The operations a caller may run on an instance. *)
Inductive operation : Type :=
| OpShape
| OpHead (n : nat)
| OpGetColAsStr (col : string) (na_as_str : bool)
| OpGetMissingCnt (col : string)
| OpGetDtype (col : string)
| OpCompute (type : string).

(** The store after [op] on the instance at [self]. *)
Definition after (op : operation) (self : loc) (σ : store) : store :=
  match op with
  | OpShape => (Wrapper.shape self σ).2
  | OpHead n => (Wrapper.head self n σ).2
  | OpGetColAsStr col na_as_str => (Wrapper.get_col_as_str self col na_as_str σ).2
  | OpGetMissingCnt col => (Wrapper.get_missing_cnt self col σ).2
  | OpGetDtype col => (Wrapper.get_dtype self col σ).2
  | OpCompute type => (Wrapper.compute self type σ).2
  end.

(** ** Example inputs *)

Module Examples.

(** A classifier that calls a column nominal when it is stored as objects. *)
Definition by_storage (s : Series string) (sample : PdSeries string)
    (hint : option DTypeDef) : DType :=
  match s_dtype s with
  | dt_object => Nominal
  | _ => Continuous
  end.

(** A lazy table of three columns in two partitions; column a holds text, a
    missing value and a list. *)
Definition lazy_table : DaskFrame pyobj :=
  {| columns := [PyStr "a"; PyStr "b"; PyStr "c"];
     dtypes := [dt_object; dt_int64; dt_bool];
     partitions :=
       [[[PyStr "x"; PyInt 1; PyBool true]; [PyNone; PyInt 2; PyBool false]];
        [[PyList [PyInt 1; PyInt 2]; PyInt 3; PyBool true]]] |}.

(** The store after [EDAFrame(lazy_table)]; the instance is at location 0. *)
Definition built : store :=
  (Wrapper.__init__ by_storage (FromTable (DaskTable lazy_table))
     false true None initial_store).2.

(** The objects of a store at a location (an empty object when there is
    none). *)
Definition instance_at (σ : store) (l : loc) : EDAFrame :=
  default
    {| _ddf := {| columns := []; dtypes := []; partitions := [] |};
       _values := 0; _nulls := NullsLazy 0; _columns := [];
       _eda_dtypes := ∅; _str_col_cache := 0; _nulls_cnt := ∅;
       _head := None; _shape := None |}
    (instances σ !! l).

Definition array_at (σ : store) (l : loc) : DaskArray :=
  default {| chunks := ([], []); da_dtype := dt_object; blocks := [] |}
    (arrays σ !! l).

Definition cache_at (σ : store) (l : loc) : gmap (string * bool) (Series string) :=
  default ∅ (str_caches σ !! l).

(** ... and after [EDAFrame(that instance)]; the copy is at location 1. *)
Definition built_and_copied : store :=
  (Wrapper.__init__ by_storage (FromEDAFrame 0) false true None built).2.

(** ... and after [instance[["b"]]] on the first; the projection is at
    location 1. *)
Definition built_and_projected : store :=
  (Wrapper.__getitem__ 0 (IndexList ["b"]) built).2.

(** A table of one integer column with twelve rows in one partition. *)
Definition long_table : DaskFrame pyobj :=
  {| columns := [PyStr "n"];
     dtypes := [dt_int64];
     partitions := [map (λ i, [PyInt (Z.of_nat i)]) (seq 0 12)] |}.

Definition built_long : store :=
  (Wrapper.__init__ by_storage (FromTable (DaskTable long_table))
     false true None initial_store).2.

(** The example instance after [get_col_as_str("b", False)] was asked of
    it. *)
Definition built_and_asked : store :=
  (Wrapper.get_col_as_str 0 "b" false built).2.

(** A selection rule that refuses the empty list and otherwise selects the
    listed types. *)
Definition listed (include : list np_dtype) : result (np_dtype → bool) :=
  match include with
  | [] => inl (ValueError "at least one of include or exclude must be nonempty")
  | _ => inr (λ d, bool_decide (d ∈ include))
  end.

End Examples.

(** The request is answered from the string-coercion cache: the first call
    leaves the returned column in the cache of the instance under the key of
    the request, and the second call returns it and leaves the store as it
    is. *)
Definition served_from_cache (σ : store) (self : loc) (col : string)
    (na_as_str : bool) : Prop :=
  ∃ s σ1 o cache,
    Wrapper.get_col_as_str self col na_as_str σ = (inr s, σ1)
    ∧ instances σ1 !! self = Some o
    ∧ str_caches σ1 !! _str_col_cache o = Some cache
    ∧ cache !! (col, na_as_str) = Some s
    ∧ Wrapper.get_col_as_str self col na_as_str σ1 = (inr s, σ1).

(** The condition of lines 194-196 under which the column of the table is
    returned as it is. *)
Definition returned_directly (dt : DType) (cnt : nat) (na_as_str : bool) : bool :=
  is_Nominal dt && ((na_as_str && bool_decide (cnt = 0)) || negb na_as_str).

(** The column that is cached otherwise. *)
Definition coerced (s : Series string) (na_as_str : bool) : Series string :=
  if na_as_str then series_astype_str s
  else series_apply _to_str_if_not_na s.

(** The instance at [b] is as it was and, when [l] names a dictionary, that
    dictionary is as it was. *)
Definition untouched (b : loc) (l : option loc) (σ σ' : store) : Prop :=
  instances σ' !! b = instances σ !! b
  ∧ ∀ l', l = Some l' → str_caches σ' !! l' = str_caches σ !! l'.

Definition preserves {A : Type} (R : store → store → Prop) (m : M A) : Prop :=
  ∀ σ, R σ (m σ).2.

(** Lines 303-307 of [__getitem__] on the sliced array: it is recast to the
    common native type of the retained columns unless it has that type. *)
Definition minimal_type (x : DaskArray) (dtype : np_dtype) : DaskArray :=
  if decide (da_dtype x ≠ dtype) then astype x dtype else x.


(** What the constructor and projection establish about an instance: the
    labels are those of its table and are distinct, its views and its
    dictionary are in the store, a head sample has the labels of the table,
    and both maps have an entry for every label. *)
Definition well_formed (σ : store) (o : EDAFrame) : Prop :=
  _columns o = columns (_ddf o)
  ∧ NoDup (_columns o)
  ∧ is_Some (arrays σ !! _values o)
  ∧ (∀ l, _nulls o = NullsLazy l → is_Some (arrays σ !! l))
  ∧ (∀ h, _head o = Some h → pd_columns h = _columns o)
  ∧ is_Some (str_caches σ !! _str_col_cache o)
  ∧ (∀ col, col ∈ _columns o →
       is_Some (_eda_dtypes o !! col) ∧ is_Some (_nulls_cnt o !! col)).

(** The column at position [j] of a table, partition by partition. *)
Definition column_cells {L : Type} (ddf : DaskFrame L) (j : nat) : list (list pyobj) :=
  map (map (λ r : row, cell r j)) (partitions ddf).

(** All rows of a table have one cell per label. *)
Definition rectangular {L : Type} (ddf : DaskFrame L) : Prop :=
  ∀ p r, p ∈ partitions ddf → r ∈ p → length r = length (columns ddf).
(** ** Running monadic code *)

Section Running.

Context {A B : Type}.

Lemma run_bind (m : M A) (k : A → M B) (σ σ' : store) (a : A) :
  m σ = (inr a, σ') → bind m k σ = k a σ'.
Proof. intros H. unfold bind. by rewrite H. Qed.

Lemma run_bind_raise (m : M A) (k : A → M B) (σ σ' : store) (e : exn) :
  m σ = (inl e, σ') → bind m k σ = (inl e, σ').
Proof. intros H. unfold bind. by rewrite H. Qed.

Lemma run_lift (r : result A) (a : A) (σ : store) :
  r = inr a → lift r σ = (inr a, σ).
Proof. by intros ->. Qed.

Lemma run_lift_raise (r : result A) (e : exn) (σ : store) :
  r = inl e → lift (A:=A) r σ = (inl e, σ).
Proof. by intros ->. Qed.

Lemma run_persist (x : A) (σ : store) :
  persist x σ
  = (inr x, mk_store (instances σ) (arrays σ) (str_caches σ)
              (engine_log σ ++ [EvPersist])).
Proof. done. Qed.

End Running.

Lemma bind_assoc {A B C : Type} (m : M A) (k : A → M B) (k' : B → M C) (σ : store) :
  bind (bind m k) k' σ = bind m (λ a, bind (k a) k') σ.
Proof. unfold bind. by destruct (m σ) as [[e|a] σ']. Qed.

Lemma run_get_inst (l : loc) (o : EDAFrame) (σ : store) :
  instances σ !! l = Some o → get_inst l σ = (inr o, σ).
Proof. intros H. unfold get_inst. by rewrite H. Qed.

Lemma run_upd_inst (l : loc) (f : EDAFrame → EDAFrame) (o : EDAFrame) (σ : store) :
  instances σ !! l = Some o →
  upd_inst l f σ
  = (inr tt, mk_store (<[l := f o]> (instances σ)) (arrays σ) (str_caches σ)
               (engine_log σ)).
Proof. intros H. unfold upd_inst. by rewrite H. Qed.

Lemma run_get_array (l : loc) (a : DaskArray) (σ : store) :
  arrays σ !! l = Some a → get_array l σ = (inr a, σ).
Proof. intros H. unfold get_array. by rewrite H. Qed.

Lemma run_set_chunks (l : loc) (c : chunks_t) (a : DaskArray) (σ : store) :
  arrays σ !! l = Some a →
  set_chunks l c σ
  = (inr tt, mk_store (instances σ)
               (<[l := mk_DaskArray c (da_dtype a) (blocks a)]> (arrays σ))
               (str_caches σ) (engine_log σ)).
Proof. intros H. unfold set_chunks. by rewrite H. Qed.

Lemma run_get_cache (l : loc) (c : gmap (string * bool) (Series string)) (σ : store) :
  str_caches σ !! l = Some c → get_cache l σ = (inr c, σ).
Proof. intros H. unfold get_cache. by rewrite H. Qed.

Lemma run_cache_setitem (l : loc) (k : string * bool) (v : Series string)
    (c : gmap (string * bool) (Series string)) (σ : store) :
  str_caches σ !! l = Some c →
  cache_setitem l k v σ
  = (inr tt, mk_store (instances σ) (arrays σ)
               (<[l := <[k := v]> c]> (str_caches σ)) (engine_log σ)).
Proof. intros H. unfold cache_setitem. by rewrite H. Qed.

Lemma run_to_dask_array {L : Type} (lengths : bool) (ddf : DaskFrame L) (σ : store) :
  to_dask_array lengths ddf σ
  = (inr (frame_array lengths ddf),
     mk_store (instances σ) (arrays σ) (str_caches σ)
       (engine_log σ ++ (if lengths then [EvLengths] else []))).
Proof.
  unfold to_dask_array. destruct lengths; [done|].
  unfold ret. rewrite app_nil_r. by destruct σ.
Qed.

(** One step of a run: the first action of a [bind] is replaced by its
    outcome. *)
Ltac step_by tac :=
  erewrite run_bind; [|solve [tac]];
  cbv beta iota zeta; cbn [instances arrays str_caches engine_log].
Ltac step_refl :=
  erewrite run_bind; [|reflexivity];
  cbv beta iota zeta; cbn [instances arrays str_caches engine_log].
(** * Properties *)

(** ** Labels and positions *)

Section Positions.

Lemma positions_bound (cols : list string) (col : string) (k i : nat) :
  i ∈ positions cols col k → k ≤ i ∧ cols !! (i - k) = Some col.
Proof.
  revert k. induction cols as [|c cols IH]; intros k; simpl.
  - intros H. by apply elem_of_nil in H.
  - destruct (decide (c = col)) as [->|Hne].
    + intros [->|H]%elem_of_cons.
      * split; [lia|]. by rewrite Nat.sub_diag.
      * apply IH in H as [? H]. split; [lia|].
        replace (i - k) with (S (i - S k)) by lia. done.
    + intros H. apply IH in H as [? H]. split; [lia|].
      replace (i - k) with (S (i - S k)) by lia. done.
Qed.

Lemma positions_absent (cols : list string) (col : string) (k : nat) :
  col ∉ cols → positions cols col k = [].
Proof.
  revert k. induction cols as [|c cols IH]; intros k Hnot; simpl; [done|].
  rewrite decide_False.
  - apply IH. intros H. apply Hnot. by right.
  - intros ->. apply Hnot. by left.
Qed.

Lemma positions_NoDup (cols : list string) (col : string) (k i : nat) :
  NoDup cols → cols !! i = Some col → positions cols col k = [k + i].
Proof.
  revert k i. induction cols as [|c cols IH]; intros k i Hnd Hi; [done|].
  apply NoDup_cons in Hnd as [Hc Hnd]. simpl.
  destruct i as [|i]; simpl in Hi.
  - injection Hi as ->. rewrite decide_True by done.
    rewrite positions_absent by done. f_equal. lia.
  - rewrite decide_False.
    + rewrite (IH (S k) i) by done. f_equal. lia.
    + intros ->. apply Hc. by eapply list_elem_of_lookup_2.
Qed.

Lemma get_loc_NoDup (cols : list string) (col : string) (i : nat) :
  NoDup cols → cols !! i = Some col → get_loc cols col = inr i.
Proof.
  intros Hnd Hi. unfold get_loc. by rewrite (positions_NoDup _ _ 0 i).
Qed.

Lemma get_loc_absent (cols : list string) (col : string) :
  col ∉ cols → get_loc cols col = inl (KeyError col).
Proof. intros H. unfold get_loc. by rewrite positions_absent. Qed.

Lemma get_loc_inr (cols : list string) (col : string) (i : nat) :
  get_loc cols col = inr i → cols !! i = Some col.
Proof.
  unfold get_loc. intros H.
  destruct (positions cols col 0) as [|j [|? ?]] eqn:Hp; try done.
  injection H as ->.
  destruct (positions_bound cols col 0 i) as [_ Hj].
  - rewrite Hp. by left.
  - by rewrite Nat.sub_0_r in Hj.
Qed.

Lemma mapM_get_loc_NoDup (cols : list string) :
  NoDup cols →
  ∀ k rest, drop k cols = rest →
  mapM (get_loc cols) rest = inr (seq k (length rest)).
Proof.
  intros Hnd k rest. revert k.
  induction rest as [|c rest IH]; intros k Hk; [done|]. simpl.
  assert (Hc : cols !! k = Some c).
  { rewrite <- (Nat.add_0_r k), <- lookup_drop, Hk. done. }
  rewrite (get_loc_NoDup _ _ k) by done.
  rewrite (IH (S k)); [done|].
  rewrite (drop_S _ _ _ Hc) in Hk. by injection Hk.
Qed.

End Positions.

(** ** Rows *)

Section Rows.

Lemma zip_with_map_both {A B C D : Type} (g : B → C → D) (a : A → B) (b : A → C)
    (l : list A) :
  zip_with g (map a l) (map b l) = map (λ x, g (a x) (b x)) l.
Proof. induction l as [|x l IH]; simpl; [done|]. by rewrite IH. Qed.

Lemma str_if_not_na_idemp (o : pyobj) :
  _to_str_if_not_na (_to_str_if_not_na o) = _to_str_if_not_na o.
Proof. unfold _to_str_if_not_na. by destruct o. Qed.

Lemma checknull_str_if_not_na (o : pyobj) :
  checknull (_to_str_if_not_na o) = checknull o.
Proof. unfold _to_str_if_not_na. by destruct o. Qed.

Lemma cell_imap (g : nat → pyobj → pyobj) (r : row) (j : nat) :
  j < length r → cell (imap g r) j = g j (cell r j).
Proof.
  intros Hj. unfold cell. rewrite (list_lookup_imap g r j).
  destruct (r !! j) eqn:E; [done|]. apply lookup_ge_None in E. lia.
Qed.

End Rows.
(** ** The nominal columns become text *)

Section Stringify.

Variable e : gmap string DType.

Lemma stringified_upto_0 (ddf : DaskFrame string) : stringified_upto e ddf 0 = ddf.
Proof.
  destruct ddf as [cols dts parts]. unfold stringified_upto. simpl. f_equal.
  - rewrite <- (list_fmap_id dts) at 2. rewrite <- imap_const. done.
  - rewrite <- (list_fmap_id parts) at 2. apply list_fmap_ext. intros _ p _.
    rewrite <- (list_fmap_id p) at 2. apply list_fmap_ext. intros _ r _.
    rewrite <- (list_fmap_id r) at 2. rewrite <- imap_const. done.
Qed.

Lemma sel_S (cols : list string) (k j : nat) :
  bool_decide (j < S k) && nominal_at cols e j
  = (bool_decide (j < k) && nominal_at cols e j)
    || (bool_decide (j = k) && nominal_at cols e k).
Proof.
  destruct (decide (j = k)) as [->|Hne].
  - rewrite (bool_decide_eq_true_2 (k < S k)) by lia.
    rewrite (bool_decide_eq_false_2 (k < k)) by lia.
    rewrite bool_decide_eq_true_2 by done. simpl. done.
  - rewrite (bool_decide_eq_false_2 (j = k)) by done.
    rewrite orb_false_r. f_equal. apply bool_decide_ext. lia.
Qed.

Lemma row_step (cols : list string) (k : nat) (r : row) :
  nominal_at cols e k = true →
  <[k := _to_str_if_not_na
           (cell (imap (λ j c, if bool_decide (j < k) && nominal_at cols e j
                               then _to_str_if_not_na c else c) r) k)]>
    (imap (λ j c, if bool_decide (j < k) && nominal_at cols e j
                  then _to_str_if_not_na c else c) r)
  = imap (λ j c, if bool_decide (j < S k) && nominal_at cols e j
                 then _to_str_if_not_na c else c) r.
Proof.
  intros Hk. apply list_eq. intros j.
  destruct (decide (k < length r)) as [Hlt|Hge].
  - rewrite cell_imap by done.
    rewrite (bool_decide_eq_false_2 (k < k)) by lia. simpl.
    destruct (decide (k = j)) as [->|Hne].
    + rewrite list_lookup_insert_eq by (rewrite length_imap; lia).
      rewrite list_lookup_imap, sel_S, Hk.
      rewrite (bool_decide_eq_false_2 (j < j)) by lia.
      rewrite (bool_decide_eq_true_2 (j = j)) by done. simpl.
      unfold cell. destruct (r !! j) eqn:E; [done|].
      apply lookup_ge_None in E. lia.
    + rewrite list_lookup_insert_ne by done.
      rewrite !list_lookup_imap, sel_S.
      rewrite (bool_decide_eq_false_2 (j = k)) by done.
      rewrite andb_false_l, orb_false_r. done.
  - rewrite list_insert_ge by (rewrite length_imap; lia).
    rewrite !list_lookup_imap.
    destruct (r !! j) eqn:E; [|done]. simpl.
    apply lookup_lt_Some in E.
    rewrite sel_S, (bool_decide_eq_false_2 (j = k)) by lia.
    by rewrite andb_false_l, orb_false_r.
Qed.

Lemma stringify_step (ddf : DaskFrame string) (k : nat) (col : string) :
  NoDup (columns ddf) →
  columns ddf !! k = Some col →
  is_Some (e !! col) →
  Wrapper.stringify_nominal e (stringified_upto e ddf k) col
  = inr (stringified_upto e ddf (S k)).
Proof.
  intros Hnd Hk [dt Hdt]. unfold Wrapper.stringify_nominal, dict_get.
  rewrite Hdt.
  assert (Hnom : nominal_at (columns ddf) e k = is_Nominal dt).
  { unfold nominal_at. by rewrite Hk, Hdt. }
  destruct (is_Nominal dt) eqn:Hn.
  - unfold ddf_getitem_col, ddf_setitem_col. simpl.
    rewrite (get_loc_NoDup _ _ k) by done. simpl.
    unfold stringified_upto. f_equal. f_equal.
    + apply list_eq. intros j.
      destruct (decide (k < length (dtypes ddf))) as [Hlt|Hge].
      * destruct (decide (k = j)) as [->|Hne].
        -- rewrite list_lookup_insert_eq by (rewrite length_imap; lia).
           rewrite list_lookup_imap, sel_S, Hnom.
           rewrite (bool_decide_eq_true_2 (j = j)) by done.
           rewrite orb_true_r.
           destruct (dtypes ddf !! j) eqn:E; [done|].
           apply lookup_ge_None in E. lia.
        -- rewrite list_lookup_insert_ne by done.
           rewrite !list_lookup_imap, sel_S.
           rewrite (bool_decide_eq_false_2 (j = k)) by done.
           by rewrite andb_false_l, orb_false_r.
      * rewrite list_insert_ge by (rewrite length_imap; lia).
        rewrite !list_lookup_imap.
        destruct (dtypes ddf !! j) eqn:E; [|done]. simpl.
        apply lookup_lt_Some in E.
        rewrite sel_S, (bool_decide_eq_false_2 (j = k)) by lia.
        by rewrite andb_false_l, orb_false_r.
    + rewrite !(map_map _ _ (partitions ddf)), zip_with_map_both.
      apply map_ext. intros p.
      rewrite !(map_map _ _ p), zip_with_map_both.
      apply map_ext. intros r.
      by apply row_step.
  - unfold stringified_upto. f_equal. f_equal.
    + apply imap_ext. intros j d _. by rewrite sel_S, Hnom, andb_false_r, orb_false_r.
    + apply list_fmap_ext. intros _ p _. apply list_fmap_ext. intros _ r _.
      apply imap_ext. intros j c _. by rewrite sel_S, Hnom, andb_false_r, orb_false_r.
Qed.

Lemma stringify_loop_from (ddf : DaskFrame string) :
  NoDup (columns ddf) →
  (∀ col, col ∈ columns ddf → is_Some (e !! col)) →
  ∀ rest k,
    drop k (columns ddf) = rest →
    for_each (Wrapper.stringify_nominal e) rest (stringified_upto e ddf k)
    = inr (stringified e ddf).
Proof.
  intros Hnd Hdom rest.
  induction rest as [|c rest IH]; intros k Hk; simpl.
  - unfold stringified. f_equal.
    assert (length (columns ddf) ≤ k).
    { destruct (decide (length (columns ddf) ≤ k)); [done|].
      apply (f_equal length) in Hk. rewrite length_drop in Hk. simpl in Hk. lia. }
    assert (Hsel : ∀ j, bool_decide (j < k) && nominal_at (columns ddf) e j
                        = bool_decide (j < length (columns ddf))
                          && nominal_at (columns ddf) e j).
    { intros j. destruct (decide (j < length (columns ddf))).
      - rewrite !bool_decide_eq_true_2 by lia. done.
      - unfold nominal_at. rewrite (lookup_ge_None_2 (columns ddf) j) by lia.
        by rewrite !andb_false_r. }
    unfold stringified_upto. f_equal.
    + apply imap_ext. intros j d _. by rewrite Hsel.
    + apply list_fmap_ext. intros _ p _. apply list_fmap_ext. intros _ r _.
      apply imap_ext. intros j x _. by rewrite Hsel.
  - assert (Hc : columns ddf !! k = Some c).
    { rewrite <- (Nat.add_0_r k), <- lookup_drop, Hk. done. }
    rewrite stringify_step; [|done|done|].
    + apply IH. rewrite (drop_S _ _ _ Hc) in Hk. by injection Hk.
    + apply Hdom. by eapply list_elem_of_lookup_2.
Qed.

Lemma stringify_loop (ddf : DaskFrame string) :
  NoDup (columns ddf) →
  (∀ col, col ∈ columns ddf → is_Some (e !! col)) →
  for_each (Wrapper.stringify_nominal e) (columns ddf) ddf
  = inr (stringified e ddf).
Proof.
  intros Hnd Hdom.
  rewrite <- (stringified_upto_0 ddf) at 2.
  by apply stringify_loop_from.
Qed.

End Stringify.
(** ** Loops that fill a dictionary *)

Section DictLoops.

Context {V : Type}.
Variable g : string → result V.
Variable body : gmap string V → string → result (gmap string V).
Hypothesis body_insert : ∀ m col,
  body m col = match g col with
               | inl e => inl e
               | inr v => inr (<[col := v]> m)
               end.

Lemma for_each_insert (l : list string) (m : gmap string V) :
  (∀ col, col ∈ l → ∃ v, g col = inr v) →
  ∃ m', for_each body l m = inr m'
        ∧ (∀ col v, col ∈ l → g col = inr v → m' !! col = Some v)
        ∧ (∀ col, col ∉ l → m' !! col = m !! col).
Proof.
  revert m. induction l as [|c l IH]; intros m Hg; simpl.
  - exists m. split; [done|]. split; [|done].
    intros col v H. by apply elem_of_nil in H.
  - destruct (Hg c) as [v Hv]; [by left|].
    rewrite body_insert, Hv.
    destruct (IH (<[c := v]> m)) as (m' & Hrun & Hin & Hout).
    { intros col Hcol. apply Hg. by right. }
    exists m'. split; [done|]. split.
    + intros col w Hcol Hw.
      destruct (decide (col ∈ l)) as [Hl|Hl]; [by apply Hin|].
      apply elem_of_cons in Hcol as [->|?]; [|done].
      rewrite Hout by done. rewrite lookup_insert_eq. congruence.
    + intros col Hcol. rewrite Hout.
      * apply lookup_insert_ne. intros ->. apply Hcol. by left.
      * intros H. apply Hcol. by right.
Qed.

End DictLoops.
(** ** Running the constructor *)

Section Construction.

Variable detect_dtype : Series string → PdSeries string → option DTypeDef → DType.

Lemma classified_ok (ddf : DaskFrame string) (known : option DTypeDef) (col : string) :
  NoDup (columns ddf) → col ∈ columns ddf →
  ∃ dt, classified detect_dtype ddf known col = inr dt.
Proof.
  intros Hnd [j Hj]%list_elem_of_lookup_1. unfold classified, ddf_getitem_col, pd_getitem_col.
  simpl. rewrite (get_loc_NoDup _ _ j) by done. eauto.
Qed.

Lemma count_true_isnull (rows : list row) (j : nat) :
  count_true (map (λ r, cell r j) (map (map (λ o, PyBool (checknull o))) rows))
  = length (filter (λ r : row, from_option checknull false (r !! j) = true) rows).
Proof.
  unfold count_true. induction rows as [|r rows IH]; [done|]. simpl.
  rewrite !filter_cons.
  assert (Hc : is_py_true (cell (map (λ o, PyBool (checknull o)) r) j)
               = from_option checknull false (r !! j)).
  { unfold cell. rewrite list_lookup_fmap. destruct (r !! j) as [o|]; simpl; [|done].
    by destruct (checknull o). }
  rewrite Hc.
  destruct (decide (from_option checknull false (r !! j) = true)); simpl; by rewrite IH.
Qed.

Lemma init_table_run_full (t : Table) (value_length repartition : bool)
    (dtype : option DTypeDef) (σ : store) (is_pandas : bool)
    (ddf0 : DaskFrame pyobj) (ddf1 : DaskFrame string) :
  Wrapper.as_dask t repartition = inr (is_pandas, ddf0) →
  ddf1 = set_columns ddf0 (_process_column_name (columns ddf0)) →
  NoDup (columns ddf1) →
  ∃ e nc,
    (∀ col dt, col ∈ columns ddf1 →
       classified detect_dtype ddf1 dtype col = inr dt → e !! col = Some dt)
    ∧ (∀ col, col ∈ columns ddf1 → is_Some (e !! col))
    ∧ (∀ col, col ∉ columns ddf1 → e !! col = None ∧ nc !! col = None)
    ∧ (∀ j col, columns ddf1 !! j = Some col →
         nc !! col = Some (missing_in_column (stringified e ddf1) j))
    ∧ Wrapper.__init__ detect_dtype (FromTable t) value_length repartition dtype σ
      = (inr (length (instances σ)),
         {| instances :=
              instances σ ++
              [{| _ddf := stringified e ddf1;
                  _values := length (arrays σ);
                  _nulls := NullsLazy (S (length (arrays σ)));
                  _columns := columns ddf1;
                  _eda_dtypes := e;
                  _str_col_cache := cls_str_col_cache;
                  _nulls_cnt := nc;
                  _head := None;
                  _shape := None |}];
            arrays :=
              arrays σ ++
              [frame_array (value_length || is_pandas) (stringified e ddf1);
               nullity_array
                 (chunks (frame_array (value_length || is_pandas) (stringified e ddf1)))
                 (stringified e ddf1)];
            str_caches := str_caches σ;
            engine_log :=
              engine_log σ ++ [EvPersist; EvHead 100; EvPersist]
              ++ (if value_length || is_pandas then [EvLengths] else [])
              ++ [EvCompute] |}).
Proof.
  intros Has Hddf1 Hnd.
  destruct (for_each_insert (classified detect_dtype ddf1 dtype)
              (Wrapper.detect_column detect_dtype ddf1 (head_rows 100 ddf1) dtype)
              ltac:(intros; unfold Wrapper.detect_column, classified;
                    destruct ddf_getitem_col; [done|]; by destruct pd_getitem_col)
              (columns ddf1) ∅) as (e & He & Hin & Hout).
  { intros col Hcol. by apply classified_ok. }
  assert (Hdom : ∀ col, col ∈ columns ddf1 → is_Some (e !! col)).
  { intros col Hcol. destruct (classified_ok ddf1 dtype col) as [dt Hdt]; [done..|].
    exists dt. by apply Hin. }
  pose (pd_null := {| pd_columns := columns ddf1;
                      pd_dtypes := dtypes (isnull (stringified e ddf1));
                      pd_rows := concat (partitions (isnull (stringified e ddf1))) |}).
  destruct (for_each_insert
              (λ col, match pd_getitem_col pd_null col with
                      | inl x => inl x
                      | inr s => inr (count_true (ps_values s))
                      end)
              (Wrapper.count_nulls pd_null)
              ltac:(intros; unfold Wrapper.count_nulls; by destruct pd_getitem_col)
              (columns ddf1) ∅) as (nc & Hnc & Hncin & Hncout).
  { intros col [j Hj]%list_elem_of_lookup_1. unfold pd_getitem_col. simpl.
    rewrite (get_loc_NoDup _ _ j) by done. eauto. }
  exists e, nc. split; [done|]. split; [done|].
  split; [intros col Hcol; by rewrite Hout, Hncout, !lookup_empty|]. split.
  { intros j col Hj. apply Hncin; [by eapply list_elem_of_lookup_2|].
    unfold pd_getitem_col. simpl. rewrite (get_loc_NoDup _ _ j) by done.
    simpl. f_equal. unfold missing_in_column.
    rewrite <- count_true_isnull. do 2 f_equal.
    unfold isnull. cbn [partitions]. symmetry. apply concat_map. }
  unfold Wrapper.__init__.
  step_by ltac:(apply run_lift; exact Has).
  rewrite <- Hddf1.
  step_by ltac:(apply run_persist).
  unfold Wrapper._detect_dtypes, ddf_head.
  erewrite run_bind.
  2:{ erewrite run_bind; [|reflexivity]. cbv beta iota zeta. apply run_lift. exact He. }
  cbv beta iota zeta. cbn [instances arrays str_caches engine_log].
  assert (Hcols : columns (stringified e ddf1) = columns ddf1) by done.
  step_by ltac:(apply run_lift; by apply stringify_loop).
  step_by ltac:(apply run_persist).
  step_by ltac:(apply run_to_dask_array).
  step_refl.
  step_by ltac:(apply run_to_dask_array).
  step_refl.
  cbn [instances arrays str_caches engine_log].
  step_by ltac:(apply run_get_array; cbn [arrays]; rewrite <- app_assoc;
                by apply list_lookup_middle).
  erewrite run_bind.
  2:{ apply run_set_chunks. cbn [arrays]. rewrite <- app_assoc, length_app.
      rewrite lookup_app_r by lia.
      replace (length (arrays σ) + length [_] - length (arrays σ)) with 1
        by (simpl; lia).
      done. }
  cbv beta iota zeta.
  cbn [instances arrays str_caches engine_log].
  unfold ddf_compute.
  step_refl.
  rewrite Hcols. fold pd_null.
  step_by ltac:(apply run_lift; exact Hnc).
  unfold alloc_inst. cbn [instances arrays str_caches engine_log].
  rewrite !length_app. cbn [length]. rewrite Nat.add_1_r.
  rewrite <- (app_assoc (arrays σ)).
  rewrite insert_app_r_alt by lia.
  replace (S (length (arrays σ)) - length (arrays σ)) with 1 by lia.
  rewrite app_nil_r, <- !app_assoc. done.
Qed.

Lemma init_table_run (t : Table) (value_length repartition : bool)
    (dtype : option DTypeDef) (σ : store) (is_pandas : bool)
    (ddf0 : DaskFrame pyobj) (ddf1 : DaskFrame string) :
  Wrapper.as_dask t repartition = inr (is_pandas, ddf0) →
  ddf1 = set_columns ddf0 (_process_column_name (columns ddf0)) →
  NoDup (columns ddf1) →
  ∃ e nc,
    (∀ col dt, col ∈ columns ddf1 →
       classified detect_dtype ddf1 dtype col = inr dt → e !! col = Some dt)
    ∧ (∀ col, col ∈ columns ddf1 → is_Some (e !! col))
    ∧ (∀ j col, columns ddf1 !! j = Some col →
         nc !! col = Some (missing_in_column (stringified e ddf1) j))
    ∧ Wrapper.__init__ detect_dtype (FromTable t) value_length repartition dtype σ
      = (inr (length (instances σ)),
         {| instances :=
              instances σ ++
              [{| _ddf := stringified e ddf1;
                  _values := length (arrays σ);
                  _nulls := NullsLazy (S (length (arrays σ)));
                  _columns := columns ddf1;
                  _eda_dtypes := e;
                  _str_col_cache := cls_str_col_cache;
                  _nulls_cnt := nc;
                  _head := None;
                  _shape := None |}];
            arrays :=
              arrays σ ++
              [frame_array (value_length || is_pandas) (stringified e ddf1);
               nullity_array
                 (chunks (frame_array (value_length || is_pandas) (stringified e ddf1)))
                 (stringified e ddf1)];
            str_caches := str_caches σ;
            engine_log :=
              engine_log σ ++ [EvPersist; EvHead 100; EvPersist]
              ++ (if value_length || is_pandas then [EvLengths] else [])
              ++ [EvCompute] |}).
Proof.
  intros Has Hddf1 Hnd.
  destruct (init_table_run_full t value_length repartition dtype σ is_pandas
              ddf0 ddf1 Has Hddf1 Hnd) as (e & nc & H1 & H2 & _ & H3 & H4).
  by exists e, nc.
Qed.

End Construction.
Section ColumnNames.

Lemma Counter_acc (c : string) (l : list string) (m : gmap string nat) :
  default 0 (foldl (λ m c, <[c := S (default 0 (m !! c))]> m) m l !! c)
  = default 0 (m !! c) + occurrences c l.
Proof.
  revert m. induction l as [|x l IH]; intros m; simpl.
  - unfold occurrences. simpl. lia.
  - rewrite IH. unfold occurrences. rewrite filter_cons.
    destruct (decide (x = c)) as [->|Hne].
    + rewrite lookup_insert_eq. simpl. lia.
    + rewrite lookup_insert_ne by done. lia.
Qed.

Lemma Counter_lookup (c : string) (l : list string) :
  default 0 (Counter l !! c) = occurrences c l.
Proof. unfold Counter. rewrite Counter_acc, lookup_empty. done. Qed.

Lemma occurrences_take_S (orig : list string) (i : nat) (col c : string) :
  orig !! i = Some col →
  occurrences c (take (S i) orig)
  = occurrences c (take i orig) + (if decide (col = c) then 1 else 0).
Proof.
  intros Hi. rewrite (take_S_r _ _ _ Hi). unfold occurrences.
  rewrite filter_app, length_app, filter_cons, filter_nil.
  destruct (decide (col = c)); simpl; lia.
Qed.

Lemma rename_loop_spec (orig : list string) :
  ∀ n i cols cid,
    i + n = length orig →
    length cols = length orig →
    (∀ j, i ≤ j → cols !! j = orig !! j) →
    (∀ c, 1 < occurrences c orig →
          default 0 (cid !! c) = occurrences c (take i orig)) →
    rename_loop (Counter orig) n i cols cid
    = take i cols ++ imap (λ j, renamed orig (i + j)) (drop i orig).
Proof.
  induction n as [|n IH]; intros i cols cid Hlen Hcols Hagree Hcid; simpl.
  - rewrite drop_ge by lia. simpl. rewrite take_ge by lia. by rewrite app_nil_r.
  - destruct (orig !! i) as [col|] eqn:Hi.
    2:{ apply lookup_ge_None in Hi. lia. }
    rewrite (Hagree i) by lia. rewrite Hi.
    rewrite (drop_S _ _ _ Hi). simpl.
    rewrite Counter_lookup.
    assert (Hstep : ∀ new cid',
      (∀ c, 1 < occurrences c orig →
            default 0 (cid' !! c) = occurrences c (take (S i) orig)) →
      new = renamed orig i col →
      rename_loop (Counter orig) n (S i) (<[i:=new]> cols) cid'
      = take i cols ++ renamed orig (i + 0) col
          :: imap ((λ j, renamed orig (i + j)) ∘ S) (drop (S i) orig)).
    { intros new cid' Hcid' ->.
      rewrite IH; [|lia|by rewrite length_insert| |done].
      - rewrite (take_S_r _ _ (renamed orig i col)).
        2:{ apply list_lookup_insert_eq. lia. }
        rewrite take_insert_ge by lia. rewrite <- app_assoc. simpl.
        rewrite Nat.add_0_r. do 2 f_equal.
        apply imap_ext. intros j x _. simpl. f_equal. lia.
      - intros j Hj. rewrite list_lookup_insert_ne by lia. apply Hagree. lia. }
    destruct (decide (1 < occurrences col orig)) as [Hdup|Huniq].
    + apply Hstep.
      * intros c Hc. rewrite (occurrences_take_S _ _ _ _ Hi).
        destruct (decide (col = c)) as [->|Hne].
        -- rewrite lookup_insert_eq. simpl. rewrite Hcid by done. done.
        -- rewrite lookup_insert_ne by done. rewrite Hcid by done. lia.
      * unfold renamed. rewrite decide_True by done.
        rewrite lookup_insert_eq. simpl.
        rewrite (occurrences_take_S _ _ _ _ Hi), decide_True by done.
        rewrite Hcid by done. done.
    + apply Hstep.
      * intros c Hc. rewrite (occurrences_take_S _ _ _ _ Hi).
        destruct (decide (col = c)) as [->|Hne]; [done|].
        rewrite Hcid by done. lia.
      * unfold renamed. by rewrite decide_False.
Qed.

End ColumnNames.

(** C2, as the code has it: every label is replaced by its text; a text that
    occurs more than once receives the suffix [_k], where [k] counts its
    occurrences up to and including the position (the first occurrence
    becomes [name_1]); a text that occurs once is unchanged.  In particular
    the labels a, a, b give a_1, a_2, b. *)
Theorem process_column_name_spec (df_columns : list pyobj) :
  let cols := map py_str df_columns in
  _process_column_name df_columns = imap (renamed cols) cols
  ∧ _process_column_name [PyStr "a"; PyStr "a"; PyStr "b"] = ["a_1"; "a_2"; "b"].
Proof.
  split; [|reflexivity].
  unfold _process_column_name.
  rewrite (rename_loop_spec (map py_str df_columns)); [|simpl; lia|done|done|].
  - simpl. rewrite drop_0. done.
  - intros c _. rewrite lookup_empty. done.
Qed.

(** C2 as stated fails: the labels a, a, b do not give a, a_1, b. *)
Lemma process_column_name_first_occurrence_renamed :
  _process_column_name [PyStr "a"; PyStr "a"; PyStr "b"] ≠ ["a"; "a_1"; "b"].
Proof. vm_compute. discriminate. Qed.
(** ** The number of partitions *)

Lemma float64_of_Z_small (z : Z) :
  (Z.abs z < 2 ^ 53)%Z → float64_of_Z z = z.
Proof. intros H. unfold float64_of_Z. by rewrite decide_True. Qed.

Lemma npartitions_of_ceil (df_size : Z) :
  (Z.abs df_size < 2 ^ 53)%Z →
  Wrapper.npartitions_of df_size = ceil_div df_size 134217728.
Proof.
  intros Hsmall. unfold Wrapper.npartitions_of, ceil_div.
  rewrite float64_of_Z_small by done.
  assert (H : (inject_Z df_size / 128 / 1024 / 1024 == df_size # 134217728)%Q).
  { unfold Qeq, Qdiv, Qmult, Qinv, inject_Z. simpl. lia. }
  rewrite (Qceiling_comp _ _ H). unfold Qceiling, Qfloor. simpl. done.
Qed.

Lemma ceil_div_pos (a b : Z) : (0 < a → 0 < b → 1 ≤ ceil_div a b)%Z.
Proof.
  intros Ha Hb. unfold ceil_div.
  assert (- a / b < 0)%Z; [|lia].
  apply Z.div_lt_upper_bound; lia.
Qed.

Lemma ceil_div_bounds (a b : Z) :
  (0 < b → (ceil_div a b - 1) * b < a ≤ ceil_div a b * b)%Z.
Proof.
  intros Hb. unfold ceil_div.
  pose proof (Z.div_mod (- a) b ltac:(lia)).
  pose proof (Z.mod_pos_bound (- a) b Hb). nia.
Qed.
(** ** Validation failures *)

(** C5: a request for a column that the instance does not have fails with
    the column-not-found error, and [compute] with a mode other than
    "lengths" and "nulls" fails with the unsupported-mode error that names
    the mode; both leave the whole store (instances, arrays, caches, engine
    requests) as it was. *)
Theorem validation_errors_leave_store (σ : store) (self : loc) (o : EDAFrame)
    (col type : string) (na_as_str : bool) :
  instances σ !! self = Some o →
  col ∉ _columns o →
  type ≠ "lengths" →
  type ≠ "nulls" →
  Wrapper.get_col_as_str self col na_as_str σ
  = (inl (RuntimeError ("column is not exists: " +:+ col)), σ)
  ∧ Wrapper.compute self type σ
    = (inl (ValueError (type +:+ " not supported.")), σ).
Proof.
  intros Ho Hcol Hl Hn. split.
  - unfold Wrapper.get_col_as_str.
    step_by ltac:(by apply run_get_inst).
    by rewrite bool_decide_eq_false_2.
  - unfold Wrapper.compute.
    rewrite decide_False by done. by rewrite decide_False.
Qed.

(** ** The head sample *)

(** C10: the first [head(n)] fixes the sample; every later [head(m)] returns
    that sample and leaves the store as it is, whatever [m].  When the
    instance had no sample, the first call asks the engine once and the
    sample is the first [n] rows of the first partition. *)
Theorem head_cached_on_first_call (σ : store) (self : loc) (o : EDAFrame) (n m : nat) :
  instances σ !! self = Some o →
  ∃ h σ1,
    Wrapper.head self n σ = (inr h, σ1)
    ∧ Wrapper.head self m σ1 = (inr h, σ1)
    ∧ (_head o = None →
       h = head_rows n (_ddf o)
       ∧ pd_rows h = take n (default [] (head (partitions (_ddf o))))
       ∧ engine_log σ1 = engine_log σ ++ [EvHead n]).
Proof.
  intros Ho. unfold Wrapper.head.
  destruct (_head o) as [h|] eqn:Hh.
  - exists h, σ. split; [|split; [|done]].
    + step_by ltac:(by apply run_get_inst). by rewrite Hh.
    + step_by ltac:(by apply run_get_inst). by rewrite Hh.
  - eexists _, _. split; [|split].
    + step_by ltac:(by apply run_get_inst). rewrite Hh.
      unfold Wrapper.frame.
      erewrite run_bind.
      2:{ step_by ltac:(by apply run_get_inst). reflexivity. }
      cbv beta.
      unfold ddf_head. erewrite run_bind; [|reflexivity]. cbv beta.
      erewrite run_bind.
      2:{ apply run_upd_inst. cbn [instances]. exact Ho. }
      reflexivity.
    + erewrite run_bind.
      2:{ apply run_get_inst. cbn [instances].
          apply list_lookup_insert_eq. by eapply lookup_lt_Some. }
      done.
    + done.
Qed.
(** ** Shape and [compute] *)

Lemma with_shape_id (o : EDAFrame) (sh : option nat * nat) :
  _shape o = Some sh → with_shape (Some sh) o = o.
Proof. destruct o. simpl. by intros ->. Qed.

Lemma run_shape (σ : store) (self : loc) (o : EDAFrame) (v : DaskArray) :
  instances σ !! self = Some o →
  arrays σ !! _values o = Some v →
  let sh := default (da_shape v) (_shape o) in
  Wrapper.shape self σ
  = (inr sh,
     mk_store (<[self := with_shape (Some sh) o]> (instances σ)) (arrays σ)
       (str_caches σ) (engine_log σ)).
Proof.
  intros Ho Hv sh. unfold Wrapper.shape.
  step_by ltac:(by apply run_get_inst).
  destruct (_shape o) as [s|] eqn:Hs.
  - subst sh. simpl. rewrite with_shape_id by done.
    rewrite list_insert_id by done. by destruct σ.
  - unfold Wrapper.values.
    erewrite run_bind.
    2:{ step_by ltac:(by apply run_get_inst). reflexivity. }
    cbv beta.
    step_by ltac:(by apply run_get_array).
    erewrite run_bind; [|by apply run_upd_inst]. done.
Qed.

Lemma run_compute_lengths_unresolved (σ : store) (self : loc) (o : EDAFrame)
    (v : DaskArray) :
  instances σ !! self = Some o →
  arrays σ !! _values o = Some v →
  let sh := default (da_shape v) (_shape o) in
  sh.1 = None →
  Wrapper.compute self "lengths" σ
  = (inr tt,
     mk_store
       (<[self := with_nulls (NullsLazy (S (length (arrays σ))))
                    (with_values (length (arrays σ)) (with_shape (Some sh) o))]>
          (instances σ))
       (arrays σ ++
        [frame_array true (_ddf o);
         nullity_array (chunks (frame_array true (_ddf o))) (_ddf o)])
       (str_caches σ)
       (engine_log σ ++ [EvLengths])).
Proof.
  intros Ho Hv sh Hsh.
  assert (Hlt : self < length (instances σ)) by by eapply lookup_lt_Some.
  unfold Wrapper.compute. rewrite decide_True by done.
  step_by ltac:(by apply run_shape). fold sh.
  rewrite bool_decide_eq_true_2 by done.
  unfold Wrapper.frame, Wrapper.values.
  erewrite run_bind.
  2:{ step_by ltac:(apply run_get_inst; cbn [instances];
                    by apply list_lookup_insert_eq). reflexivity. }
  cbv beta. cbn [_ddf with_shape].
  step_by ltac:(apply run_to_dask_array).
  step_refl.
  erewrite run_bind.
  2:{ apply run_upd_inst. cbn [instances]. by apply list_lookup_insert_eq. }
  cbv beta. cbn [instances arrays str_caches engine_log].
  rewrite list_insert_insert_eq.
  erewrite run_bind.
  2:{ step_by ltac:(apply run_get_inst; cbn [instances];
                    by apply list_lookup_insert_eq). reflexivity. }
  cbv beta. cbn [_ddf with_shape with_values].
  step_by ltac:(apply run_to_dask_array).
  step_refl.
  erewrite run_bind.
  2:{ apply run_upd_inst. cbn [instances]. by apply list_lookup_insert_eq. }
  cbv beta. cbn [instances arrays str_caches engine_log].
  rewrite list_insert_insert_eq.
  erewrite run_bind.
  2:{ step_by ltac:(apply run_get_inst; cbn [instances];
                    by apply list_lookup_insert_eq). reflexivity. }
  cbv beta. cbn [_values with_nulls with_values].
  step_by ltac:(apply run_get_array; cbn [arrays]; rewrite <- app_assoc;
                by apply list_lookup_middle).
  erewrite run_set_chunks.
  2:{ cbn [arrays]. rewrite <- app_assoc, length_app.
      rewrite lookup_app_r by lia.
      replace (length (arrays σ) + length [_] - length (arrays σ)) with 1
        by (simpl; lia).
      done. }
  cbn [instances arrays str_caches engine_log].
  rewrite !length_app. cbn [length]. rewrite Nat.add_1_r.
  rewrite <- (app_assoc (arrays σ)).
  rewrite insert_app_r_alt by lia.
  replace (S (length (arrays σ)) - length (arrays σ)) with 1 by lia.
  rewrite app_nil_r. done.
Qed.

Lemma run_compute_lengths_resolved (σ : store) (self : loc) (o : EDAFrame)
    (v : DaskArray) :
  instances σ !! self = Some o →
  arrays σ !! _values o = Some v →
  let sh := default (da_shape v) (_shape o) in
  sh.1 ≠ None →
  Wrapper.compute self "lengths" σ
  = (inr tt,
     mk_store (<[self := with_shape (Some sh) o]> (instances σ)) (arrays σ)
       (str_caches σ) (engine_log σ)).
Proof.
  intros Ho Hv sh Hsh.
  unfold Wrapper.compute. rewrite decide_True by done.
  step_by ltac:(by apply run_shape). fold sh.
  by rewrite bool_decide_eq_false_2.
Qed.

Lemma run_compute_nulls (σ : store) (self : loc) (o : EDAFrame) (ln : loc)
    (x v : DaskArray) (b : ndarray) (bs : list ndarray) :
  instances σ !! self = Some o →
  _nulls o = NullsLazy ln →
  arrays σ !! ln = Some x →
  blocks x = b :: bs →
  arrays σ !! _values o = Some v →
  Wrapper.compute self "nulls" σ
  = (inr tt,
     mk_store
       (<[self := with_nulls (NullsArray (da_compute x)) o]> (instances σ))
       (<[_values o :=
            mk_DaskArray
              (map (λ b, Some (length (nd_rows b))) (blocks x), [nd_ncols b])
              (da_dtype v) (blocks v)]> (arrays σ))
       (str_caches σ)
       (engine_log σ ++ [EvCompute])).
Proof.
  intros Ho Hn Hx Hb Hv.
  unfold Wrapper.compute. rewrite decide_False by done. rewrite decide_True by done.
  unfold Wrapper.nulls, Wrapper.values.
  erewrite run_bind.
  2:{ step_by ltac:(by apply run_get_inst). reflexivity. }
  cbv beta. rewrite Hn.
  step_by ltac:(by apply run_get_array).
  rewrite Hb. cbn [map fst snd].
  step_refl. step_refl.
  erewrite run_bind.
  2:{ apply run_upd_inst. cbn [instances]. exact Ho. }
  cbv beta. cbn [instances arrays str_caches engine_log].
  erewrite run_bind.
  2:{ step_by ltac:(apply run_get_inst; cbn [instances];
                    apply list_lookup_insert_eq; by eapply lookup_lt_Some).
      reflexivity. }
  cbv beta. cbn [_values with_nulls].
  erewrite run_set_chunks; [|exact Hv].
  cbn [instances arrays str_caches engine_log].
  rewrite !map_map. done.
Qed.
(** ** The chunks of the two views *)







(** C3 fails on the code: on the instance built lazily from the example
    table the row count is unresolved; [compute("lengths")] succeeds and
    resolves the three rows of the array view, but [shape] still answers
    with the unresolved row count that the call itself cached, also after
    [compute("nulls")]. *)
Theorem compute_lengths_leaves_shape_unresolved :
  (Wrapper.shape 0 Examples.built).1 = inr (None, 3)
  ∧ (Wrapper.compute 0 "lengths" Examples.built).1 = inr tt
  ∧ (let σ2 := (Wrapper.compute 0 "lengths" Examples.built).2 in
     (Wrapper.shape 0 σ2).1 = inr (None, 3)
     ∧ (do lv <- Wrapper.values 0; do v <- get_array lv; ret (da_shape v)) σ2
       = (inr (Some 3, 3), σ2)
     ∧ (Wrapper.compute 0 "nulls" σ2).1 = inr tt
     ∧ (Wrapper.shape 0 (Wrapper.compute 0 "nulls" σ2).2).1 = inr (None, 3)).
Proof. vm_compute. repeat split. Qed.

(** The same for every instance whose row count is unresolved. *)
Lemma shape_stale_after_compute_lengths (σ : store) (self : loc) (o : EDAFrame)
    (v : DaskArray) :
  instances σ !! self = Some o →
  arrays σ !! _values o = Some v →
  (default (da_shape v) (_shape o)).1 = None →
  ∃ σ' c v',
    Wrapper.compute self "lengths" σ = (inr tt, σ')
    ∧ Wrapper.shape self σ' = (inr (None, c), σ')
    ∧ (do lv <- Wrapper.values self; get_array lv) σ' = (inr v', σ')
    ∧ (da_shape v').1 = Some (length (concat (partitions (_ddf o)))).
Proof.
  intros Ho Hv Hsh.
  assert (Hlt : self < length (instances σ)) by by eapply lookup_lt_Some.
  destruct (default (da_shape v) (_shape o)) as [r c] eqn:Hd. simpl in Hsh. subst r.
  eexists _, c, _. split.
  { apply (run_compute_lengths_unresolved _ _ _ _ Ho Hv). by rewrite Hd. }
  rewrite Hd. split; [|split].
  - unfold Wrapper.shape.
    step_by ltac:(apply run_get_inst; cbn [instances]; by apply list_lookup_insert_eq).
    done.
  - unfold Wrapper.values.
    erewrite run_bind.
    2:{ step_by ltac:(apply run_get_inst; cbn [instances];
                      by apply list_lookup_insert_eq). reflexivity. }
    cbv beta. cbn [_values with_nulls with_values].
    apply run_get_array. cbn [arrays]. by apply list_lookup_middle.
  - unfold da_shape, frame_array. cbn [chunks fst].
    induction (partitions (_ddf o)) as [|p ps IH]; [done|].
    cbn [map sum_chunks concat]. rewrite IH, length_app. done.
Qed.
(** ** What a method call leaves untouched *)

Section Frame.

Variable b : loc.
Variable l : option loc.

Lemma untouched_refl (σ : store) : untouched b l σ σ.
Proof. by split. Qed.

Lemma untouched_trans (σ1 σ2 σ3 : store) :
  untouched b l σ1 σ2 → untouched b l σ2 σ3 → untouched b l σ1 σ3.
Proof.
  intros [H1 H2] [H3 H4]. split; [by rewrite H3|].
  intros l' Hl. rewrite H4 by done. by apply H2.
Qed.

Lemma pres_ret {A : Type} (a : A) : preserves (untouched b l) (ret a).
Proof. intros σ. apply untouched_refl. Qed.

Lemma pres_raise {A : Type} (e : exn) : preserves (untouched b l) (raise (A:=A) e).
Proof. intros σ. apply untouched_refl. Qed.

Lemma pres_lift {A : Type} (r : result A) : preserves (untouched b l) (lift r).
Proof. destruct r; [apply pres_raise|apply pres_ret]. Qed.

Lemma pres_bind {A B : Type} (m : M A) (k : A → M B) :
  preserves (untouched b l) m →
  (∀ a, preserves (untouched b l) (k a)) →
  preserves (untouched b l) (bind m k).
Proof.
  intros Hm Hk σ. unfold bind. specialize (Hm σ).
  destruct (m σ) as [[e|a] σ'] eqn:E; simpl in *; [done|].
  eapply untouched_trans; [exact Hm|]. apply Hk.
Qed.

Lemma pres_get_inst (x : loc) : preserves (untouched b l) (get_inst x).
Proof.
  intros σ. unfold get_inst. destruct (instances σ !! x); apply untouched_refl.
Qed.

Lemma pres_get_array (x : loc) : preserves (untouched b l) (get_array x).
Proof.
  intros σ. unfold get_array. destruct (arrays σ !! x); apply untouched_refl.
Qed.

Lemma pres_get_cache (x : loc) : preserves (untouched b l) (get_cache x).
Proof.
  intros σ. unfold get_cache. destruct (str_caches σ !! x); apply untouched_refl.
Qed.

Lemma pres_alloc_array (a : DaskArray) : preserves (untouched b l) (alloc_array a).
Proof. intros σ. by split. Qed.

Lemma pres_set_chunks (x : loc) (c : chunks_t) :
  preserves (untouched b l) (set_chunks x c).
Proof.
  intros σ. unfold set_chunks. destruct (arrays σ !! x); by split.
Qed.

Lemma pres_log (ev : engine_call) : preserves (untouched b l) (log ev).
Proof. intros σ. by split. Qed.

Lemma pres_upd_inst (a : loc) (f : EDAFrame → EDAFrame) :
  a ≠ b → preserves (untouched b l) (upd_inst a f).
Proof.
  intros Hab σ. unfold upd_inst. destruct (instances σ !! a); [|by split].
  split; [|done]. simpl. by apply list_lookup_insert_ne.
Qed.

Lemma pres_cache_setitem (x : loc) (k : string * bool) (v : Series string) :
  l ≠ Some x → preserves (untouched b l) (cache_setitem x k v).
Proof.
  intros Hx σ. unfold cache_setitem. destruct (str_caches σ !! x); [|by split].
  split; [done|]. intros l' ->. simpl. apply list_lookup_insert_ne. congruence.
Qed.

End Frame.

Ltac pres_step :=
  first
    [ apply pres_ret | apply pres_raise | apply pres_lift
    | apply pres_get_inst | apply pres_get_array | apply pres_get_cache
    | apply pres_alloc_array | apply pres_set_chunks | apply pres_log
    | apply pres_upd_inst; done
    | apply pres_cache_setitem; done
    | apply pres_bind; [|intros]
    | match goal with
      | |- preserves _ (match ?x with _ => _ end) => destruct x
      | |- preserves _ (if ?x then _ else _) => destruct x
      end ].

Ltac pres := repeat pres_step.

Section FrameOfMethods.

Variables a b : loc.
Variable l : option loc.
Hypothesis Hab : a ≠ b.

Lemma pres_values : preserves (untouched b l) (Wrapper.values a).
Proof. unfold Wrapper.values. pres. Qed.

Lemma pres_frame : preserves (untouched b l) (Wrapper.frame a).
Proof. unfold Wrapper.frame. pres. Qed.

Lemma pres_nulls : preserves (untouched b l) (Wrapper.nulls a).
Proof. unfold Wrapper.nulls. pres. Qed.

Lemma pres_shape : preserves (untouched b l) (Wrapper.shape a).
Proof. unfold Wrapper.shape. pres; apply pres_values. Qed.

Lemma pres_head (n : nat) : preserves (untouched b l) (Wrapper.head a n).
Proof. unfold Wrapper.head, ddf_head. pres; apply pres_frame. Qed.

Lemma pres_get_missing_cnt (col : string) :
  preserves (untouched b l) (Wrapper.get_missing_cnt a col).
Proof. unfold Wrapper.get_missing_cnt. pres. Qed.

Lemma pres_get_dtype (col : string) :
  preserves (untouched b l) (Wrapper.get_dtype a col).
Proof. unfold Wrapper.get_dtype. pres. Qed.

Lemma pres_compute (type : string) :
  preserves (untouched b l) (Wrapper.compute a type).
Proof.
  unfold Wrapper.compute, to_dask_array.
  pres; first [apply pres_shape | apply pres_frame | apply pres_values
              | apply pres_nulls].
Qed.

Lemma pres_get_col_as_str (oa : EDAFrame) (col : string) (na_as_str : bool) (σ : store) :
  instances σ !! a = Some oa →
  l ≠ Some (_str_col_cache oa) →
  untouched b l σ (Wrapper.get_col_as_str a col na_as_str σ).2.
Proof.
  intros Ha Hl. unfold Wrapper.get_col_as_str.
  rewrite (run_bind _ _ _ _ _ (run_get_inst _ _ _ Ha)).
  match goal with
  | |- untouched _ _ σ (snd (?m σ)) =>
    refine ((_ : preserves (untouched b l) m) σ)
  end.
  unfold persist.
  pres; apply pres_get_missing_cnt.
Qed.

End FrameOfMethods.
Lemma after_untouched (op : operation) (a b : loc) (l : option loc) (σ : store)
    (oa : EDAFrame) :
  a ≠ b →
  instances σ !! a = Some oa →
  l ≠ Some (_str_col_cache oa) →
  untouched b l σ (after op a σ).
Proof.
  intros Hab Ha Hl. destruct op; simpl.
  - by apply pres_shape.
  - by apply pres_head.
  - by eapply pres_get_col_as_str.
  - by apply pres_get_missing_cnt.
  - by apply pres_get_dtype.
  - by apply pres_compute.
Qed.

(** C6, as the code has it: an operation on one instance leaves every other
    instance object as it was, so the dtype map, the missing counts, the
    head sample and the cached shape of the other are never changed; its
    string-coercion cache is unchanged too when the two instances do not
    hold the same cache dictionary.  A copy-constructed instance holds the
    dictionary of its source. *)
Theorem caches_isolated_unless_dictionary_shared (σ : store) (a b : loc)
    (oa ob : EDAFrame) (op : operation) :
  a ≠ b →
  instances σ !! a = Some oa →
  instances σ !! b = Some ob →
  instances (after op a σ) !! b = Some ob
  ∧ (_str_col_cache oa ≠ _str_col_cache ob →
     caches_of (after op a σ) b = caches_of σ b)
  ∧ (∀ detect_dtype vl rp dt,
       ∃ copy oc σc,
         Wrapper.__init__ detect_dtype (FromEDAFrame a) vl rp dt σ = (inr copy, σc)
         ∧ instances σc !! copy = Some oc
         ∧ copy ≠ a
         ∧ _str_col_cache oc = _str_col_cache oa).
Proof.
  intros Hab Ha Hb. split; [|split].
  - destruct (after_untouched op a b None σ oa Hab Ha ltac:(done)) as [H _].
    by rewrite H.
  - intros Hne.
    destruct (after_untouched op a b (Some (_str_col_cache ob)) σ oa Hab Ha
                ltac:(congruence)) as [H1 H2].
    unfold caches_of. rewrite H1, Hb. by rewrite (H2 _ eq_refl).
  - intros detect_dtype vl rp dt. eexists _, _, _. split; [|split; [|split]].
    + unfold Wrapper.__init__. step_by ltac:(by apply run_get_inst). reflexivity.
    + cbn [instances]. by apply list_lookup_middle.
    + apply lookup_lt_Some in Ha. lia.
    + done.
Qed.

Lemma caches_isolated_unless_dictionary_shared_witness :
  ∃ oa ob,
    0 ≠ 1
    ∧ instances Examples.built_and_projected !! 0 = Some oa
    ∧ instances Examples.built_and_projected !! 1 = Some ob
    ∧ _str_col_cache oa ≠ _str_col_cache ob
    ∧ caches_of (after (OpGetColAsStr "b" false) 0 Examples.built_and_projected) 1
      = caches_of Examples.built_and_projected 1.
Proof.
  eexists _, _.
  assert (H0 : 0 ≠ 1) by lia.
  split; [exact H0|].
  split; [vm_compute; reflexivity|].
  split; [vm_compute; reflexivity|].
  split; [vm_compute; lia|].
  refine (proj1 (proj2 (caches_isolated_unless_dictionary_shared
            Examples.built_and_projected 0 1 _ _ (OpGetColAsStr "b" false)
            H0 _ _)) _).
  - vm_compute; reflexivity.
  - vm_compute; reflexivity.
  - vm_compute; lia.
Defined.

(** C6 as stated fails for a copy-constructed instance: requesting column b
    as text through the copy (instance 1) changes the string-coercion cache
    observed through its source (instance 0). *)
Lemma copy_shares_string_cache :
  caches_of (after (OpGetColAsStr "b" false) 1 Examples.built_and_copied) 0
  ≠ caches_of Examples.built_and_copied 0.
Proof. vm_compute. intros H. discriminate H. Qed.

(** ** The string-coercion cache *)

Section StringCache.

Variables (σ : store) (self : loc) (o : EDAFrame) (col : string) (na_as_str : bool).
Variables (cache : gmap (string * bool) (Series string)).
Hypothesis Ho : instances σ !! self = Some o.
Hypothesis Hin : col ∈ _columns o.
Hypothesis Hcache : str_caches σ !! _str_col_cache o = Some cache.

Lemma run_get_col_as_str_cached (s : Series string) :
  cache !! (col, na_as_str) = Some s →
  Wrapper.get_col_as_str self col na_as_str σ = (inr s, σ).
Proof.
  intros Hs. unfold Wrapper.get_col_as_str.
  step_by ltac:(by apply run_get_inst).
  rewrite bool_decide_eq_true_2 by done.
  step_by ltac:(by apply run_get_cache).
  by rewrite Hs.
Qed.

Variables (dt : DType) (cnt : nat) (s : Series string).
Hypothesis Hdt : _eda_dtypes o !! col = Some dt.
Hypothesis Hcnt : _nulls_cnt o !! col = Some cnt.
Hypothesis Hcol : ddf_getitem_col (_ddf o) col = inr s.
Hypothesis Hmiss : cache !! (col, na_as_str) = None.

Lemma run_direct_test :
  (if is_Nominal dt
   then if na_as_str
        then do c <- Wrapper.get_missing_cnt self col; ret (bool_decide (c = 0))
        else ret true
   else ret false) σ
  = (inr (returned_directly dt cnt na_as_str), σ).
Proof.
  unfold returned_directly. destruct (is_Nominal dt), na_as_str; try done.
  unfold Wrapper.get_missing_cnt.
  erewrite run_bind.
  2:{ step_by ltac:(by apply run_get_inst). apply run_lift.
      unfold dict_get. by rewrite Hcnt. }
  cbv beta. simpl. by rewrite orb_false_r.
Qed.

Lemma run_get_col_as_str_direct :
  returned_directly dt cnt na_as_str = true →
  Wrapper.get_col_as_str self col na_as_str σ = (inr s, σ).
Proof.
  intros Hd. unfold Wrapper.get_col_as_str.
  step_by ltac:(by apply run_get_inst).
  rewrite bool_decide_eq_true_2 by done.
  step_by ltac:(by apply run_get_cache).
  rewrite Hmiss.
  step_by ltac:(apply run_lift; unfold dict_get; by rewrite Hdt).
  step_by ltac:(apply run_direct_test).
  rewrite Hd. by apply run_lift.
Qed.

Lemma run_get_col_as_str_coerce :
  returned_directly dt cnt na_as_str = false →
  Wrapper.get_col_as_str self col na_as_str σ
  = (inr (coerced s na_as_str),
     mk_store (instances σ) (arrays σ)
       (<[_str_col_cache o := <[(col, na_as_str) := coerced s na_as_str]> cache]>
          (str_caches σ))
       (engine_log σ ++ [EvPersist])).
Proof.
  intros Hd. unfold Wrapper.get_col_as_str.
  step_by ltac:(by apply run_get_inst).
  rewrite bool_decide_eq_true_2 by done.
  step_by ltac:(by apply run_get_cache).
  rewrite Hmiss.
  step_by ltac:(apply run_lift; unfold dict_get; by rewrite Hdt).
  step_by ltac:(apply run_direct_test).
  rewrite Hd.
  step_by ltac:(by apply run_lift).
  assert (Hlt : _str_col_cache o < length (str_caches σ)) by by eapply lookup_lt_Some.
  unfold coerced.
  destruct na_as_str.
  all: erewrite (run_bind _ _ σ);
    [|step_by ltac:(apply run_persist);
      erewrite run_cache_setitem; [reflexivity|exact Hcache]].
  all: cbv beta.
  all: step_by ltac:(apply run_get_cache; cbn [str_caches];
                     by apply list_lookup_insert_eq).
  all: rewrite lookup_insert_eq; done.
Qed.

End StringCache.
(** C7, as the code has it: a request whose key is already cached, or whose
    column is not returned directly, is answered from the cache: the first
    call leaves the column under the key (after one engine request when it
    had to be coerced), and the second call returns that same column and
    leaves the store as it is.  A nominal column asked with
    [na_as_str=False] (or without missing values) is returned directly: the
    call returns the column of the table, caches nothing and leaves the
    store as it is. *)
Theorem string_cache_serves_repeated_requests (σ : store) (self : loc)
    (o : EDAFrame) (col : string) (na_as_str : bool)
    (cache : gmap (string * bool) (Series string)) (dt : DType) (cnt : nat)
    (s : Series string) :
  instances σ !! self = Some o →
  col ∈ _columns o →
  str_caches σ !! _str_col_cache o = Some cache →
  _eda_dtypes o !! col = Some dt →
  _nulls_cnt o !! col = Some cnt →
  ddf_getitem_col (_ddf o) col = inr s →
  (is_Some (cache !! (col, na_as_str)) ∨ returned_directly dt cnt na_as_str = false →
   served_from_cache σ self col na_as_str)
  ∧ (cache !! (col, na_as_str) = None →
     returned_directly dt cnt na_as_str = false →
     ∃ σ1, Wrapper.get_col_as_str self col na_as_str σ
           = (inr (coerced s na_as_str), σ1)
           ∧ engine_log σ1 = engine_log σ ++ [EvPersist])
  ∧ (cache !! (col, na_as_str) = None →
     returned_directly dt cnt na_as_str = true →
     Wrapper.get_col_as_str self col na_as_str σ = (inr s, σ)).
Proof.
  intros Ho Hin Hcache Hdt Hcnt Hcol.
  assert (Hlt : _str_col_cache o < length (str_caches σ)) by by eapply lookup_lt_Some.
  split; [|split].
  - intros H.
    destruct (cache !! (col, na_as_str)) as [s0|] eqn:Hk.
    + exists s0, σ, o, cache.
      by rewrite (run_get_col_as_str_cached σ self o col na_as_str cache Ho Hin Hcache s0).
    + destruct H as [[? ?]|Hd]; [done|].
      eexists _, _, o, _. split; [by eapply run_get_col_as_str_coerce|].
      cbn [instances str_caches]. split; [done|].
      split; [by apply list_lookup_insert_eq|].
      split; [by apply lookup_insert_eq|].
      eapply run_get_col_as_str_cached; cbn [instances str_caches]; try done.
      * by apply list_lookup_insert_eq.
      * by apply lookup_insert_eq.
  - intros Hk Hd. eexists. split; [by eapply run_get_col_as_str_coerce|]. done.
  - intros Hk Hd. by eapply run_get_col_as_str_direct.
Qed.

Lemma string_cache_serves_repeated_requests_witness :
  ∃ o cache dt cnt s,
    instances Examples.built !! 0 = Some o
    ∧ "b" ∈ _columns o
    ∧ str_caches Examples.built !! _str_col_cache o = Some cache
    ∧ _eda_dtypes o !! "b" = Some dt
    ∧ _nulls_cnt o !! "b" = Some cnt
    ∧ ddf_getitem_col (_ddf o) "b" = inr s
    ∧ returned_directly dt cnt false = false
    ∧ served_from_cache Examples.built 0 "b" false.
Proof.
  eexists _, _, _, _, _.
  split; [vm_compute; reflexivity|].
  assert (Hin : "b" ∈ ["a"; "b"; "c"]) by (apply (bool_decide_unpack _); vm_compute; exact I).
  split; [exact Hin|].
  split; [vm_compute; reflexivity|].
  split; [vm_compute; reflexivity|].
  split; [vm_compute; reflexivity|].
  split; [vm_compute; reflexivity|].
  split; [vm_compute; reflexivity|].
  refine (proj1 (string_cache_serves_repeated_requests Examples.built 0 _ "b" false
                   _ _ _ _ _ _ _ _ _ _) _).
  - vm_compute; reflexivity.
  - exact Hin.
  - vm_compute; reflexivity.
  - vm_compute; reflexivity.
  - vm_compute; reflexivity.
  - vm_compute; reflexivity.
  - right. vm_compute; reflexivity.
Defined.

(** C7 as stated fails for a nominal column: column a of the example
    instance is returned directly, nothing is cached for it, and so no
    cached object is returned on the second call. *)
Lemma nominal_column_is_not_cached :
  ¬ served_from_cache Examples.built 0 "a" false.
Proof.
  intros (s & σ1 & o & cache & H1 & Ho & Hc & Hk & _).
  assert (E : (Wrapper.get_col_as_str 0 "a" false Examples.built).2 = Examples.built)
    by (vm_compute; reflexivity).
  rewrite H1 in E. simpl in E. subst σ1.
  assert (Hl : _str_col_cache o = 0).
  { vm_compute in Ho. injection Ho as <-. reflexivity. }
  rewrite Hl in Hc.
  assert (He : cache = ∅).
  { vm_compute in Hc. injection Hc as <-. reflexivity. }
  subst cache. by rewrite lookup_empty in Hk.
Qed.
(** ** Projection *)

Lemma lookup_snoc {A : Type} (l : list A) (x : A) : (l ++ [x]) !! length l = Some x.
Proof. by apply list_lookup_middle. Qed.

Lemma lookup_snoc_old {A : Type} (l : list A) (x y : A) (i : nat) :
  l !! i = Some y → (l ++ [x]) !! i = Some y.
Proof. intros H. rewrite lookup_app_l; [done|]. by eapply lookup_lt_Some. Qed.



(** ** Nominal columns at construction *)

(** C8: construction from a table succeeds when the normalised labels are
    distinct, and in the table the instance keeps, every cell of a column
    classified as nominal is the source cell itself when that cell is
    missing and the text of the source cell otherwise; the cells of the
    other columns are the source cells.  A list or a tuple is never
    missing: such a cell is replaced by its text as one value. *)
Theorem nominal_columns_become_text
    (detect_dtype : Series string → PdSeries string → option DTypeDef → DType)
    (t : Table) (value_length repartition : bool) (dtype : option DTypeDef)
    (σ0 : store) (is_pandas : bool) (ddf0 : DaskFrame pyobj) :
  Wrapper.as_dask t repartition = inr (is_pandas, ddf0) →
  NoDup (_process_column_name (columns ddf0)) →
  ∃ self σ1 o,
    Wrapper.__init__ detect_dtype (FromTable t) value_length repartition dtype σ0
    = (inr self, σ1)
    ∧ instances σ1 !! self = Some o
    ∧ _columns o = _process_column_name (columns ddf0)
    ∧ length (partitions (_ddf o)) = length (partitions ddf0)
    ∧ (∀ j col, _columns o !! j = Some col →
         ∃ dt, _eda_dtypes o !! col = Some dt
           ∧ ∀ p part k r x,
               partitions ddf0 !! p = Some part →
               part !! k = Some r →
               r !! j = Some x →
               ∃ part' r',
                 partitions (_ddf o) !! p = Some part'
                 ∧ part' !! k = Some r'
                 ∧ (is_Nominal dt = true → checknull x = true → r' !! j = Some x)
                 ∧ (is_Nominal dt = true → checknull x = false →
                    r' !! j = Some (PyStr (py_str x)))
                 ∧ (is_Nominal dt = false → r' !! j = Some x))
    ∧ (∀ items,
         checknull (PyList items) = false
         ∧ checknull (PyTuple items) = false
         ∧ _to_str_if_not_na (PyList items) = PyStr (py_str (PyList items))
         ∧ _to_str_if_not_na (PyTuple items) = PyStr (py_str (PyTuple items))).
Proof.
  intros Has Hnd.
  destruct (init_table_run detect_dtype t value_length repartition dtype σ0
              is_pandas ddf0 _ Has eq_refl Hnd) as (e & nc & _ & Hdom & _ & Hrun).
  eexists _, _, _. split; [exact Hrun|]. cbn [instances].
  split; [apply list_lookup_middle; done|].
  cbn [_columns _ddf _eda_dtypes columns set_columns].
  split; [done|]. split.
  { unfold stringified, stringified_upto. cbn [partitions set_columns].
    by rewrite length_map. }
  split; [|done].
  intros j col Hj.
  destruct (Hdom col) as [dt Hdt]; [by eapply list_elem_of_lookup_2|].
  exists dt. split; [done|].
  intros p part k r x Hp Hk Hx.
  unfold stringified, stringified_upto. cbn [partitions set_columns columns].
  eexists _, _.
  split; [by rewrite list_lookup_fmap, Hp|].
  split; [by rewrite list_lookup_fmap, Hk|].
  rewrite list_lookup_imap, Hx. cbn [fmap option_fmap option_map].
  assert (Hsel : bool_decide (j < length (_process_column_name (columns ddf0)))
                 && nominal_at (_process_column_name (columns ddf0)) e j
                 = is_Nominal dt).
  { rewrite bool_decide_eq_true_2 by by eapply lookup_lt_Some.
    unfold nominal_at. by rewrite Hj, Hdt. }
  rewrite Hsel. unfold _to_str_if_not_na.
  split; [|split].
  - intros -> ->. done.
  - intros -> ->. done.
  - intros ->. done.
Qed.

Lemma nominal_columns_become_text_witness :
  Wrapper.as_dask (DaskTable Examples.lazy_table) true
  = inr (false, Examples.lazy_table)
  ∧ NoDup (_process_column_name (columns Examples.lazy_table))
  ∧ ∃ self σ1 o,
      Wrapper.__init__ Examples.by_storage (FromTable (DaskTable Examples.lazy_table))
        false true None initial_store = (inr self, σ1)
      ∧ instances σ1 !! self = Some o
      ∧ _columns o = ["a"; "b"; "c"].
Proof.
  assert (H1 : Wrapper.as_dask (DaskTable Examples.lazy_table) true
               = inr (false, Examples.lazy_table)) by reflexivity.
  assert (H2 : NoDup (_process_column_name (columns Examples.lazy_table))).
  { apply (bool_decide_unpack _). vm_compute. exact I. }
  split; [exact H1|]. split; [exact H2|].
  destruct (nominal_columns_become_text Examples.by_storage
              (DaskTable Examples.lazy_table) false true None initial_store
              false Examples.lazy_table H1 H2)
    as (self & σ1 & o & Hrun & Ho & Hc & _).
  exists self, σ1, o. split; [exact Hrun|]. split; [exact Ho|exact Hc].
Defined.

(** ** The number of partitions *)

(** C9 fails on the code: the count asked of the engine is
    [ceil(size / 128 MiB)] with no least value, so for an in-memory table
    whose memory usage is 0 it is 0; the engine divides the row count by it
    and the constructor ends with [ZeroDivisionError], whatever the table
    and the store, and leaves the store as it was.  Without repartitioning
    the same table becomes one partition. *)
Theorem repartitioning_fails_without_memory
    (detect_dtype : Series string → PdSeries string → option DTypeDef → DType)
    (df : PandasFrame pyobj) (value_length : bool) (dtype : option DTypeDef)
    (σ : store) :
  Wrapper.npartitions_of 0 = 0%Z
  ∧ Wrapper.npartitions_of 0 ≠ Z.max 1 (ceil_div 0 (128 * 1024 * 1024))
  ∧ Wrapper.__init__ detect_dtype (FromTable (PandasTable df 0)) value_length true
      dtype σ
    = (inl ZeroDivisionError, σ)
  ∧ Wrapper.as_dask (PandasTable df 0) false = inr (true, from_pandas_single df)
  ∧ length (partitions (from_pandas_single df)) = 1.
Proof.
  split; [by vm_compute|]. split; [by vm_compute|]. split; [|done].
  unfold Wrapper.__init__.
  erewrite run_bind_raise; [done|].
  apply run_lift_raise. unfold Wrapper.as_dask.
  change (Wrapper.npartitions_of 0) with 0%Z. done.
Qed.

(** For a positive memory usage below 2^53 bytes, where the float quotient
    is the exact one, the count asked for is ceil(size / 128 MiB): it is at
    least one and is the least count under which size / count does not
    exceed 128 MiB, and the engine accepts it. *)
Lemma partitions_requested_by_memory (df : PandasFrame pyobj) (df_size : Z) :
  (0 < df_size < 2 ^ 53)%Z →
  Wrapper.npartitions_of df_size = ceil_div df_size (128 * 1024 * 1024)
  ∧ (1 ≤ Wrapper.npartitions_of df_size)%Z
  ∧ ((Wrapper.npartitions_of df_size - 1) * (128 * 1024 * 1024) < df_size
     ≤ Wrapper.npartitions_of df_size * (128 * 1024 * 1024))%Z
  ∧ (∃ ddf, from_pandas_npartitions df (Wrapper.npartitions_of df_size) = inr ddf
            ∧ Wrapper.as_dask (PandasTable df df_size) true = inr (true, ddf)).
Proof.
  intros Hpos. rewrite npartitions_of_ceil by lia.
  change (128 * 1024 * 1024)%Z with 134217728%Z.
  pose proof (ceil_div_pos df_size 134217728 ltac:(lia) ltac:(lia)) as H1.
  pose proof (ceil_div_bounds df_size 134217728 ltac:(lia)) as H2.
  split; [done|]. split; [done|]. split; [done|].
  unfold Wrapper.as_dask. rewrite npartitions_of_ceil by lia.
  unfold from_pandas_npartitions. rewrite decide_False by lia.
  destruct (pd_rows df) as [|r rows] eqn:Hrows; [eauto|].
  rewrite decide_False; [eauto|].
  pose proof (ceil_div_pos (Z.of_nat (length (r :: rows)))
                (ceil_div df_size 134217728) ltac:(simpl; lia) ltac:(lia)).
  lia.
Qed.

(** Above 2^53 bytes the size is rounded before it is divided: one byte more
    than 2^53 asks for 2^26 partitions, not for one more. *)
Lemma partitions_of_rounded_size :
  Wrapper.npartitions_of (2 ^ 53 + 1) = (2 ^ 26)%Z
  ∧ ceil_div (2 ^ 53 + 1) (128 * 1024 * 1024) = (2 ^ 26 + 1)%Z.
Proof. by vm_compute. Qed.

(** ** Witnesses for the validation and head properties *)

Lemma validation_errors_leave_store_witness :
  let σ := Examples.built in
  instances σ !! 0 = Some (Examples.instance_at σ 0)
  ∧ ("z" ∉ _columns (Examples.instance_at σ 0))
  ∧ ("values" ≠ "lengths")
  ∧ ("values" ≠ "nulls")
  ∧ Wrapper.get_col_as_str 0 "z" false σ
    = (inl (RuntimeError "column is not exists: z"), σ)
  ∧ Wrapper.compute 0 "values" σ = (inl (ValueError "values not supported."), σ).
Proof.
  intros σ.
  assert (H1 : instances σ !! 0 = Some (Examples.instance_at σ 0))
    by (vm_compute; reflexivity).
  assert (H2 : "z" ∉ _columns (Examples.instance_at σ 0)).
  { apply (bool_decide_unpack _). vm_compute. exact I. }
  assert (H3 : "values" ≠ "lengths") by discriminate.
  assert (H4 : "values" ≠ "nulls") by discriminate.
  repeat (split; [assumption|]).
  exact (validation_errors_leave_store σ 0 _ "z" "values" false H1 H2 H3 H4).
Defined.

Lemma head_cached_on_first_call_witness :
  let σ := Examples.built_long in
  instances σ !! 0 = Some (Examples.instance_at σ 0)
  ∧ ∃ h σ1,
      Wrapper.head 0 5 σ = (inr h, σ1)
      ∧ Wrapper.head 0 10 σ1 = (inr h, σ1)
      ∧ length (pd_rows h) = 5.
Proof.
  intros σ.
  assert (H1 : instances σ !! 0 = Some (Examples.instance_at σ 0))
    by (vm_compute; reflexivity).
  split; [exact H1|].
  destruct (head_cached_on_first_call σ 0 _ 5 10 H1) as (h & σ1 & Ha & Hb & Hc).
  exists h, σ1. split; [exact Ha|]. split; [exact Hb|].
  destruct (Hc ltac:(vm_compute; reflexivity)) as (_ & -> & _).
  vm_compute. reflexivity.
Defined.

(** ** The class-level dictionary *)

(** Instances built from tables never bind [_str_col_cache], so they all
    write to the dictionary of the class: a second instance built from the
    same kind of table finds, under its own column b, the column cached by
    the first. *)
Lemma class_dictionary_is_shared_by_built_instances :
  let σ1 := (Wrapper.get_col_as_str 0 "b" false Examples.built).2 in
  let σ2 :=
    (Wrapper.__init__ Examples.by_storage (FromTable (DaskTable Examples.lazy_table))
       true true None σ1).2 in
  caches_of σ2 1 ≠ None
  ∧ (c_str_col_cache <$> caches_of σ2 1) = (c_str_col_cache <$> caches_of σ2 0)
  ∧ (Wrapper.get_col_as_str 1 "b" false σ2).2 = σ2.
Proof. vm_compute. split; [discriminate|]. split; reflexivity. Qed.
(** * Further properties *)

(** ** What construction leaves in the instance *)

Lemma process_column_name_length (df_columns : list pyobj) :
  length (_process_column_name df_columns) = length df_columns.
Proof.
  unfold _process_column_name.
  rewrite (rename_loop_spec (map py_str df_columns)); [|simpl; lia|done|done|].
  - simpl. by rewrite drop_0, length_imap, length_map.
  - intros c _. by rewrite lookup_empty.
Qed.

Lemma checknull_selected (sel : bool) (x : pyobj) :
  checknull (if sel then _to_str_if_not_na x else x) = checknull x.
Proof. destruct sel; [apply checknull_str_if_not_na|done]. Qed.

Lemma length_filter_map {A B : Type} (f : A → B) (P : B → Prop) (Q : A → Prop)
    `{∀ x, Decision (P x)} `{∀ x, Decision (Q x)} (l : list A) :
  (∀ x, P (f x) ↔ Q x) →
  length (filter P (map f l)) = length (filter Q l).
Proof.
  intros HPQ. induction l as [|x l IH]; [done|]. simpl.
  rewrite !filter_cons.
  destruct (decide (P (f x))) as [HP|HP], (decide (Q x)) as [HQ|HQ]; simpl;
    try (by rewrite IH); exfalso.
  - by apply HQ, HPQ.
  - by apply HP, HPQ.
Qed.

Lemma missing_in_column_stringified (e : gmap string DType) (ddf : DaskFrame string)
    (j : nat) :
  missing_in_column (stringified e ddf) j = missing_in_column ddf j.
Proof.
  unfold missing_in_column, stringified, stringified_upto. cbn [partitions].
  rewrite <- concat_map. apply length_filter_map. intros r.
  rewrite list_lookup_imap. destruct (r !! j) as [x|]; [|done]. simpl.
  by rewrite checknull_selected.
Qed.

Lemma nullity_rows_stringified (e : gmap string DType) (ddf : DaskFrame string) :
  concat (partitions (isnull (stringified e ddf)))
  = map (map (λ x, PyBool (checknull x))) (concat (partitions ddf)).
Proof.
  unfold isnull, stringified, stringified_upto. cbn [partitions].
  rewrite concat_map, map_map. f_equal. apply map_ext. intros p.
  rewrite map_map. apply map_ext. intros r.
  apply list_eq. intros i. rewrite !list_lookup_fmap, list_lookup_imap.
  destruct (r !! i) as [x|]; [|done]. simpl. by rewrite checknull_selected.
Qed.

Section AfterConstruction.

Variable detect_dtype : Series string → PdSeries string → option DTypeDef → DType.
Variables (t : Table) (value_length repartition : bool) (dtype : option DTypeDef).
Variables (σ0 : store) (is_pandas : bool) (ddf0 : DaskFrame pyobj).
Hypothesis Has : Wrapper.as_dask t repartition = inr (is_pandas, ddf0).
Hypothesis Hnd : NoDup (_process_column_name (columns ddf0)).

(** X1: after construction, the missing count of every column is the number
    of missing cells of that column in the table that was given (under the
    normalised label), and asking for any other label raises [KeyError];
    neither changes the store. *)
Theorem missing_counts_are_exact :
  ∃ self σ1,
    Wrapper.__init__ detect_dtype (FromTable t) value_length repartition dtype σ0
    = (inr self, σ1)
    ∧ (∀ j col, _process_column_name (columns ddf0) !! j = Some col →
         Wrapper.get_missing_cnt self col σ1
         = (inr (missing_in_column ddf0 j), σ1))
    ∧ (∀ col, col ∉ _process_column_name (columns ddf0) →
         Wrapper.get_missing_cnt self col σ1 = (inl (KeyError col), σ1)).
Proof.
  destruct (init_table_run_full detect_dtype t value_length repartition dtype σ0
              is_pandas ddf0 _ Has eq_refl Hnd)
    as (e & nc & _ & _ & Hout & Hcnt & Hrun).
  eexists _, _. split; [exact Hrun|]. split.
  - intros j col Hj. unfold Wrapper.get_missing_cnt.
    step_by ltac:(apply run_get_inst; cbn [instances]; by apply list_lookup_middle).
    apply run_lift. unfold dict_get. cbn [_nulls_cnt].
    rewrite (Hcnt j col Hj), missing_in_column_stringified. done.
  - intros col Hcol. unfold Wrapper.get_missing_cnt.
    step_by ltac:(apply run_get_inst; cbn [instances]; by apply list_lookup_middle).
    apply run_lift_raise. unfold dict_get. cbn [_nulls_cnt].
    by destruct (Hout col Hcol) as [_ ->].
Qed.

(** X2: after construction, the semantic type of every column is what the
    classifier answers for the column of the given table (before any cell is
    rewritten), the first 100 rows of its first partition and the hints;
    asking for any other label raises [KeyError]. *)
Theorem dtypes_are_the_classifier_answers :
  ∃ self σ1,
    Wrapper.__init__ detect_dtype (FromTable t) value_length repartition dtype σ0
    = (inr self, σ1)
    ∧ (∀ j col, _process_column_name (columns ddf0) !! j = Some col →
         Wrapper.get_dtype self col σ1
         = (inr (detect_dtype
                   {| s_name := col;
                      s_dtype := default dt_object (dtypes ddf0 !! j);
                      s_partitions := column_cells ddf0 j |}
                   {| ps_name := col;
                      ps_dtype := default dt_object (dtypes ddf0 !! j);
                      ps_values :=
                        map (λ r, cell r j)
                            (take 100 (default [] (head (partitions ddf0)))) |}
                   dtype),
            σ1))
    ∧ (∀ col, col ∉ _process_column_name (columns ddf0) →
         Wrapper.get_dtype self col σ1 = (inl (KeyError col), σ1)).
Proof.
  destruct (init_table_run_full detect_dtype t value_length repartition dtype σ0
              is_pandas ddf0 _ Has eq_refl Hnd)
    as (e & nc & Hin & _ & Hout & _ & Hrun).
  eexists _, _. split; [exact Hrun|]. split.
  - intros j col Hj. unfold Wrapper.get_dtype.
    step_by ltac:(apply run_get_inst; cbn [instances]; by apply list_lookup_middle).
    apply run_lift. unfold dict_get. cbn [_eda_dtypes].
    erewrite Hin; [done|by eapply list_elem_of_lookup_2|].
    unfold classified, ddf_getitem_col, pd_getitem_col.
    cbn [columns set_columns head_rows pd_columns].
    rewrite (get_loc_NoDup _ _ j) by done. done.
  - intros col Hcol. unfold Wrapper.get_dtype.
    step_by ltac:(apply run_get_inst; cbn [instances]; by apply list_lookup_middle).
    apply run_lift_raise. unfold dict_get. cbn [_eda_dtypes].
    by destruct (Hout col Hcol) as [-> _].
Qed.

End AfterConstruction.
Lemma missing_counts_are_exact_witness :
  Wrapper.as_dask (DaskTable Examples.lazy_table) true
  = inr (false, Examples.lazy_table)
  ∧ NoDup (_process_column_name (columns Examples.lazy_table))
  ∧ ∃ self σ1,
      Wrapper.__init__ Examples.by_storage (FromTable (DaskTable Examples.lazy_table))
        false true None initial_store = (inr self, σ1)
      ∧ Wrapper.get_missing_cnt self "a" σ1 = (inr 1, σ1).
Proof.
  assert (H1 : Wrapper.as_dask (DaskTable Examples.lazy_table) true
               = inr (false, Examples.lazy_table)) by reflexivity.
  assert (H2 : NoDup (_process_column_name (columns Examples.lazy_table))).
  { apply (bool_decide_unpack _). vm_compute. exact I. }
  split; [exact H1|]. split; [exact H2|].
  destruct (missing_counts_are_exact Examples.by_storage
              (DaskTable Examples.lazy_table) false true None initial_store
              false Examples.lazy_table H1 H2) as (self & σ1 & Hrun & Hcnt & _).
  exists self, σ1. split; [exact Hrun|].
  exact (Hcnt 0 "a" eq_refl).
Defined.

Lemma dtypes_are_the_classifier_answers_witness :
  Wrapper.as_dask (DaskTable Examples.lazy_table) true
  = inr (false, Examples.lazy_table)
  ∧ NoDup (_process_column_name (columns Examples.lazy_table))
  ∧ ∃ self σ1,
      Wrapper.__init__ Examples.by_storage (FromTable (DaskTable Examples.lazy_table))
        false true None initial_store = (inr self, σ1)
      ∧ Wrapper.get_dtype self "a" σ1 = (inr Nominal, σ1)
      ∧ Wrapper.get_dtype self "z" σ1 = (inl (KeyError "z"), σ1).
Proof.
  assert (H1 : Wrapper.as_dask (DaskTable Examples.lazy_table) true
               = inr (false, Examples.lazy_table)) by reflexivity.
  assert (H2 : NoDup (_process_column_name (columns Examples.lazy_table))).
  { apply (bool_decide_unpack _). vm_compute. exact I. }
  split; [exact H1|]. split; [exact H2|].
  destruct (dtypes_are_the_classifier_answers Examples.by_storage
              (DaskTable Examples.lazy_table) false true None initial_store
              false Examples.lazy_table H1 H2) as (self & σ1 & Hrun & Hdt & Hno).
  exists self, σ1. split; [exact Hrun|]. split.
  - exact (Hdt 0 "a" eq_refl).
  - apply Hno. apply (bool_decide_unpack _). vm_compute. exact I.
Defined.

Lemma sum_chunks_lengths (ps : list (list row)) :
  sum_chunks (map (λ p : list row, Some (length p)) ps) = Some (length (concat ps)).
Proof.
  induction ps as [|p ps IH]; [done|]. simpl. by rewrite IH, length_app.
Qed.

Lemma sum_chunks_unknown (ps : list (list row)) :
  ps ≠ [] → sum_chunks (map (λ _ : list row, None) ps) = None.
Proof. by destruct ps. Qed.

Section AfterConstruction2.

Variable detect_dtype : Series string → PdSeries string → option DTypeDef → DType.
Variables (t : Table) (value_length repartition : bool) (dtype : option DTypeDef).
Variables (σ0 : store) (is_pandas : bool) (ddf0 : DaskFrame pyobj).
Hypothesis Has : Wrapper.as_dask t repartition = inr (is_pandas, ddf0).
Hypothesis Hnd : NoDup (_process_column_name (columns ddf0)).

(** X3: the shape read after construction has as many columns as the table
    has labels; its row count is the total number of rows when
    [value_length] was asked or the input came from pandas (which is always
    so for an in-memory table or column), and is unresolved otherwise.  The
    read caches the shape in the instance and asks nothing of the engine. *)
Theorem shape_after_construction :
  ∃ self σ1 sh σ2,
    Wrapper.__init__ detect_dtype (FromTable t) value_length repartition dtype σ0
    = (inr self, σ1)
    ∧ Wrapper.shape self σ1 = (inr sh, σ2)
    ∧ sh.2 = length (columns ddf0)
    ∧ (value_length || is_pandas = true →
       sh.1 = Some (length (concat (partitions ddf0))))
    ∧ (value_length || is_pandas = false → partitions ddf0 ≠ [] → sh.1 = None)
    ∧ ((∃ df m, t = PandasTable df m) ∨ (∃ s m, t = PandasSeries s m) →
       is_pandas = true)
    ∧ engine_log σ2 = engine_log σ1
    ∧ Wrapper.shape self σ2 = (inr sh, σ2).
Proof.
  destruct (init_table_run_full detect_dtype t value_length repartition dtype σ0
              is_pandas ddf0 _ Has eq_refl Hnd)
    as (e & nc & _ & _ & _ & _ & Hrun).
  eexists _, _, _, _. split; [exact Hrun|]. split.
  { eapply run_shape; cbn [instances arrays _values].
    - by apply list_lookup_middle.
    - by apply list_lookup_middle. }
  cbn [_shape default da_shape frame_array chunks fst snd].
  split.
  { cbn [stringified stringified_upto columns set_columns sum_list].
    unfold stringified, stringified_upto. cbn [columns set_columns].
    simpl. rewrite process_column_name_length. lia. }
  split.
  { intros ->.
    etrans; [apply (sum_chunks_lengths (partitions (stringified e _)))|].
    f_equal. unfold stringified, stringified_upto. cbn [partitions set_columns].
    rewrite <- concat_map. by rewrite length_map. }
  split.
  { intros -> Hne. unfold stringified, stringified_upto. cbn [partitions set_columns].
    apply sum_chunks_unknown. by destruct (partitions ddf0). }
  split.
  { intros [(df & m & ->)|(s & m & ->)]; unfold Wrapper.as_dask in Has;
      destruct repartition; try destruct from_pandas_npartitions; congruence. }
  split; [done|].
  unfold Wrapper.shape.
  step_by ltac:(apply run_get_inst; cbn [instances]; apply list_lookup_insert_eq;
                rewrite length_app; simpl; lia).
  done.
Qed.

(** X4: on an instance built from a table with at least one partition,
    [compute("nulls")] succeeds with one engine request; afterwards the
    nullity view is the materialised missing-value indicator of the cells of
    the given table (rewriting nominal cells to text does not change which
    cells are missing), with one column per label, and the row chunks of the
    array view are the row counts of the partitions. *)
Theorem compute_nulls_after_construction :
  partitions ddf0 ≠ [] →
  ∃ self σ1 σ2 o2 a v,
    Wrapper.__init__ detect_dtype (FromTable t) value_length repartition dtype σ0
    = (inr self, σ1)
    ∧ Wrapper.compute self "nulls" σ1 = (inr tt, σ2)
    ∧ instances σ2 !! self = Some o2
    ∧ _nulls o2 = NullsArray a
    ∧ nd_rows a = map (map (λ x, PyBool (checknull x))) (concat (partitions ddf0))
    ∧ nd_ncols a = length (columns ddf0)
    ∧ arrays σ2 !! _values o2 = Some v
    ∧ (chunks v).1 = map (λ p : list row, Some (length p)) (partitions ddf0)
    ∧ engine_log σ2 = engine_log σ1 ++ [EvCompute].
Proof.
  intros Hne.
  destruct (init_table_run_full detect_dtype t value_length repartition dtype σ0
              is_pandas ddf0 _ Has eq_refl Hnd)
    as (e & nc & _ & _ & _ & _ & Hrun).
  set (ddf1 := set_columns ddf0 (_process_column_name (columns ddf0))) in *.
  set (tbl := stringified e ddf1) in *.
  assert (HP : partitions tbl = map (map (imap (λ j c,
                 if bool_decide (j < length (columns ddf1)) && nominal_at (columns ddf1) e j
                 then _to_str_if_not_na c else c))) (partitions ddf0)) by done.
  destruct (partitions ddf0) as [|p0 ps] eqn:HP0; [done|].
  eexists _, _, _, _, _, _. split; [exact Hrun|]. split.
  { eapply run_compute_nulls; cbn [instances arrays _nulls _values].
    - by apply list_lookup_middle.
    - reflexivity.
    - rewrite lookup_app_r by lia.
      replace (S (length (arrays σ0)) - length (arrays σ0)) with 1 by lia.
      reflexivity.
    - unfold nullity_array, frame_array, isnull. cbn [blocks partitions].
      rewrite HP. cbn [map]. reflexivity.
    - by apply list_lookup_middle. }
  cbn [instances arrays engine_log].
  split; [apply list_lookup_insert_eq; rewrite length_app; simpl; lia|].
  cbn [_nulls _values with_nulls]. split; [done|].
  split.
  { unfold da_compute, nullity_array, frame_array. cbn [nd_rows blocks].
    rewrite map_map. cbn [nd_rows]. rewrite map_id.
    pose proof (nullity_rows_stringified e ddf1) as Hrows. fold tbl in Hrows.
    rewrite Hrows. unfold ddf1. cbn [partitions set_columns]. by rewrite HP0. }
  split.
  { unfold da_compute, nullity_array, frame_array, isnull. cbn [nd_ncols blocks partitions].
    rewrite HP. cbn [map head fmap option_fmap option_map default nd_ncols columns].
    unfold tbl, stringified, stringified_upto, ddf1. cbn [columns set_columns].
    apply process_column_name_length. }
  split.
  { apply list_lookup_insert_eq. rewrite length_app. simpl. lia. }
  split; [|done].
  cbn [chunks fst]. unfold nullity_array, frame_array, isnull. cbn [blocks partitions].
  rewrite HP, !map_map. apply map_ext. intros p. cbn [nd_rows].
  by rewrite !length_map.
Qed.

(** X5: construction establishes the well-formedness that projection relies
    on, provided the class-level dictionary exists in the store. *)
Theorem construction_is_well_formed :
  is_Some (str_caches σ0 !! cls_str_col_cache) →
  ∃ self σ1 o,
    Wrapper.__init__ detect_dtype (FromTable t) value_length repartition dtype σ0
    = (inr self, σ1)
    ∧ instances σ1 !! self = Some o
    ∧ well_formed σ1 o
    ∧ _columns o = _process_column_name (columns ddf0)
    ∧ _head o = None
    ∧ _shape o = None.
Proof.
  intros Hcls.
  destruct (init_table_run_full detect_dtype t value_length repartition dtype σ0
              is_pandas ddf0 _ Has eq_refl Hnd)
    as (e & nc & _ & Hdom & _ & Hcnt & Hrun).
  eexists _, _, _. split; [exact Hrun|]. cbn [instances].
  split; [by apply list_lookup_middle|].
  split; [|done].
  unfold well_formed.
  cbn [_columns _ddf _values _nulls _head _str_col_cache _eda_dtypes _nulls_cnt
       arrays str_caches columns set_columns].
  split; [done|]. split; [done|].
  split; [eexists; by apply list_lookup_middle|].
  split.
  { intros l [= <-]. eexists. rewrite lookup_app_r by lia.
    replace (S (length (arrays σ0)) - length (arrays σ0)) with 1 by lia. done. }
  split; [done|]. split; [done|].
  intros col Hcol. split; [by apply Hdom|].
  apply list_elem_of_lookup_1 in Hcol as [j Hj]. rewrite (Hcnt j col Hj). by eexists.
Qed.

End AfterConstruction2.
(** ** Projection in general *)

Lemma mapM_get_loc_present (cols idx : list string) :
  NoDup cols →
  (∀ c, c ∈ idx → c ∈ cols) →
  ∃ cidx, mapM (get_loc cols) idx = inr cidx
          ∧ Forall2 (λ c i, cols !! i = Some c) idx cidx.
Proof.
  intros Hnd. induction idx as [|c idx IH]; intros Hin.
  - exists []. by split.
  - destruct IH as (cidx & Hrun & Hall); [intros c' Hc'; apply Hin; by right|].
    destruct (list_elem_of_lookup_1 cols c) as [i Hi]; [apply Hin; by left|].
    exists (i :: cidx). simpl. rewrite (get_loc_NoDup _ _ i), Hrun by done.
    split; [done|]. by constructor.
Qed.

Section CopyEntries.

Variable o : EDAFrame.
Variable src : gmap (string * bool) (Series string).

Lemma copy_key_lookup (x : string) (val : bool)
    (C1 : gmap (string * bool) (Series string)) (k : string * bool) :
  (match src !! (x, val) with
   | Some s => <[(x, val) := s]> C1
   | None => C1
   end) !! k
  = if decide (k = (x, val))
    then match src !! k with Some s => Some s | None => C1 !! k end
    else C1 !! k.
Proof.
  destruct (decide (k = (x, val))) as [->|Hne].
  - destruct (src !! (x, val)); [by rewrite lookup_insert_eq|done].
  - destruct (src !! (x, val)); [by rewrite lookup_insert_ne|done].
Qed.

Lemma copy_entries_loop (idx : list string)
    (E0 : gmap string DType) (C0 : gmap (string * bool) (Series string))
    (N0 : gmap string nat) :
  (∀ c, c ∈ idx → is_Some (_eda_dtypes o !! c) ∧ is_Some (_nulls_cnt o !! c)) →
  ∃ E C N,
    for_each (Wrapper.copy_entries o src) idx (E0, C0, N0) = inr (E, C, N)
    ∧ (∀ c, E !! c = if decide (c ∈ idx) then _eda_dtypes o !! c else E0 !! c)
    ∧ (∀ c, N !! c = if decide (c ∈ idx) then _nulls_cnt o !! c else N0 !! c)
    ∧ (∀ c b, C !! (c, b)
              = if decide (c ∈ idx)
                then match src !! (c, b) with
                     | Some s => Some s
                     | None => C0 !! (c, b)
                     end
                else C0 !! (c, b)).
Proof.
  revert E0 C0 N0. induction idx as [|x idx IH]; intros E0 C0 N0 Hdom.
  - exists E0, C0, N0. split; [done|].
    split; [|split]; intros; rewrite decide_False; try done; apply not_elem_of_nil.
  - destruct (Hdom x) as [[dt Hdt] [cnt Hcnt]]; [by left|].
    cbn [for_each]. unfold Wrapper.copy_entries at 1. unfold dict_get.
    rewrite Hdt, Hcnt. cbv beta zeta.
    edestruct IH as (E & C & N & Hrun & HE & HN & HC);
      [intros c Hc; apply Hdom; by right|].
    exists E, C, N. split; [exact Hrun|].
    split; [|split].
    + intros c. rewrite HE.
      destruct (decide (c ∈ idx)) as [Hi|Hi].
      * rewrite decide_True; [done|by right].
      * destruct (decide (c = x)) as [->|Hne].
        -- rewrite decide_True by by left. by rewrite lookup_insert_eq.
        -- rewrite decide_False by (intros [?|?]%elem_of_cons; done).
           by rewrite lookup_insert_ne.
    + intros c. rewrite HN.
      destruct (decide (c ∈ idx)) as [Hi|Hi].
      * rewrite decide_True; [done|by right].
      * destruct (decide (c = x)) as [->|Hne].
        -- rewrite decide_True by by left. by rewrite lookup_insert_eq.
        -- rewrite decide_False by (intros [?|?]%elem_of_cons; done).
           by rewrite lookup_insert_ne.
    + intros c b. rewrite HC, !copy_key_lookup.
      destruct (decide (c = x)) as [->|Hne].
      * rewrite (decide_True (P := x ∈ x :: idx)) by by left.
        destruct b.
        -- rewrite (decide_False (P := (x, true) = (x, false))) by congruence.
           rewrite (decide_True (P := (x, true) = (x, true))) by done.
           destruct (decide (x ∈ idx)); repeat case_match; congruence.
        -- rewrite (decide_True (P := (x, false) = (x, false))) by done.
           destruct (decide (x ∈ idx)); repeat case_match; congruence.
      * rewrite (decide_False (P := (c, b) = (x, false))) by congruence.
        rewrite (decide_False (P := (c, b) = (x, true))) by congruence.
        destruct (decide (c ∈ idx)) as [Hi|Hi].
        -- by rewrite decide_True by by right.
        -- by rewrite decide_False by (intros [?|?]%elem_of_cons; done).
Qed.

End CopyEntries.

Lemma missing_labels_present (cols labels : list string) :
  (∀ c, c ∈ labels → c ∈ cols) → missing_labels cols labels = None.
Proof.
  intros Hin. unfold missing_labels.
  replace (filter (λ c, c ∉ cols) labels) with (@nil string); [done|].
  symmetry. induction labels as [|c labels IH]; [done|].
  rewrite filter_cons, decide_False.
  - apply IH. intros c' Hc'. apply Hin. by right.
  - intros Hc. apply Hc, Hin. by left.
Qed.
(** The projected table, array element type and head sample. *)
Lemma getitem_run (σ : store) (self : loc) (o : EDAFrame) (idx : list string) :
  instances σ !! self = Some o →
  well_formed σ o →
  (∀ c, c ∈ idx → c ∈ _columns o) →
  ∃ df σ' o' v0 v' cidx cache C,
    Wrapper.__getitem__ self (IndexList idx) σ = (inr df, σ')
    ∧ df = length (instances σ)
    ∧ Forall2 (λ c i, _columns o !! i = Some c) idx cidx
    ∧ arrays σ !! _values o = Some v0
    ∧ str_caches σ !! _str_col_cache o = Some cache
    ∧ instances σ' !! df = Some o'
    ∧ _columns o' = idx
    ∧ _ddf o' = {| columns := idx;
                   dtypes := map (λ i, default dt_object (dtypes (_ddf o) !! i)) cidx;
                   partitions := map (take_cols cidx) (partitions (_ddf o)) |}
    ∧ arrays σ' !! _values o' = Some v'
    ∧ blocks v'
      = match map (λ i, default dt_object (dtypes (_ddf o) !! i)) cidx with
        | [] => blocks (da_take_cols v0 cidx)
        | d :: ds =>
          blocks (minimal_type (da_take_cols v0 cidx) (foldl promote_types d ds))
        end
    ∧ chunks v' = chunks (da_take_cols v0 cidx)
    ∧ da_dtype v'
      = match map (λ i, default dt_object (dtypes (_ddf o) !! i)) cidx with
        | [] => da_dtype v0
        | d :: ds => foldl promote_types d ds
        end
    ∧ (∀ c, _eda_dtypes o' !! c
            = if decide (c ∈ idx) then _eda_dtypes o !! c else None)
    ∧ (∀ c, _nulls_cnt o' !! c
            = if decide (c ∈ idx) then _nulls_cnt o !! c else None)
    ∧ _str_col_cache o' = length (str_caches σ)
    ∧ str_caches σ' !! _str_col_cache o' = Some C
    ∧ (∀ c b, C !! (c, b) = if decide (c ∈ idx) then cache !! (c, b) else None)
    ∧ match _nulls o with
      | NullsLazy l =>
        ∃ l' n0, _nulls o' = NullsLazy l'
                 ∧ arrays σ !! l = Some n0
                 ∧ arrays σ' !! l' = Some (da_take_cols n0 cidx)
      | NullsArray a => _nulls o' = NullsArray (nd_take_cols a cidx)
      end
    ∧ _head o'
      = match _head o with
        | Some h =>
          Some {| pd_columns := idx;
                  pd_dtypes := map (λ i, default dt_object (pd_dtypes h !! i)) cidx;
                  pd_rows := take_cols cidx (pd_rows h) |}
        | None => None
        end
    ∧ _shape o' = Some (sum_chunks (chunks v0).1, length idx)
    ∧ engine_log σ' = engine_log σ
    ∧ (∀ l x, instances σ !! l = Some x → instances σ' !! l = Some x)
    ∧ (∀ l a, arrays σ !! l = Some a → arrays σ' !! l = Some a)
    ∧ (∀ l c, str_caches σ !! l = Some c → str_caches σ' !! l = Some c).
Proof.
  intros Ho (Hcols & Hnd & [v0 Hv] & Hnulls & Hhead & [cache Hcache] & Hdom) Hidx.
  destruct (mapM_get_loc_present (_columns o) idx Hnd Hidx) as (cidx & Hmap & Hall).
  assert (Hlen : length cidx = length idx) by (symmetry; by eapply Forall2_length).
  destruct (copy_entries_loop o cache idx ∅ ∅ ∅) as (E & C & N & Hloop & HE & HN & HC).
  { intros c Hc. apply Hdom. by apply Hidx. }
  assert (Hsub : ddf_getitem (_ddf o) idx
                 = inr {| columns := idx;
                          dtypes := map (λ i, default dt_object (dtypes (_ddf o) !! i)) cidx;
                          partitions := map (take_cols cidx) (partitions (_ddf o)) |}).
  { unfold ddf_getitem. rewrite <- Hcols, Hmap.
    by rewrite missing_labels_present. }
  exists (length (instances σ)).
  unfold Wrapper.__getitem__.
  step_by ltac:(by apply run_get_inst).
  step_by ltac:(by apply run_lift).
  cbn [columns].
  step_by ltac:(by apply run_lift).
  unfold Wrapper.values at 1.
  erewrite run_bind.
  2:{ step_by ltac:(by apply run_get_inst). reflexivity. }
  cbv beta.
  step_by ltac:(by apply run_get_array).
  step_refl.
  unfold Wrapper.nulls.
  erewrite run_bind.
  2:{ step_by ltac:(apply run_get_inst; exact Ho). reflexivity. }
  cbv beta.
  set (x := da_take_cols v0 cidx).
  assert (Hn : ∃ nulls' extra,
    (match _nulls o with
     | NullsLazy l =>
       do n0 <- get_array l;
       do ln <- alloc_array (da_take_cols n0 cidx);
       ret (NullsLazy ln)
     | NullsArray a => ret (NullsArray (nd_take_cols a cidx))
     end) (mk_store (instances σ) (arrays σ ++ [x]) (str_caches σ) (engine_log σ))
    = (inr nulls',
       mk_store (instances σ) ((arrays σ ++ [x]) ++ extra) (str_caches σ)
         (engine_log σ))
    ∧ match _nulls o with
      | NullsLazy l =>
        ∃ n0, nulls' = NullsLazy (S (length (arrays σ)))
              ∧ arrays σ !! l = Some n0 ∧ extra = [da_take_cols n0 cidx]
      | NullsArray a => nulls' = NullsArray (nd_take_cols a cidx)
      end).
  { destruct (_nulls o) as [l|a] eqn:Hno.
    - destruct (Hnulls l eq_refl) as [n0 Hn0].
      exists (NullsLazy (S (length (arrays σ)))), [da_take_cols n0 cidx].
      split; [|by exists n0].
      step_by ltac:(apply run_get_array; cbn [arrays]; by apply lookup_snoc_old).
      step_refl. rewrite length_app. cbn [length]. by rewrite Nat.add_1_r.
    - exists (NullsArray (nd_take_cols a cidx)), []. split; [|done].
      by rewrite app_nil_r. }
  destruct Hn as (nulls' & extra & Hnrun & Hnprop).
  step_by ltac:(exact Hnrun).
  set (head' := match _head o with
                | Some h =>
                  Some {| pd_columns := idx;
                          pd_dtypes := map (λ i, default dt_object (pd_dtypes h !! i)) cidx;
                          pd_rows := take_cols cidx (pd_rows h) |}
                | None => None
                end).
  assert (Hhrun :
    (match _head o with
     | Some h => do h' <- lift (pd_getitem h idx); ret (Some h')
     | None => ret None
     end) (mk_store (instances σ) ((arrays σ ++ [x]) ++ extra) (str_caches σ)
             (engine_log σ))
    = (inr head',
       mk_store (instances σ) ((arrays σ ++ [x]) ++ extra) (str_caches σ)
         (engine_log σ))).
  { subst head'. destruct (_head o) as [h|] eqn:Hho; [|done].
    step_by ltac:(apply run_lift; unfold pd_getitem;
                  rewrite (Hhead h eq_refl), Hmap, missing_labels_present by done;
                  reflexivity).
    reflexivity. }
  step_by ltac:(exact Hhrun).
  step_by ltac:(by apply run_get_cache).
  step_by ltac:(apply run_lift; exact Hloop).
  step_refl. step_refl.
  set (new := mk_EDAFrame _ _ _ _ _ _ _ _ _).
  assert (Hx : ((arrays σ ++ [x]) ++ extra) !! length (arrays σ) = Some x).
  { rewrite <- app_assoc. by apply list_lookup_middle. }
  step_by ltac:(apply (run_shape _ _ new x);
                [cbn [instances]; apply lookup_snoc|exact Hx]).
  cbn [_shape new default].
  assert (Hsh : (da_shape x).2 = length cidx) by (simpl; lia).
  assert (Hlk : ∀ y, <[length (instances σ) := y]> (instances σ ++ [new])
                     !! length (instances σ) = Some y).
  { intros y. apply list_lookup_insert_eq. rewrite length_app. simpl. lia. }
  assert (Hinst : ∀ y l z, instances σ !! l = Some z →
                           <[length (instances σ) := y]> (instances σ ++ [new]) !! l
                           = Some z).
  { intros y l z Hl. apply lookup_lt_Some in Hl as Hlt.
    rewrite list_lookup_insert_ne by lia. by apply lookup_snoc_old. }
  assert (Hold : ∀ l a tail, arrays σ !! l = Some a →
                             (((arrays σ ++ [x]) ++ extra) ++ tail) !! l = Some a).
  { intros l a tail Hl. apply lookup_lt_Some in Hl as Hlt.
    rewrite <- !app_assoc. by rewrite lookup_app_l. }
  assert (Hnull : ∀ tail,
    match _nulls o with
    | NullsLazy l =>
      ∃ l' n0, nulls' = NullsLazy l'
               ∧ arrays σ !! l = Some n0
               ∧ (((arrays σ ++ [x]) ++ extra) ++ tail) !! l'
                 = Some (da_take_cols n0 cidx)
    | NullsArray a => nulls' = NullsArray (nd_take_cols a cidx)
    end).
  { intros tail. destruct (_nulls o) as [l|a]; [|done].
    destruct Hnprop as (n0 & -> & Hn0 & ->).
    exists (S (length (arrays σ))), n0. split; [done|]. split; [done|].
    rewrite <- !app_assoc. rewrite lookup_app_r by lia.
    replace (S (length (arrays σ)) - length (arrays σ)) with 1 by lia. done. }
  assert (HE' : ∀ c, E !! c = if decide (c ∈ idx) then _eda_dtypes o !! c else None).
  { intros c. rewrite HE. by rewrite lookup_empty. }
  assert (HN' : ∀ c, N !! c = if decide (c ∈ idx) then _nulls_cnt o !! c else None).
  { intros c. rewrite HN. by rewrite lookup_empty. }
  assert (HC' : ∀ c b, C !! (c, b) = if decide (c ∈ idx) then cache !! (c, b) else None).
  { intros c b. rewrite HC, lookup_empty. by destruct (decide _), (cache !! (c, b)). }
  assert (Hshape : Some (da_shape x) = Some (sum_chunks (chunks v0).1, length idx)).
  { unfold da_shape, x. simpl. rewrite Hlen. do 2 f_equal. lia. }
  rewrite Hsh.
  destruct cidx as [|i cidx'] eqn:Hcidx.
  - rewrite decide_False by (simpl; lia).
    eexists _, _, v0, _, [], cache, C. split; [reflexivity|].
    split; [done|]. split; [done|]. split; [done|]. split; [done|].
    cbn [instances arrays str_caches engine_log].
    split; [apply Hlk|].
    cbn [_columns _ddf _values _nulls _eda_dtypes _nulls_cnt _str_col_cache
         _head _shape with_values with_shape new columns].
    split; [done|]. split; [done|].
    split; [exact Hx|].
    split; [done|]. split; [done|]. split; [done|].
    split; [done|]. split; [done|]. split; [done|].
    split; [apply lookup_snoc|]. split; [done|].
    split; [specialize (Hnull []); by rewrite app_nil_r in Hnull|].
    split; [done|]. split; [done|]. split; [done|].
    split; [intros l z Hl; by apply Hinst|].
    split; [intros l a Hl; specialize (Hold l a [] Hl); by rewrite app_nil_r in Hold|].
    intros l c Hl. by apply lookup_snoc_old.
  - rewrite decide_True by (simpl; lia).
    unfold Wrapper.dtypes_, Wrapper.values.
    rewrite ?bind_assoc.
    step_by ltac:(apply run_get_inst; cbn [instances]; apply Hlk).
    rewrite ?bind_assoc.
    step_refl. rewrite ?bind_assoc.
    cbn [_ddf _values with_shape new dtypes map].
    step_by ltac:(by apply run_lift).
    rewrite ?bind_assoc.
    step_by ltac:(apply run_get_inst; cbn [instances]; apply Hlk).
    rewrite ?bind_assoc.
    step_refl. rewrite ?bind_assoc.
    step_by ltac:(apply run_get_array; exact Hx).
    cbn [_ddf _values with_shape new dtypes foldl].
    match goal with
    | |- context [decide (da_dtype x ≠ ?d)] =>
      destruct (decide (da_dtype x ≠ d)) as [Hne|Heq]
    end.
    + rewrite ?bind_assoc. step_refl. rewrite ?bind_assoc.
      step_by ltac:(apply run_upd_inst; cbn [instances]; apply Hlk).
      rewrite list_insert_insert_eq.
      eexists _, _, v0, _, (i :: cidx'), cache, C. split; [reflexivity|].
      split; [done|]. split; [done|]. split; [done|]. split; [done|].
      cbn [instances arrays str_caches engine_log].
      split; [apply Hlk|].
      cbn [_columns _ddf _values _nulls _eda_dtypes _nulls_cnt _str_col_cache
           _head _shape with_values with_shape new columns].
      split; [done|]. split; [done|].
      split; [apply lookup_snoc|].
      split; [by cbn [map]; unfold minimal_type; rewrite decide_True|].
      split; [done|]. split; [done|].
      split; [done|]. split; [done|]. split; [done|].
      split; [apply lookup_snoc|]. split; [done|].
      split; [apply Hnull|].
      split; [done|]. split; [done|]. split; [done|].
      split; [intros l z Hl; by apply Hinst|].
      split; [intros l a Hl; by apply Hold|].
      intros l c Hl. by apply lookup_snoc_old.
    + apply dec_stable in Heq.
      eexists _, _, v0, _, (i :: cidx'), cache, C. split; [reflexivity|].
      split; [done|]. split; [done|]. split; [done|]. split; [done|].
      cbn [instances arrays str_caches engine_log].
      split; [apply Hlk|].
      cbn [_columns _ddf _values _nulls _eda_dtypes _nulls_cnt _str_col_cache
           _head _shape with_values with_shape new columns].
      split; [done|]. split; [done|].
      split; [exact Hx|].
      split.
      { cbn [map]. unfold minimal_type. rewrite decide_False; [done|].
        intros Hne. by apply Hne. }
      split; [done|]. split; [done|].
      split; [done|]. split; [done|]. split; [done|].
      split; [apply lookup_snoc|]. split; [done|].
      split; [specialize (Hnull []); by rewrite app_nil_r in Hnull|].
      split; [done|]. split; [done|]. split; [done|].
      split; [intros l z Hl; by apply Hinst|].
      split; [intros l a Hl; specialize (Hold l a [] Hl); by rewrite app_nil_r in Hold|].
      intros l c Hl. by apply lookup_snoc_old.
Qed.
Lemma getitem_well_formed (σ : store) (self : loc) (o : EDAFrame) (idx : list string) :
  instances σ !! self = Some o →
  well_formed σ o →
  (∀ c, c ∈ idx → c ∈ _columns o) →
  NoDup idx →
  ∃ df σ' o',
    Wrapper.__getitem__ self (IndexList idx) σ = (inr df, σ')
    ∧ instances σ' !! df = Some o'
    ∧ _columns o' = idx
    ∧ well_formed σ' o'
    ∧ engine_log σ' = engine_log σ.
Proof.
  intros Ho Hwf Hidx Hnd.
  destruct (getitem_run σ self o idx Ho Hwf Hidx)
    as (df & σ' & o' & v0 & v' & cidx & cache & C & Hrun & _ & Hall & Hv0 & Hcache
        & Ho' & Hc & Hddf & Hv' & Hb & Hch & Hdt & HE & HN & Hl & HC & HCk & Hn
        & Hh & Hs & Hlog & _).
  exists df, σ', o'. split; [done|]. split; [done|]. split; [done|]. split; [|done].
  destruct Hwf as (_ & _ & _ & _ & _ & _ & Hdom).
  unfold well_formed. rewrite Hc, Hddf. cbn [columns].
  split; [done|]. split; [done|]. split; [by eexists|].
  split.
  { intros l Hnl. destruct (_nulls o) as [l0|a].
    - destruct Hn as (l' & n0 & Hl' & _ & Hn0). rewrite Hl' in Hnl.
      injection Hnl as <-. by eexists.
    - by rewrite Hn in Hnl. }
  split.
  { intros h Hho. rewrite Hh in Hho. destruct (_head o); [|done].
    by injection Hho as <-. }
  split; [by eexists|].
  intros c Hcin. rewrite HE, HN, !decide_True by done.
  apply Hdom. by apply Hidx.
Qed.

(** The labels at the positions that satisfy a test form a sublist of the
    labels. *)
Lemma omap_filter_seq_snoc {A} (P : nat → Prop) `{!∀ i, Decision (P i)} (l : list A) (x : A) :
  omap (λ i, (l ++ [x]) !! i) (filter P (seq 0 (length (l ++ [x]))))
  = omap (λ i, l !! i) (filter P (seq 0 (length l)))
    ++ (if decide (P (length l)) then [x] else []).
Proof.
  rewrite length_app. cbn [length]. rewrite seq_app, filter_app, omap_app.
  f_equal.
  - apply list_omap_ext. apply Forall2_same_length_lookup_2; [done|].
    intros i a b Ha Hb. assert (a = b) as <- by congruence.
    apply list_elem_of_lookup_2, list_elem_of_filter in Ha as [_ Ha].
    apply elem_of_seq in Ha. by rewrite lookup_app_l by lia.
  - cbn [seq]. rewrite filter_cons, filter_nil. simpl.
    destruct (decide (P (length l))); [|done].
    simpl. by rewrite list_lookup_middle.
Qed.

Lemma omap_filter_seq_sublist {A} (P : nat → Prop) `{!∀ i, Decision (P i)} (l : list A) :
  omap (λ i, l !! i) (filter P (seq 0 (length l))) `sublist_of` l.
Proof.
  induction l as [|x l IH] using rev_ind; [done|].
  rewrite omap_filter_seq_snoc. apply sublist_app; [done|].
  destruct (decide _); [done|]. apply sublist_nil_l.
Qed.

Lemma elem_of_omap_filter_seq {A} (P : nat → Prop) `{!∀ i, Decision (P i)} (l : list A) (c : A) :
  c ∈ omap (λ i, l !! i) (filter P (seq 0 (length l)))
  ↔ ∃ i, l !! i = Some c ∧ P i.
Proof.
  rewrite list_elem_of_omap. split.
  - intros (i & Hi & Hc). apply list_elem_of_filter in Hi as [HP _]. by exists i.
  - intros (i & Hc & HP). exists i. split; [|done].
    apply list_elem_of_filter. split; [done|].
    apply elem_of_seq. apply lookup_lt_Some in Hc. lia.
Qed.

Lemma bind_ret_r {A} (m : M A) (σ : store) : (do x <- m; ret x) σ = m σ.
Proof. unfold bind. by destruct (m σ) as [[e|a] σ']. Qed.
Section Projection.

Variables (σ : store) (self : loc) (o : EDAFrame) (idx : list string).
Hypothesis Ho : instances σ !! self = Some o.
Hypothesis Hwf : well_formed σ o.
Hypothesis Hidx : ∀ c, c ∈ idx → c ∈ _columns o.

(** X6: projecting a well-formed instance on any list of its labels (in any
    order) succeeds without any engine request; the array view of the
    result is the source's array view sliced at the positions of the labels
    and then recast, block by block, to the promoted native type of the
    retained columns unless the slice has that type (booleans kept beside
    integers become 0 and 1); its nullity view is the same slice of the
    source's, its table is the narrowed table, and every object that was in
    the store (instances, arrays, dictionaries) is left as it was. *)
Theorem projection_slices_at_label_positions :
  ∃ df σ' o' v0 v' cidx,
    Wrapper.__getitem__ self (IndexList idx) σ = (inr df, σ')
    ∧ Forall2 (λ c i, _columns o !! i = Some c) idx cidx
    ∧ arrays σ !! _values o = Some v0
    ∧ instances σ' !! df = Some o'
    ∧ _columns o' = idx
    ∧ partitions (_ddf o') = map (take_cols cidx) (partitions (_ddf o))
    ∧ arrays σ' !! _values o' = Some v'
    ∧ blocks v'
      = match map (λ i, default dt_object (dtypes (_ddf o) !! i)) cidx with
        | [] => map (λ b, nd_take_cols b cidx) (blocks v0)
        | d :: ds =>
          blocks (minimal_type (da_take_cols v0 cidx) (foldl promote_types d ds))
        end
    ∧ chunks v' = ((chunks v0).1, [length idx])
    ∧ da_dtype v'
      = match map (λ i, default dt_object (dtypes (_ddf o) !! i)) cidx with
        | [] => da_dtype v0
        | d :: ds => foldl promote_types d ds
        end
    ∧ match _nulls o with
      | NullsLazy l =>
        ∃ l' n0, _nulls o' = NullsLazy l'
                 ∧ arrays σ !! l = Some n0
                 ∧ arrays σ' !! l' = Some (da_take_cols n0 cidx)
      | NullsArray a => _nulls o' = NullsArray (nd_take_cols a cidx)
      end
    ∧ engine_log σ' = engine_log σ
    ∧ (∀ l x, instances σ !! l = Some x → instances σ' !! l = Some x)
    ∧ (∀ l a, arrays σ !! l = Some a → arrays σ' !! l = Some a)
    ∧ (∀ l c, str_caches σ !! l = Some c → str_caches σ' !! l = Some c).
Proof.
  destruct (getitem_run σ self o idx Ho Hwf Hidx)
    as (df & σ' & o' & v0 & v' & cidx & cache & C & Hrun & _ & Hall & Hv0 & _
        & Ho' & Hc & Hddf & Hv' & Hb & Hch & Hdt & _ & _ & _ & _ & _ & Hn & _ & _
        & Hlog & Hi & Ha & Hs).
  exists df, σ', o', v0, v', cidx.
  assert (Hlen : length cidx = length idx) by (symmetry; by eapply Forall2_length).
  split; [done|]. split; [done|]. split; [done|]. split; [done|]. split; [done|].
  split; [by rewrite Hddf|]. split; [done|]. split; [done|].
  split; [by rewrite Hch; unfold da_take_cols; cbn [chunks]; rewrite Hlen|].
  done.
Qed.

(** X7: the projection carries the source's entries for the retained labels
    and nothing else: its semantic types and missing counts answer as the
    source does for a retained label and raise [KeyError] for any other, and
    its string-coercion dictionary is a new dictionary holding exactly the
    source's cached columns of the retained labels. *)
Theorem projection_copies_entries_of_retained_labels :
  ∃ df σ' o' cache C,
    Wrapper.__getitem__ self (IndexList idx) σ = (inr df, σ')
    ∧ instances σ' !! df = Some o'
    ∧ str_caches σ !! _str_col_cache o = Some cache
    ∧ _str_col_cache o' = length (str_caches σ)
    ∧ str_caches σ' !! _str_col_cache o' = Some C
    ∧ (∀ c b, C !! (c, b) = if decide (c ∈ idx) then cache !! (c, b) else None)
    ∧ (∀ c, c ∈ idx →
         (Wrapper.get_dtype df c σ').1 = (Wrapper.get_dtype self c σ).1
         ∧ (Wrapper.get_missing_cnt df c σ').1 = (Wrapper.get_missing_cnt self c σ).1)
    ∧ (∀ c, c ∉ idx →
         Wrapper.get_dtype df c σ' = (inl (KeyError c), σ')
         ∧ Wrapper.get_missing_cnt df c σ' = (inl (KeyError c), σ')).
Proof.
  destruct (getitem_run σ self o idx Ho Hwf Hidx)
    as (df & σ' & o' & v0 & v' & cidx & cache & C & Hrun & _ & Hall & Hv0 & Hcache
        & Ho' & Hc & Hddf & Hv' & Hb & Hch & Hdt & HE & HN & Hl & HC & HCk & _).
  exists df, σ', o', cache, C.
  split; [done|]. split; [done|]. split; [done|]. split; [done|].
  split; [done|]. split; [done|].
  assert (Hgd : ∀ c, Wrapper.get_dtype df c σ' = (lift (dict_get (_eda_dtypes o') c)) σ').
  { intros c. unfold Wrapper.get_dtype. by step_by ltac:(by apply run_get_inst). }
  assert (Hgm : ∀ c, Wrapper.get_missing_cnt df c σ'
                     = (lift (dict_get (_nulls_cnt o') c)) σ').
  { intros c. unfold Wrapper.get_missing_cnt. by step_by ltac:(by apply run_get_inst). }
  assert (Hsd : ∀ c, Wrapper.get_dtype self c σ = (lift (dict_get (_eda_dtypes o) c)) σ).
  { intros c. unfold Wrapper.get_dtype. by step_by ltac:(by apply run_get_inst). }
  assert (Hsm : ∀ c, Wrapper.get_missing_cnt self c σ
                     = (lift (dict_get (_nulls_cnt o) c)) σ).
  { intros c. unfold Wrapper.get_missing_cnt. by step_by ltac:(by apply run_get_inst). }
  split.
  - intros c Hcin. rewrite Hgd, Hgm, Hsd, Hsm. unfold dict_get.
    rewrite HE, HN, !decide_True by done.
    split; [by destruct (_eda_dtypes o !! c)|by destruct (_nulls_cnt o !! c)].
  - intros c Hcout. rewrite Hgd, Hgm. unfold dict_get.
    rewrite HE, HN, !decide_False by done. done.
Qed.

(** X8: the projection takes over the head sample and the shape without
    reading data: its head sample is the source's sample narrowed to the
    retained labels when the source has one and is absent otherwise, and
    its shape is already cached as the row count of the source's array view
    (unresolved if that is) and the number of retained labels, so [shape]
    answers from the cache. *)
Theorem projection_head_and_shape :
  ∃ df σ' o' v0 cidx,
    Wrapper.__getitem__ self (IndexList idx) σ = (inr df, σ')
    ∧ instances σ' !! df = Some o'
    ∧ arrays σ !! _values o = Some v0
    ∧ Forall2 (λ c i, _columns o !! i = Some c) idx cidx
    ∧ _head o'
      = match _head o with
        | Some h =>
          Some {| pd_columns := idx;
                  pd_dtypes := map (λ i, default dt_object (pd_dtypes h !! i)) cidx;
                  pd_rows := take_cols cidx (pd_rows h) |}
        | None => None
        end
    ∧ Wrapper.shape df σ' = (inr (sum_chunks (chunks v0).1, length idx), σ')
    ∧ (∀ h n, _head o = Some h →
         ∃ h', Wrapper.head df n σ' = (inr h', σ') ∧ length (pd_rows h') = length (pd_rows h)).
Proof.
  destruct (getitem_run σ self o idx Ho Hwf Hidx)
    as (df & σ' & o' & v0 & v' & cidx & cache & C & Hrun & _ & Hall & Hv0 & Hcache
        & Ho' & Hc & Hddf & Hv' & Hb & Hch & Hdt & HE & HN & Hl & HC & HCk & Hn
        & Hh & Hs & _).
  exists df, σ', o', v0, cidx.
  split; [done|]. split; [done|]. split; [done|]. split; [done|]. split; [done|].
  split.
  - unfold Wrapper.shape. step_by ltac:(by apply run_get_inst). by rewrite Hs.
  - intros h n Hho. rewrite Hho in Hh. eexists. split.
    + unfold Wrapper.head. step_by ltac:(by apply run_get_inst). by rewrite Hh.
    + cbn [pd_rows]. unfold take_cols. by rewrite length_map.
Qed.

(** X9: when the labels asked are distinct, the projection is again
    well-formed, so it can itself be projected. *)
Theorem projection_is_well_formed :
  NoDup idx →
  ∃ df σ' o',
    Wrapper.__getitem__ self (IndexList idx) σ = (inr df, σ')
    ∧ instances σ' !! df = Some o'
    ∧ well_formed σ' o'.
Proof.
  intros Hnd.
  destruct (getitem_well_formed σ self o idx Ho Hwf Hidx Hnd)
    as (df & σ' & o' & Hrun & Ho' & _ & Hwf' & _).
  by exists df, σ', o'.
Qed.

(** X10: a column cached as text in the source before the projection is
    served by the projection from its own dictionary: the request returns
    that same column and asks nothing of the engine. *)
Theorem projection_serves_cached_columns (cache : gmap (string * bool) (Series string))
    (col : string) (na_as_str : bool) (s : Series string) :
  str_caches σ !! _str_col_cache o = Some cache →
  cache !! (col, na_as_str) = Some s →
  col ∈ idx →
  ∃ df σ',
    Wrapper.__getitem__ self (IndexList idx) σ = (inr df, σ')
    ∧ Wrapper.get_col_as_str df col na_as_str σ' = (inr s, σ')
    ∧ engine_log σ' = engine_log σ.
Proof.
  intros Hcache Hs Hcol.
  destruct (getitem_run σ self o idx Ho Hwf Hidx)
    as (df & σ' & o' & v0 & v' & cidx & cache' & C & Hrun & _ & Hall & Hv0 & Hcache'
        & Ho' & Hc & Hddf & Hv' & Hb & Hch & Hdt & HE & HN & Hl & HC & HCk & Hn
        & Hh & Hsh & Hlog & _).
  assert (cache' = cache) as -> by congruence.
  exists df, σ'. split; [done|]. split; [|done].
  eapply run_get_col_as_str_cached; [exact Ho'|by rewrite Hc|exact HC|].
  by rewrite HCk, decide_True.
Qed.

End Projection.

Lemma shape_after_construction_witness :
  Wrapper.as_dask (DaskTable Examples.lazy_table) true
  = inr (false, Examples.lazy_table)
  ∧ NoDup (_process_column_name (columns Examples.lazy_table))
  ∧ ∃ self σ1 σ2,
      Wrapper.__init__ Examples.by_storage (FromTable (DaskTable Examples.lazy_table))
        false true None initial_store = (inr self, σ1)
      ∧ Wrapper.shape self σ1 = (inr (None, 3), σ2).
Proof.
  assert (H1 : Wrapper.as_dask (DaskTable Examples.lazy_table) true
               = inr (false, Examples.lazy_table)) by reflexivity.
  assert (H2 : NoDup (_process_column_name (columns Examples.lazy_table))).
  { apply (bool_decide_unpack _). vm_compute. exact I. }
  split; [exact H1|]. split; [exact H2|].
  destruct (shape_after_construction Examples.by_storage
              (DaskTable Examples.lazy_table) false true None initial_store
              false Examples.lazy_table H1 H2)
    as (self & σ1 & [r c] & σ2 & Hrun & Hsh & Hc & _ & Hr & _).
  exists self, σ1, σ2. split; [exact Hrun|].
  cbn [fst snd] in Hc, Hr. rewrite Hsh, Hc, Hr; [reflexivity|reflexivity|discriminate].
Defined.

Lemma compute_nulls_after_construction_witness :
  Wrapper.as_dask (DaskTable Examples.lazy_table) true
  = inr (false, Examples.lazy_table)
  ∧ NoDup (_process_column_name (columns Examples.lazy_table))
  ∧ partitions Examples.lazy_table ≠ []
  ∧ ∃ self σ1 σ2 o2 a,
      Wrapper.__init__ Examples.by_storage (FromTable (DaskTable Examples.lazy_table))
        false true None initial_store = (inr self, σ1)
      ∧ Wrapper.compute self "nulls" σ1 = (inr tt, σ2)
      ∧ instances σ2 !! self = Some o2
      ∧ _nulls o2 = NullsArray a
      ∧ nd_rows a = [[PyBool false; PyBool false; PyBool false];
                     [PyBool true; PyBool false; PyBool false];
                     [PyBool false; PyBool false; PyBool false]].
Proof.
  assert (H1 : Wrapper.as_dask (DaskTable Examples.lazy_table) true
               = inr (false, Examples.lazy_table)) by reflexivity.
  assert (H2 : NoDup (_process_column_name (columns Examples.lazy_table))).
  { apply (bool_decide_unpack _). vm_compute. exact I. }
  assert (H3 : partitions Examples.lazy_table ≠ []) by discriminate.
  split; [exact H1|]. split; [exact H2|]. split; [exact H3|].
  destruct (compute_nulls_after_construction Examples.by_storage
              (DaskTable Examples.lazy_table) false true None initial_store
              false Examples.lazy_table H1 H2 H3)
    as (self & σ1 & σ2 & o2 & a & v & Hrun & Hcomp & Ho2 & Hn & Hrows & _).
  exists self, σ1, σ2, o2, a.
  repeat (split; [assumption|]). exact Hrows.
Defined.

Lemma construction_is_well_formed_witness :
  Wrapper.as_dask (DaskTable Examples.lazy_table) true
  = inr (false, Examples.lazy_table)
  ∧ NoDup (_process_column_name (columns Examples.lazy_table))
  ∧ is_Some (str_caches initial_store !! cls_str_col_cache)
  ∧ ∃ self σ1 o,
      Wrapper.__init__ Examples.by_storage (FromTable (DaskTable Examples.lazy_table))
        false true None initial_store = (inr self, σ1)
      ∧ instances σ1 !! self = Some o
      ∧ well_formed σ1 o.
Proof.
  assert (H1 : Wrapper.as_dask (DaskTable Examples.lazy_table) true
               = inr (false, Examples.lazy_table)) by reflexivity.
  assert (H2 : NoDup (_process_column_name (columns Examples.lazy_table))).
  { apply (bool_decide_unpack _). vm_compute. exact I. }
  assert (H3 : is_Some (str_caches initial_store !! cls_str_col_cache)).
  { exists ∅. reflexivity. }
  split; [exact H1|]. split; [exact H2|]. split; [exact H3|].
  destruct (construction_is_well_formed Examples.by_storage
              (DaskTable Examples.lazy_table) false true None initial_store
              false Examples.lazy_table H1 H2 H3)
    as (self & σ1 & o & Hrun & Ho & Hwf & _).
  exists self, σ1, o. repeat (split; [assumption|]). exact Hwf.
Defined.

(** The example instance is well-formed, and its labels are a, b and c. *)
Lemma example_built_instance :
  instances Examples.built !! 0 = Some (Examples.instance_at Examples.built 0).
Proof. vm_compute. reflexivity. Defined.

Lemma example_built_well_formed :
  well_formed Examples.built (Examples.instance_at Examples.built 0).
Proof.
  unfold well_formed.
  split; [vm_compute; reflexivity|].
  split; [apply (bool_decide_unpack _); vm_compute; exact I|].
  split; [vm_compute; eexists; reflexivity|].
  split.
  { intros l H. vm_compute in H. injection H as <-. vm_compute. eexists. reflexivity. }
  split.
  { intros h H. vm_compute in H. discriminate H. }
  split; [vm_compute; eexists; reflexivity|].
  apply (proj1 (Forall_forall _ _)).
  apply (bool_decide_unpack _). vm_compute. exact I.
Defined.

Lemma example_labels_present (idx : list string) :
  bool_decide (Forall (λ c, c ∈ _columns (Examples.instance_at Examples.built 0)) idx) = true →
  ∀ c, c ∈ idx → c ∈ _columns (Examples.instance_at Examples.built 0).
Proof.
  intros H. apply (proj1 (Forall_forall _ _)).
  apply (bool_decide_unpack _). by rewrite H.
Defined.

Lemma projection_slices_at_label_positions_witness :
  let σ := Examples.built in
  let o := Examples.instance_at σ 0 in
  instances σ !! 0 = Some o
  ∧ well_formed σ o
  ∧ (∀ c, c ∈ ["b"; "c"] → c ∈ _columns o)
  ∧ ∃ df σ' o' v',
      Wrapper.__getitem__ 0 (IndexList ["b"; "c"]) σ = (inr df, σ')
      ∧ instances σ' !! df = Some o'
      ∧ arrays σ' !! _values o' = Some v'
      ∧ chunks v' = ((chunks (Examples.array_at σ 0)).1, [2])
      ∧ da_dtype (Examples.array_at σ 0) = dt_object
      ∧ da_dtype v' = dt_int64
      ∧ map nd_dtype (blocks v') = [dt_int64; dt_int64]
      ∧ map nd_rows (blocks v')
        = [[[PyInt 1; PyInt 1]; [PyInt 2; PyInt 0]]; [[PyInt 3; PyInt 1]]]
      ∧ engine_log σ' = engine_log σ.
Proof.
  intros σ o.
  pose proof example_built_instance as H1.
  pose proof example_built_well_formed as H2.
  pose proof (example_labels_present ["b"; "c"] eq_refl) as H3.
  split; [exact H1|]. split; [exact H2|]. split; [exact H3|].
  destruct (projection_slices_at_label_positions σ 0 o ["b"; "c"] H1 H2 H3)
    as (df & σ' & o' & v0 & v' & cidx & Hrun & Hall & Hv0 & Ho' & _ & _ & Hv' & Hb & Hch
        & Hdt & _ & Hlog & _).
  exists df, σ', o', v'.
  assert (Hv : v0 = Examples.array_at σ 0).
  { vm_compute in Hv0. injection Hv0 as <-. vm_compute. reflexivity. }
  assert (Hc : cidx = [1; 2]).
  { apply Forall2_cons_inv_l in Hall as (i & cidx1 & Hi & Hall & ->).
    apply Forall2_cons_inv_l in Hall as (j & cidx2 & Hj & Hall & ->).
    apply Forall2_nil_inv_l in Hall as ->.
    assert (Hnd : NoDup (_columns o)) by apply H2.
    f_equal; [|f_equal].
    - apply (NoDup_lookup _ _ _ _ Hnd Hi). vm_compute. reflexivity.
    - apply (NoDup_lookup _ _ _ _ Hnd Hj). vm_compute. reflexivity. }
  rewrite Hv, Hc in Hb, Hdt. rewrite Hv in Hch.
  split; [exact Hrun|]. split; [exact Ho'|]. split; [exact Hv'|]. split; [exact Hch|].
  split; [vm_compute; reflexivity|].
  split; [rewrite Hdt; vm_compute; reflexivity|].
  split; [rewrite Hb; vm_compute; reflexivity|].
  split; [rewrite Hb; vm_compute; reflexivity|].
  exact Hlog.
Defined.

Lemma projection_copies_entries_of_retained_labels_witness :
  let σ := Examples.built in
  let o := Examples.instance_at σ 0 in
  instances σ !! 0 = Some o
  ∧ well_formed σ o
  ∧ (∀ c, c ∈ ["c"; "a"] → c ∈ _columns o)
  ∧ ∃ df σ',
      Wrapper.__getitem__ 0 (IndexList ["c"; "a"]) σ = (inr df, σ')
      ∧ Wrapper.get_missing_cnt df "b" σ' = (inl (KeyError "b"), σ')
      ∧ (Wrapper.get_missing_cnt df "a" σ').1 = inr 1.
Proof.
  intros σ o.
  pose proof example_built_instance as H1.
  pose proof example_built_well_formed as H2.
  pose proof (example_labels_present ["c"; "a"] eq_refl) as H3.
  split; [exact H1|]. split; [exact H2|]. split; [exact H3|].
  destruct (projection_copies_entries_of_retained_labels σ 0 o ["c"; "a"] H1 H2 H3)
    as (df & σ' & o' & cache & C & Hrun & _ & _ & _ & _ & _ & Hin & Hout).
  exists df, σ'. split; [exact Hrun|]. split.
  - apply Hout. apply (bool_decide_unpack _). vm_compute. exact I.
  - etransitivity.
    + apply Hin. apply (bool_decide_unpack _). vm_compute. exact I.
    + vm_compute. reflexivity.
Defined.

Lemma projection_head_and_shape_witness :
  let σ := Examples.built in
  let o := Examples.instance_at σ 0 in
  instances σ !! 0 = Some o
  ∧ well_formed σ o
  ∧ (∀ c, c ∈ ["c"; "a"] → c ∈ _columns o)
  ∧ ∃ df σ' o',
      Wrapper.__getitem__ 0 (IndexList ["c"; "a"]) σ = (inr df, σ')
      ∧ instances σ' !! df = Some o'
      ∧ _head o' = None
      ∧ Wrapper.shape df σ' = (inr (None, 2), σ').
Proof.
  intros σ o.
  pose proof example_built_instance as H1.
  pose proof example_built_well_formed as H2.
  pose proof (example_labels_present ["c"; "a"] eq_refl) as H3.
  split; [exact H1|]. split; [exact H2|]. split; [exact H3|].
  destruct (projection_head_and_shape σ 0 o ["c"; "a"] H1 H2 H3)
    as (df & σ' & o' & v0 & cidx & Hrun & Ho' & Hv0 & _ & Hh & Hsh & _).
  exists df, σ', o'. split; [exact Hrun|]. split; [exact Ho'|]. split; [exact Hh|].
  rewrite Hsh. vm_compute in Hv0. injection Hv0 as <-. reflexivity.
Defined.

Lemma projection_is_well_formed_witness :
  let σ := Examples.built in
  let o := Examples.instance_at σ 0 in
  instances σ !! 0 = Some o
  ∧ well_formed σ o
  ∧ (∀ c, c ∈ ["c"; "a"] → c ∈ _columns o)
  ∧ NoDup ["c"; "a"]
  ∧ ∃ df σ' o',
      Wrapper.__getitem__ 0 (IndexList ["c"; "a"]) σ = (inr df, σ')
      ∧ instances σ' !! df = Some o'
      ∧ well_formed σ' o'.
Proof.
  intros σ o.
  pose proof example_built_instance as H1.
  pose proof example_built_well_formed as H2.
  pose proof (example_labels_present ["c"; "a"] eq_refl) as H3.
  assert (H4 : NoDup ["c"; "a"]) by (apply (bool_decide_unpack _); vm_compute; exact I).
  split; [exact H1|]. split; [exact H2|]. split; [exact H3|]. split; [exact H4|].
  exact (projection_is_well_formed σ 0 o ["c"; "a"] H1 H2 H3 H4).
Defined.
(** ** Selection by native type *)

(** X12: on a well-formed instance, [select_dtypes] is the projection on the
    labels whose native type the list selects: when pandas accepts the
    list, the call succeeds without any engine request, the labels of the
    result are those labels in the order of the table, and the result is
    well-formed; when pandas refuses the list, that error is raised and the
    store is unchanged.  [select_num_columns] is the same call for the
    numerical list. *)
Theorem select_dtypes_projects_on_selected_labels {Include : Type}
    (selects : Include → result (np_dtype → bool)) (σ : store) (self : loc)
    (o : EDAFrame) (include : Include) :
  instances σ !! self = Some o →
  well_formed σ o →
  Wrapper.select_num_columns selects include self σ
  = Wrapper.select_dtypes selects self include σ
  ∧ match selects include with
    | inl e => Wrapper.select_dtypes selects self include σ = (inl e, σ)
    | inr sel =>
      ∃ df σ' o',
        Wrapper.select_dtypes selects self include σ = (inr df, σ')
        ∧ instances σ' !! df = Some o'
        ∧ _columns o' `sublist_of` _columns o
        ∧ (∀ c, c ∈ _columns o'
                ↔ ∃ i, _columns o !! i = Some c
                       ∧ sel (default dt_object (dtypes (_ddf o) !! i)) = true)
        ∧ well_formed σ' o'
        ∧ engine_log σ' = engine_log σ
    end.
Proof.
  intros Ho Hwf. split.
  { unfold Wrapper.select_num_columns. apply bind_ret_r. }
  pose proof Hwf as (Hcols & Hnd & _).
  unfold Wrapper.select_dtypes.
  destruct (selects include) as [e|sel] eqn:Hsel.
  - step_by ltac:(by apply run_get_inst).
    erewrite run_bind_raise; [done|].
    apply run_lift_raise. unfold ddf_select_dtypes. by rewrite Hsel.
  - set (P := λ i, sel (default dt_object (dtypes (_ddf o) !! i)) = true).
    set (idx := omap (λ i, _columns o !! i) (filter P (seq 0 (length (_columns o))))).
    assert (Hsub : idx `sublist_of` _columns o) by apply omap_filter_seq_sublist.
    assert (Hin : ∀ c, c ∈ idx → c ∈ _columns o).
    { intros c Hc. by eapply elem_of_sublist. }
    assert (Hnd' : NoDup idx) by (by eapply sublist_NoDup).
    destruct (getitem_well_formed σ self o idx Ho Hwf Hin Hnd')
      as (df & σ' & o' & Hrun & Ho' & Hc' & Hwf' & Hlog).
    exists df, σ', o'. split.
    { step_by ltac:(by apply run_get_inst).
      step_by ltac:(apply run_lift; unfold ddf_select_dtypes; rewrite Hsel; reflexivity).
      cbn [columns]. rewrite <- Hcols. exact Hrun. }
    split; [done|]. rewrite Hc'. split; [done|].
    split; [|done].
    intros c. apply elem_of_omap_filter_seq.
Qed.

Lemma select_dtypes_projects_on_selected_labels_witness :
  let σ := Examples.built in
  let o := Examples.instance_at σ 0 in
  instances σ !! 0 = Some o
  ∧ well_formed σ o
  ∧ (∃ df σ' o',
       Wrapper.select_dtypes Examples.listed 0 [dt_int64; dt_bool] σ = (inr df, σ')
       ∧ instances σ' !! df = Some o'
       ∧ "b" ∈ _columns o')
  ∧ Wrapper.select_dtypes Examples.listed 0 [] σ
    = (inl (ValueError "at least one of include or exclude must be nonempty"), σ).
Proof.
  intros σ o.
  pose proof example_built_instance as H1.
  pose proof example_built_well_formed as H2.
  split; [exact H1|]. split; [exact H2|]. split.
  - destruct (select_dtypes_projects_on_selected_labels Examples.listed σ 0 o
                [dt_int64; dt_bool] H1 H2)
      as (_ & df & σ' & o' & Hrun & Ho' & _ & Hiff & _).
    exists df, σ', o'. split; [exact Hrun|]. split; [exact Ho'|].
    apply Hiff. exists 1. split; vm_compute; reflexivity.
  - exact (proj2 (select_dtypes_projects_on_selected_labels Examples.listed σ 0 o
                    [] H1 H2)).
Defined.
(** ** The text of a column *)

(** The text a request promises for a cell. *)
Lemma text_of_text (na_as_str : bool) (x : pyobj) :
  (if na_as_str then PyStr (py_str (_to_str_if_not_na x))
   else _to_str_if_not_na (_to_str_if_not_na x))
  = if na_as_str then PyStr (py_str x) else _to_str_if_not_na x.
Proof.
  destruct na_as_str; [|apply str_if_not_na_idemp].
  unfold _to_str_if_not_na. by destruct (checknull x).
Qed.

Lemma no_missing_cell {L : Type} (ddf : DaskFrame L) (j : nat) (p : list row) (r : row)
    (x : pyobj) :
  missing_in_column ddf j = 0 →
  p ∈ partitions ddf → r ∈ p → r !! j = Some x → checknull x = false.
Proof.
  unfold missing_in_column. intros H Hp Hr Hx.
  apply length_zero_iff_nil in H.
  destruct (checknull x) eqn:E; [|done].
  exfalso. eapply (filter_nil_not_elem_of _ _ r H).
  - by rewrite Hx.
  - apply list_elem_of_In, in_concat. exists p. by rewrite <- !list_elem_of_In.
Qed.

Section TextOfColumn.

Variable detect_dtype : Series string → PdSeries string → option DTypeDef → DType.
Variables (t : Table) (value_length repartition : bool) (dtype : option DTypeDef).
Variables (σ0 : store) (is_pandas : bool) (ddf0 : DaskFrame pyobj).
Hypothesis Has : Wrapper.as_dask t repartition = inr (is_pandas, ddf0).
Hypothesis Hnd : NoDup (_process_column_name (columns ddf0)).
Hypothesis Hrect : rectangular ddf0.

(** X13: on an instance built from a table whose rows have one cell per
    label, the first request for a column as text (nothing cached under its
    key in the class-level dictionary) returns, whatever the semantic type
    of the column, the column of the given table with every cell replaced
    by its text; a missing cell is left as it is unless [na_as_str] is
    set. *)
Theorem text_column_of_built_instance
    (cache0 : gmap (string * bool) (Series string)) (j : nat) (col : string)
    (na_as_str : bool) :
  str_caches σ0 !! cls_str_col_cache = Some cache0 →
  cache0 !! (col, na_as_str) = None →
  _process_column_name (columns ddf0) !! j = Some col →
  ∃ self σ1 s σ2,
    Wrapper.__init__ detect_dtype (FromTable t) value_length repartition dtype σ0
    = (inr self, σ1)
    ∧ Wrapper.get_col_as_str self col na_as_str σ1 = (inr s, σ2)
    ∧ s_name s = col
    ∧ s_partitions s
      = map (map (λ r : row,
                    if na_as_str then PyStr (py_str (cell r j))
                    else _to_str_if_not_na (cell r j)))
            (partitions ddf0).
Proof.
  intros Hcache Hmiss Hj.
  destruct (init_table_run_full detect_dtype t value_length repartition dtype σ0
              is_pandas ddf0 _ Has eq_refl Hnd)
    as (e & nc & _ & Hdom & _ & Hcnt & Hrun).
  set (ddf1 := set_columns ddf0 (_process_column_name (columns ddf0))) in *.
  set (tbl := stringified e ddf1) in *.
  assert (Hcol : col ∈ columns ddf1) by (by eapply list_elem_of_lookup_2).
  destruct (Hdom col Hcol) as [dt Hdt].
  specialize (Hcnt j col Hj).
  assert (Hcnt' : nc !! col = Some (missing_in_column ddf0 j)).
  { rewrite Hcnt. unfold tbl. by rewrite missing_in_column_stringified. }
  set (s0 := {| s_name := col;
                s_dtype := default dt_object (dtypes tbl !! j);
                s_partitions := map (map (λ r, cell r j)) (partitions tbl) |}).
  assert (Hs0 : ddf_getitem_col tbl col = inr s0).
  { assert (Hg : get_loc (columns tbl) col = inr j)
      by (apply get_loc_NoDup; [exact Hnd|exact Hj]).
    unfold ddf_getitem_col. by rewrite Hg. }
  assert (Hjlt : j < length (columns ddf0)).
  { apply lookup_lt_Some in Hj. by rewrite process_column_name_length in Hj. }
  assert (Hnom : nominal_at (columns ddf1) e j = is_Nominal dt).
  { unfold nominal_at. cbn [columns ddf1 set_columns]. by rewrite Hj, Hdt. }
  assert (Hcells : ∀ F : pyobj → pyobj,
            map (map F) (s_partitions s0)
            = map (map (λ r : row,
                     F (if is_Nominal dt then _to_str_if_not_na (cell r j) else cell r j)))
                (partitions ddf0)).
  { intros F. cbn [s_partitions s0].
    unfold tbl, stringified, stringified_upto. cbn [partitions ddf1 set_columns columns].
    rewrite !map_map. apply map_ext_in. intros p Hp.
    rewrite !map_map. apply map_ext_in. intros r Hr. f_equal.
    rewrite cell_imap.
    2:{ rewrite (Hrect p r); [done| |]; by apply list_elem_of_In. }
    rewrite process_column_name_length.
    rewrite bool_decide_eq_true_2 by done. cbn [andb].
    by rewrite <- Hnom. }
  set (σ1 := mk_store _ _ _ _) in Hrun.
  set (o := mk_EDAFrame tbl _ _ _ _ _ _ _ _) in *.
  assert (Ho : instances σ1 !! length (instances σ0) = Some o)
    by (by apply list_lookup_middle).
  destruct (returned_directly dt (missing_in_column ddf0 j) na_as_str) eqn:Hd.
  - exists (length (instances σ0)), σ1, s0, σ1.
    split; [exact Hrun|]. split.
    { by apply (run_get_col_as_str_direct σ1 _ o col na_as_str cache0 Ho Hcol Hcache
                  dt (missing_in_column ddf0 j) s0). }
    split; [done|].
    pose proof (Hcells (λ x, x)) as Hc.
    rewrite (map_ext _ id), map_id in Hc by (intros; apply map_id).
    rewrite Hc. apply map_ext_in. intros p Hp. apply map_ext_in. intros r Hr.
    unfold returned_directly in Hd. apply andb_true_iff in Hd as [-> Hd].
    destruct na_as_str; [|done].
    cbn in Hd. rewrite orb_false_r in Hd. apply bool_decide_eq_true_1 in Hd.
    unfold _to_str_if_not_na.
    assert (Hlen : j < length r).
    { rewrite (Hrect p r); [done| |]; by apply list_elem_of_In. }
    destruct (lookup_lt_is_Some_2 r j Hlen) as [x Hx].
    unfold cell. rewrite Hx. simpl.
    by rewrite (no_missing_cell ddf0 j p r x Hd) by (done || by apply list_elem_of_In).
  - eexists (length (instances σ0)), σ1, (coerced s0 na_as_str), _.
    split; [exact Hrun|]. split.
    { by apply (run_get_col_as_str_coerce σ1 _ o col na_as_str cache0 Ho Hcol Hcache
                  dt (missing_in_column ddf0 j) s0). }
    split; [by destruct na_as_str|].
    transitivity (map (map (λ x, if na_as_str then PyStr (py_str x)
                                 else _to_str_if_not_na x)) (s_partitions s0)).
    { unfold coerced, series_astype_str, series_apply. by destruct na_as_str. }
    rewrite Hcells. apply map_ext. intros p. apply map_ext. intros r.
    destruct (is_Nominal dt); [|done]. apply text_of_text.
Qed.

End TextOfColumn.

Lemma text_column_of_built_instance_witness :
  Wrapper.as_dask (DaskTable Examples.lazy_table) true
  = inr (false, Examples.lazy_table)
  ∧ NoDup (_process_column_name (columns Examples.lazy_table))
  ∧ rectangular Examples.lazy_table
  ∧ str_caches initial_store !! cls_str_col_cache = Some ∅
  ∧ (∅ : gmap (string * bool) (Series string)) !! ("a", true) = None
  ∧ _process_column_name (columns Examples.lazy_table) !! 0 = Some "a"
  ∧ ∃ self σ1 s σ2,
      Wrapper.__init__ Examples.by_storage (FromTable (DaskTable Examples.lazy_table))
        false true None initial_store = (inr self, σ1)
      ∧ Wrapper.get_col_as_str self "a" true σ1 = (inr s, σ2)
      ∧ s_partitions s = [[PyStr "x"; PyStr "None"]; [PyStr "[1, 2]"]].
Proof.
  assert (H1 : Wrapper.as_dask (DaskTable Examples.lazy_table) true
               = inr (false, Examples.lazy_table)) by reflexivity.
  assert (H2 : NoDup (_process_column_name (columns Examples.lazy_table))).
  { apply (bool_decide_unpack _). vm_compute. exact I. }
  assert (H3 : rectangular Examples.lazy_table).
  { unfold rectangular. intros p r Hp Hr.
    assert (H : Forall (Forall (λ r : row, length r = 3))
                  (partitions Examples.lazy_table)).
    { apply (bool_decide_unpack _). vm_compute. exact I. }
    exact (proj1 (Forall_forall _ _) (proj1 (Forall_forall _ _) H p Hp) r Hr). }
  assert (H4 : str_caches initial_store !! cls_str_col_cache = Some ∅) by reflexivity.
  assert (H5 : (∅ : gmap (string * bool) (Series string)) !! ("a", true) = None)
    by reflexivity.
  assert (H6 : _process_column_name (columns Examples.lazy_table) !! 0 = Some "a")
    by (vm_compute; reflexivity).
  repeat (split; [assumption|]).
  destruct (text_column_of_built_instance Examples.by_storage
              (DaskTable Examples.lazy_table) false true None initial_store
              false Examples.lazy_table H1 H2 H3 ∅ 0 "a" true H4 H5 H6)
    as (self & σ1 & s & σ2 & Hrun & Hget & _ & Hs).
  exists self, σ1, s, σ2. split; [exact Hrun|]. split; [exact Hget|].
  rewrite Hs. vm_compute. reflexivity.
Defined.
(** ** Normalised labels *)

Lemma process_column_name_lookup (df_columns : list pyobj) (i : nat) (x : pyobj) :
  df_columns !! i = Some x →
  _process_column_name df_columns !! i
  = Some (renamed (map py_str df_columns) i (py_str x)).
Proof.
  intros Hi. unfold _process_column_name.
  rewrite (rename_loop_spec (map py_str df_columns)); [|simpl; lia|done|done|].
  - simpl. rewrite drop_0, list_lookup_imap, list_lookup_fmap, Hi. done.
  - intros c _. by rewrite lookup_empty.
Qed.

Lemma occurrences_take_le (c : string) (l : list string) (n : nat) :
  occurrences c (take n l) ≤ occurrences c l.
Proof.
  rewrite <- (take_drop n l) at 2. unfold occurrences.
  rewrite filter_app, length_app. lia.
Qed.

Lemma occurrences_take_mono (c : string) (l : list string) (n m : nat) :
  n ≤ m → occurrences c (take n l) ≤ occurrences c (take m l).
Proof.
  intros Hnm. replace (take n l) with (take n (take m l)).
  - apply occurrences_take_le.
  - rewrite take_take. f_equal. lia.
Qed.

Lemma occurrences_NoDup (c : string) (l : list string) :
  NoDup l → occurrences c l ≤ 1.
Proof.
  unfold occurrences. induction 1 as [|x l Hx Hnd IH]; [simpl; lia|].
  rewrite filter_cons. destruct (decide (x = c)) as [->|]; [|done].
  simpl. destruct (filter _ l) as [|y l'] eqn:E; [simpl; lia|].
  exfalso. apply Hx.
  assert (Hy : y ∈ filter (λ x, x = c) l) by (rewrite E; left).
  apply list_elem_of_filter in Hy as [-> Hy]. done.
Qed.

Lemma renamed_separates (cols : list string) (i j : nat) (c : string) :
  i < j → cols !! i = Some c → cols !! j = Some c →
  renamed cols i c ≠ renamed cols j c.
Proof.
  intros Hij Hi Hj.
  pose proof (occurrences_take_S cols i c c Hi) as Ei.
  pose proof (occurrences_take_S cols j c c Hj) as Ej.
  rewrite decide_True in Ei, Ej by done.
  pose proof (occurrences_take_mono c cols (S i) j ltac:(lia)) as Hm.
  pose proof (occurrences_take_le c cols (S j)) as Hle.
  unfold renamed. rewrite !decide_True by lia.
  intros Heq. apply String.app_inj, String.app_inj, pretty_nat_inj in Heq. lia.
Qed.

(** X14: labels whose texts are pairwise distinct are only turned into
    their text: no suffix is added and the order is kept. *)
Theorem process_column_name_keeps_distinct_labels (df_columns : list pyobj) :
  NoDup (map py_str df_columns) →
  _process_column_name df_columns = map py_str df_columns.
Proof.
  intros Hnd. apply list_eq. intros i.
  rewrite list_lookup_fmap.
  destruct (df_columns !! i) as [x|] eqn:Hi.
  - rewrite (process_column_name_lookup _ _ _ Hi). simpl. f_equal.
    unfold renamed. rewrite decide_False; [done|].
    pose proof (occurrences_NoDup (py_str x) _ Hnd). lia.
  - simpl. apply lookup_ge_None. rewrite process_column_name_length.
    by apply lookup_ge_None.
Qed.

Lemma process_column_name_keeps_distinct_labels_witness :
  NoDup (map py_str [PyStr "a"; PyInt 1; PyStr "b"])
  ∧ _process_column_name [PyStr "a"; PyInt 1; PyStr "b"] = ["a"; "1"; "b"].
Proof.
  assert (H : NoDup (map py_str [PyStr "a"; PyInt 1; PyStr "b"])).
  { apply (bool_decide_unpack _). vm_compute. exact I. }
  split; [exact H|].
  exact (process_column_name_keeps_distinct_labels [PyStr "a"; PyInt 1; PyStr "b"] H).
Defined.

(** X15: two labels with the same text at different positions receive
    different new labels.  The result as a whole can still hold a label
    twice, since a new label may be the text of another label. *)
Theorem process_column_name_separates_equal_labels (df_columns : list pyobj)
    (i j : nat) (x y : pyobj) :
  i ≠ j →
  df_columns !! i = Some x →
  df_columns !! j = Some y →
  py_str x = py_str y →
  (∃ a b, _process_column_name df_columns !! i = Some a
          ∧ _process_column_name df_columns !! j = Some b
          ∧ a ≠ b)
  ∧ ¬ NoDup (_process_column_name [PyStr "a"; PyStr "a"; PyStr "a_1"]).
Proof.
  intros Hij Hi Hj Hxy. split.
  - eexists _, _.
    split; [by apply process_column_name_lookup|].
    split; [by apply process_column_name_lookup|].
    assert (Hci : map py_str df_columns !! i = Some (py_str x))
      by (by rewrite list_lookup_fmap, Hi).
    assert (Hcj : map py_str df_columns !! j = Some (py_str x))
      by (by rewrite list_lookup_fmap, Hj, Hxy).
    rewrite <- Hxy.
    destruct (decide (i < j)).
    + by apply renamed_separates.
    + intros Heq. symmetry in Heq. revert Heq. apply renamed_separates; [lia|done..].
  - intros H. apply (bool_decide_pack _) in H. vm_compute in H. exact H.
Qed.

Lemma process_column_name_separates_equal_labels_witness :
  0 ≠ 2
  ∧ [PyStr "1"; PyStr "b"; PyInt 1] !! 0 = Some (PyStr "1")
  ∧ [PyStr "1"; PyStr "b"; PyInt 1] !! 2 = Some (PyInt 1)
  ∧ py_str (PyStr "1") = py_str (PyInt 1)
  ∧ ∃ a b, _process_column_name [PyStr "1"; PyStr "b"; PyInt 1] !! 0 = Some a
           ∧ _process_column_name [PyStr "1"; PyStr "b"; PyInt 1] !! 2 = Some b
           ∧ a ≠ b.
Proof.
  assert (H1 : 0 ≠ 2) by lia.
  assert (H2 : [PyStr "1"; PyStr "b"; PyInt 1] !! 0 = Some (PyStr "1")) by reflexivity.
  assert (H3 : [PyStr "1"; PyStr "b"; PyInt 1] !! 2 = Some (PyInt 1)) by reflexivity.
  assert (H4 : py_str (PyStr "1") = py_str (PyInt 1)) by (vm_compute; reflexivity).
  repeat (split; [assumption|]).
  exact (proj1 (process_column_name_separates_equal_labels
                  [PyStr "1"; PyStr "b"; PyInt 1] 0 2 _ _ H1 H2 H3 H4)).
Defined.
(** ** Repeated [compute] and shared views *)

(** X16: [compute("nulls")] works once: the first call materialises the
    nullity view, and a second call on the same instance fails with
    [AttributeError], since the materialised array has no [map_blocks]; the
    failing call leaves the store as it is. *)
Theorem compute_nulls_second_call_fails (σ : store) (self : loc) (o : EDAFrame)
    (ln : loc) (x v : DaskArray) (b : ndarray) (bs : list ndarray) :
  instances σ !! self = Some o →
  _nulls o = NullsLazy ln →
  arrays σ !! ln = Some x →
  blocks x = b :: bs →
  arrays σ !! _values o = Some v →
  ∃ σ1,
    Wrapper.compute self "nulls" σ = (inr tt, σ1)
    ∧ Wrapper.compute self "nulls" σ1
      = (inl (AttributeError "'numpy.ndarray' object has no attribute 'map_blocks'"), σ1).
Proof.
  intros Ho Hn Hx Hb Hv.
  assert (Hlt : self < length (instances σ)) by by eapply lookup_lt_Some.
  eexists. split; [by eapply run_compute_nulls|].
  unfold Wrapper.compute. rewrite decide_False by done. rewrite decide_True by done.
  unfold Wrapper.nulls. rewrite ?bind_assoc.
  step_by ltac:(apply run_get_inst; cbn [instances]; by apply list_lookup_insert_eq).
  rewrite ?bind_assoc. step_refl.
  cbn [_nulls with_nulls]. reflexivity.
Qed.

Lemma compute_nulls_second_call_fails_witness :
  let σ := Examples.built in
  let o := Examples.instance_at σ 0 in
  ∃ b bs,
    instances σ !! 0 = Some o
    ∧ _nulls o = NullsLazy 1
    ∧ arrays σ !! 1 = Some (Examples.array_at σ 1)
    ∧ blocks (Examples.array_at σ 1) = b :: bs
    ∧ arrays σ !! _values o = Some (Examples.array_at σ 0)
    ∧ ∃ σ1,
        Wrapper.compute 0 "nulls" σ = (inr tt, σ1)
        ∧ Wrapper.compute 0 "nulls" σ1
          = (inl (AttributeError "'numpy.ndarray' object has no attribute 'map_blocks'"),
             σ1).
Proof.
  intros σ o. eexists _, _.
  assert (H1 : instances σ !! 0 = Some o) by (vm_compute; reflexivity).
  assert (H2 : _nulls o = NullsLazy 1) by (vm_compute; reflexivity).
  assert (H3 : arrays σ !! 1 = Some (Examples.array_at σ 1)) by (vm_compute; reflexivity).
  assert (H5 : arrays σ !! _values o = Some (Examples.array_at σ 0))
    by (vm_compute; reflexivity).
  split; [exact H1|]. split; [exact H2|]. split; [exact H3|].
  refine ((λ H4, conj H4 (conj H5
            (compute_nulls_second_call_fails σ 0 o 1 _ _ _ _ H1 H2 H3 H4 H5))) _).
  vm_compute. reflexivity.
Defined.

(** X17: [compute("lengths")] asks nothing of the engine and leaves the
    arrays as they are when the row count the instance answers is resolved.
    When it is unresolved the call reads the lengths once, and so does every
    later call, since the unresolved row count stays cached: two calls in a
    row issue two requests and allocate four arrays. *)
Theorem compute_lengths_requests (σ : store) (self : loc) (o : EDAFrame)
    (v : DaskArray) :
  instances σ !! self = Some o →
  arrays σ !! _values o = Some v →
  match (default (da_shape v) (_shape o)).1 with
  | Some n =>
    ∃ σ1, Wrapper.compute self "lengths" σ = (inr tt, σ1)
          ∧ arrays σ1 = arrays σ
          ∧ engine_log σ1 = engine_log σ
  | None =>
    ∃ σ1 σ2, Wrapper.compute self "lengths" σ = (inr tt, σ1)
             ∧ Wrapper.compute self "lengths" σ1 = (inr tt, σ2)
             ∧ engine_log σ1 = engine_log σ ++ [EvLengths]
             ∧ engine_log σ2 = engine_log σ ++ [EvLengths; EvLengths]
             ∧ length (arrays σ2) = length (arrays σ) + 4
  end.
Proof.
  intros Ho Hv.
  assert (Hlt : self < length (instances σ)) by by eapply lookup_lt_Some.
  destruct (default (da_shape v) (_shape o)) as [r c] eqn:Hd.
  destruct r as [n|]; cbn [fst].
  - eexists. split.
    { apply (run_compute_lengths_resolved _ _ _ _ Ho Hv). by rewrite Hd. }
    done.
  - eexists _, _. split.
    { apply (run_compute_lengths_unresolved _ _ _ _ Ho Hv). by rewrite Hd. }
    rewrite Hd. split.
    { eapply run_compute_lengths_unresolved; cbn [instances arrays].
      - by apply list_lookup_insert_eq.
      - cbn [_values with_nulls with_values]. by apply list_lookup_middle.
      - done. }
    cbn [engine_log arrays]. split; [done|]. split; [by rewrite <- app_assoc|].
    rewrite !length_app. simpl. lia.
Qed.

Lemma compute_lengths_requests_witness :
  let σ := Examples.built in
  let o := Examples.instance_at σ 0 in
  instances σ !! 0 = Some o
  ∧ arrays σ !! _values o = Some (Examples.array_at σ 0)
  ∧ ∃ σ1 σ2, Wrapper.compute 0 "lengths" σ = (inr tt, σ1)
             ∧ Wrapper.compute 0 "lengths" σ1 = (inr tt, σ2)
             ∧ engine_log σ2 = engine_log σ ++ [EvLengths; EvLengths].
Proof.
  intros σ o.
  assert (H1 : instances σ !! 0 = Some o) by (vm_compute; reflexivity).
  assert (H2 : arrays σ !! _values o = Some (Examples.array_at σ 0))
    by (vm_compute; reflexivity).
  split; [exact H1|]. split; [exact H2|].
  pose proof (compute_lengths_requests σ 0 o _ H1 H2) as H.
  assert (E : (default (da_shape (Examples.array_at σ 0)) (_shape o)).1 = None)
    by (vm_compute; reflexivity).
  rewrite E in H. destruct H as (σ1 & σ2 & Ha & Hb & _ & Hc & _).
  exists σ1, σ2. split; [exact Ha|]. split; [exact Hb|exact Hc].
Defined.

(** X18: constructing an instance from an instance copies the references,
    not the views: the copy is a new instance with the fields of the source
    and nothing is asked of the engine.  So [compute("nulls")] on the copy
    rewrites the row chunks of the array view that the source also uses,
    while the source itself is left as it was, with its nullity view still
    lazy. *)
Theorem copy_shares_array_view
    (detect_dtype : Series string → PdSeries string → option DTypeDef → DType)
    (value_length repartition : bool) (dtype : option DTypeDef)
    (σ : store) (src : loc) (o : EDAFrame)
    (ln : loc) (x v : DaskArray) (b : ndarray) (bs : list ndarray) :
  instances σ !! src = Some o →
  _nulls o = NullsLazy ln →
  arrays σ !! ln = Some x →
  blocks x = b :: bs →
  arrays σ !! _values o = Some v →
  ∃ cp σ1 σ2 v',
    Wrapper.__init__ detect_dtype (FromEDAFrame src) value_length repartition dtype σ
    = (inr cp, σ1)
    ∧ cp ≠ src
    ∧ instances σ1 !! cp = Some o
    ∧ arrays σ1 = arrays σ ∧ str_caches σ1 = str_caches σ
    ∧ engine_log σ1 = engine_log σ
    ∧ Wrapper.compute cp "nulls" σ1 = (inr tt, σ2)
    ∧ instances σ2 !! src = Some o
    ∧ arrays σ2 !! _values o = Some v'
    ∧ chunks v' = (map (λ b, Some (length (nd_rows b))) (blocks x), [nd_ncols b])
    ∧ blocks v' = blocks v.
Proof.
  intros Ho Hn Hx Hb Hv.
  assert (Hlt : src < length (instances σ)) by by eapply lookup_lt_Some.
  assert (Hvlt : _values o < length (arrays σ)) by by eapply lookup_lt_Some.
  assert (Hrun : Wrapper.__init__ detect_dtype (FromEDAFrame src) value_length
                   repartition dtype σ
                 = (inr (length (instances σ)),
                    mk_store (instances σ ++ [o]) (arrays σ) (str_caches σ)
                      (engine_log σ))).
  { unfold Wrapper.__init__. step_by ltac:(by apply run_get_inst). by destruct o. }
  eexists _, _, _, _. split; [exact Hrun|].
  split; [lia|].
  cbn [instances arrays str_caches engine_log].
  split; [apply lookup_snoc|]. split; [done|]. split; [done|]. split; [done|].
  split.
  { eapply run_compute_nulls; cbn [instances arrays]; try done. apply lookup_snoc. }
  cbn [instances arrays].
  split.
  { rewrite list_lookup_insert_ne by lia. by apply lookup_snoc_old. }
  split; [by apply list_lookup_insert_eq|]. done.
Qed.

Lemma copy_shares_array_view_witness :
  let σ := Examples.built in
  let o := Examples.instance_at σ 0 in
  ∃ b bs,
    instances σ !! 0 = Some o
    ∧ _nulls o = NullsLazy 1
    ∧ arrays σ !! 1 = Some (Examples.array_at σ 1)
    ∧ blocks (Examples.array_at σ 1) = b :: bs
    ∧ arrays σ !! _values o = Some (Examples.array_at σ 0)
    ∧ ∃ cp σ1 σ2 v',
        Wrapper.__init__ Examples.by_storage (FromEDAFrame 0) false true None σ
        = (inr cp, σ1)
        ∧ Wrapper.compute cp "nulls" σ1 = (inr tt, σ2)
        ∧ instances σ2 !! 0 = Some o
        ∧ arrays σ2 !! _values o = Some v'
        ∧ (chunks v').1 ≠ (chunks (Examples.array_at σ 0)).1.
Proof.
  intros σ o. eexists _, _.
  assert (H1 : instances σ !! 0 = Some o) by (vm_compute; reflexivity).
  assert (H2 : _nulls o = NullsLazy 1) by (vm_compute; reflexivity).
  assert (H3 : arrays σ !! 1 = Some (Examples.array_at σ 1)) by (vm_compute; reflexivity).
  assert (H5 : arrays σ !! _values o = Some (Examples.array_at σ 0))
    by (vm_compute; reflexivity).
  split; [exact H1|]. split; [exact H2|]. split; [exact H3|].
  refine ((λ H4, conj H4 (conj H5 _)) _); [|vm_compute; reflexivity].
  destruct (copy_shares_array_view Examples.by_storage false true None σ 0 o 1 _ _ _ _
              H1 H2 H3 H4 H5)
    as (cp & σ1 & σ2 & v' & Hrun & _ & _ & _ & _ & _ & Hc & Ho2 & Hv' & Hch & _).
  exists cp, σ1, σ2, v'. repeat (split; [assumption|]).
  rewrite Hch. vm_compute. discriminate.
Defined.
(** ** Projection on all labels *)

Lemma positions_of_all_labels (cols : list string) (cidx : list nat) :
  NoDup cols →
  Forall2 (λ c i, cols !! i = Some c) cols cidx →
  cidx = seq 0 (length cols).
Proof.
  intros Hnd Hall. apply list_eq. intros k.
  destruct (cols !! k) as [c|] eqn:Hk.
  - destruct (Forall2_lookup_l _ _ _ _ _ Hall Hk) as (i & Hi & Hci).
    rewrite Hi. rewrite (NoDup_lookup _ _ _ _ Hnd Hci Hk).
    symmetry. apply lookup_seq. apply lookup_lt_Some in Hk. lia.
  - apply lookup_ge_None in Hk.
    rewrite (proj2 (lookup_ge_None cidx k)).
    + symmetry. apply lookup_ge_None. by rewrite length_seq.
    + by rewrite <- (Forall2_length _ _ _ Hall).
Qed.

Lemma cells_of_row (r : row) : map (cell r) (seq 0 (length r)) = r.
Proof.
  apply list_eq. intros k. rewrite list_lookup_fmap.
  destruct (r !! k) as [x|] eqn:Hk.
  - rewrite (proj2 (lookup_seq 0 (length r) k k)).
    + simpl. unfold cell. by rewrite Hk.
    + apply lookup_lt_Some in Hk. lia.
  - apply lookup_ge_None in Hk.
    rewrite (proj2 (lookup_ge_None (seq 0 (length r)) k)); [done|].
    by rewrite length_seq.
Qed.

(** X19: projecting a well-formed instance, whose table has one cell per
    label in every row, on all of its labels in their order gives an
    instance with the same labels, the same rows in the same partitions,
    and the same semantic type and missing count for every label. *)
Theorem projection_on_all_labels (σ : store) (self : loc) (o : EDAFrame) :
  instances σ !! self = Some o →
  well_formed σ o →
  rectangular (_ddf o) →
  ∃ df σ' o',
    Wrapper.__getitem__ self (IndexList (_columns o)) σ = (inr df, σ')
    ∧ df ≠ self
    ∧ instances σ' !! df = Some o'
    ∧ _columns o' = _columns o
    ∧ partitions (_ddf o') = partitions (_ddf o)
    ∧ (∀ c, c ∈ _columns o →
         _eda_dtypes o' !! c = _eda_dtypes o !! c
         ∧ _nulls_cnt o' !! c = _nulls_cnt o !! c).
Proof.
  intros Ho Hwf Hrect.
  destruct (getitem_run σ self o (_columns o) Ho Hwf ltac:(done))
    as (df & σ' & o' & v0 & v' & cidx & cache & C & Hrun & Hdf & Hall & Hv0 & Hcache
        & Ho' & Hc & Hddf & Hv' & Hb & Hch & Hdt & HE & HN & _).
  destruct Hwf as (Hcols & Hnd & _).
  apply positions_of_all_labels in Hall; [|done].
  exists df, σ', o'. split; [done|].
  split; [apply lookup_lt_Some in Ho; lia|].
  split; [done|]. split; [done|]. split.
  - rewrite Hddf. cbn [partitions]. rewrite <- (map_id (partitions (_ddf o))) at 2.
    apply map_ext_in. intros p Hp. unfold take_cols.
    rewrite <- (map_id p) at 2. apply map_ext_in. intros r Hr.
    rewrite Hall, Hcols, <- (Hrect p r) by (by apply list_elem_of_In).
    apply cells_of_row.
  - intros c Hcin. by rewrite HE, HN, !decide_True.
Qed.

Lemma projection_on_all_labels_witness :
  let σ := Examples.built in
  let o := Examples.instance_at σ 0 in
  instances σ !! 0 = Some o
  ∧ well_formed σ o
  ∧ rectangular (_ddf o)
  ∧ ∃ df σ' o',
      Wrapper.__getitem__ 0 (IndexList ["a"; "b"; "c"]) σ = (inr df, σ')
      ∧ instances σ' !! df = Some o'
      ∧ partitions (_ddf o') = partitions (_ddf o).
Proof.
  intros σ o.
  pose proof example_built_instance as H1.
  pose proof example_built_well_formed as H2.
  assert (H3 : rectangular (_ddf o)).
  { unfold rectangular. intros p r Hp Hr.
    assert (H : Forall (Forall (λ r : row, length r = 3)) (partitions (_ddf o))).
    { apply (bool_decide_unpack _). vm_compute. exact I. }
    exact (proj1 (Forall_forall _ _) (proj1 (Forall_forall _ _) H p Hp) r Hr). }
  split; [exact H1|]. split; [exact H2|]. split; [exact H3|].
  destruct (projection_on_all_labels σ 0 o H1 H2 H3)
    as (df & σ' & o' & Hrun & _ & Ho' & _ & Hp & _).
  exists df, σ', o'. split; [exact Hrun|]. split; [exact Ho'|exact Hp].
Defined.

Lemma projection_serves_cached_columns_witness :
  let σ := Examples.built_and_asked in
  let o := Examples.instance_at σ 0 in
  ∃ s,
    instances σ !! 0 = Some o
    ∧ well_formed σ o
    ∧ (∀ c, c ∈ ["b"] → c ∈ _columns o)
    ∧ str_caches σ !! _str_col_cache o = Some (Examples.cache_at σ 0)
    ∧ Examples.cache_at σ 0 !! ("b", false) = Some s
    ∧ "b" ∈ ["b"]
    ∧ ∃ df σ',
        Wrapper.__getitem__ 0 (IndexList ["b"]) σ = (inr df, σ')
        ∧ Wrapper.get_col_as_str df "b" false σ' = (inr s, σ')
        ∧ engine_log σ' = engine_log σ.
Proof.
  intros σ o. eexists.
  assert (H1 : instances σ !! 0 = Some o) by (vm_compute; reflexivity).
  assert (H2 : well_formed σ o).
  { unfold well_formed.
    split; [vm_compute; reflexivity|].
    split; [apply (bool_decide_unpack _); vm_compute; exact I|].
    split; [vm_compute; eexists; reflexivity|].
    split.
    { intros l H. vm_compute in H. injection H as <-. vm_compute. eexists. reflexivity. }
    split.
    { intros h H. vm_compute in H. discriminate H. }
    split; [vm_compute; eexists; reflexivity|].
    apply (proj1 (Forall_forall _ _)).
    apply (bool_decide_unpack _). vm_compute. exact I. }
  assert (H3 : ∀ c, c ∈ ["b"] → c ∈ _columns o).
  { apply (proj1 (Forall_forall _ _)). apply (bool_decide_unpack _). vm_compute. exact I. }
  assert (H4 : str_caches σ !! _str_col_cache o = Some (Examples.cache_at σ 0))
    by (vm_compute; reflexivity).
  assert (H6 : "b" ∈ ["b"]) by (apply (bool_decide_unpack _); vm_compute; exact I).
  split; [exact H1|]. split; [exact H2|]. split; [exact H3|]. split; [exact H4|].
  refine ((λ H5, conj H5 (conj H6
            (projection_serves_cached_columns σ 0 o ["b"] H1 H2 H3 _ "b" false _
               H4 H5 H6))) _).
  vm_compute. reflexivity.
Defined.

(** ** What construction asks of the engine *)

Section ConstructionRequests.

Variable detect_dtype : Series string → PdSeries string → option DTypeDef → DType.
Variables (t : Table) (value_length repartition : bool) (dtype : option DTypeDef).
Variables (σ0 : store) (is_pandas : bool) (ddf0 : DaskFrame pyobj).
Hypothesis Has : Wrapper.as_dask t repartition = inr (is_pandas, ddf0).
Hypothesis Hnd : NoDup (_process_column_name (columns ddf0)).

(** X20: construction from a table makes one new instance and two new
    arrays and leaves every instance, array and dictionary of the store as
    it was (the class-level dictionary is referred to, not written).  It
    asks the engine, in this order, to persist the table, for the first 100
    rows, to persist the rewritten table, for the partition lengths (only
    with [value_length] or an input from pandas) and for the nullity
    table. *)
Theorem construction_requests :
  ∃ self σ1 o,
    Wrapper.__init__ detect_dtype (FromTable t) value_length repartition dtype σ0
    = (inr self, σ1)
    ∧ self = length (instances σ0)
    ∧ instances σ1 = instances σ0 ++ [o]
    ∧ _str_col_cache o = cls_str_col_cache
    ∧ str_caches σ1 = str_caches σ0
    ∧ (∃ v n, arrays σ1 = arrays σ0 ++ [v; n])
    ∧ engine_log σ1
      = engine_log σ0 ++ [EvPersist; EvHead 100; EvPersist]
        ++ (if value_length || is_pandas then [EvLengths] else [])
        ++ [EvCompute].
Proof.
  destruct (init_table_run_full detect_dtype t value_length repartition dtype σ0
              is_pandas ddf0 _ Has eq_refl Hnd)
    as (e & nc & _ & _ & _ & _ & Hrun).
  eexists _, _, _. split; [exact Hrun|].
  cbn [instances arrays str_caches engine_log _str_col_cache].
  split; [done|]. split; [done|]. split; [done|]. split; [done|].
  split; [by eexists _, _|done].
Qed.

End ConstructionRequests.

Lemma construction_requests_witness :
  Wrapper.as_dask (DaskTable Examples.lazy_table) true
  = inr (false, Examples.lazy_table)
  ∧ NoDup (_process_column_name (columns Examples.lazy_table))
  ∧ ∃ self σ1,
      Wrapper.__init__ Examples.by_storage (FromTable (DaskTable Examples.lazy_table))
        false true None initial_store = (inr self, σ1)
      ∧ engine_log σ1 = [EvPersist; EvHead 100; EvPersist; EvCompute].
Proof.
  assert (H1 : Wrapper.as_dask (DaskTable Examples.lazy_table) true
               = inr (false, Examples.lazy_table)) by reflexivity.
  assert (H2 : NoDup (_process_column_name (columns Examples.lazy_table))).
  { apply (bool_decide_unpack _). vm_compute. exact I. }
  split; [exact H1|]. split; [exact H2|].
  destruct (construction_requests Examples.by_storage
              (DaskTable Examples.lazy_table) false true None initial_store
              false Examples.lazy_table H1 H2)
    as (self & σ1 & o & Hrun & _ & _ & _ & _ & _ & Hlog).
  exists self, σ1. split; [exact Hrun|]. exact Hlog.
Defined.
